(** * church_transcribe_batch: the batch pipeline executor

    A shallow embedding of the PowerShell batch script that drives ffmpeg and
    whisper.cpp over a folder of recordings, and the properties of it that the
    specification states.

    Conventions of the embedding.
    - A .NET string is a Rocq [string]; one [ascii] stands for one UTF-16 code
      unit in the range U+0000..U+00FF.  The character classes used by the
      script ([\s], [\d], [a-z0-9], [Char.IsWhiteSpace]) are given on that
      range.
    - The pure text helpers work on the list of characters of a string.
    - [int] values are [Z]; lengths and counts are [nat].
    - The script is a computation in a monad of state and outcome: the state
      holds the file system, the variables [$results] and [$processed], and
      the transcript of what the script does to the outside; the outcome
      tells [continue], [exit] and [throw] apart.
    - The engines, the listing of the input folder, the commands on the PATH,
      the clock, [Resolve-Path], [ConvertTo-Json] and the order of the
      current culture by which [Sort-Object] sorts are an environment; the
      engines write their output paths and nothing else.  The pause marker
      is set and removed from outside: the state holds what the coming
      polls will see.
    - The script runs under [Set-StrictMode -Version Latest]: a pipeline that
      gives no object has the value [$null], one that gives a single object
      has that object as its value, and only one that gives two objects or
      more has an array; the reference to [.Count] on [$null] or on a single
      object is an error that ends the script.
    - In a double-quoted string the backtick is the escape character.  Line
      388 is read that way.  On lines 133 and 166 the backtick before the
      closing quotation mark keeps the literal open beyond its line; what
      the two document builders return from there is left to the
      environment.
    - The comparison of a date bucket with the cutoff by [-gt] is the ordinal
      one. *)

From Stdlib Require Import ZArith Strings.String Strings.Ascii Numbers.DecimalString.
From stdpp Require Import base tactics option list strings gmap.

Open Scope string_scope.

(** ** Characters *)

Module Char.

Definition code (c : ascii) : nat := nat_of_ascii c.

Definition between (lo hi : nat) (c : ascii) : bool :=
  (lo <=? code c)%nat && (code c <=? hi)%nat.

(** [a-z] *)
Definition is_lower (c : ascii) : bool := between 97 122 c.
(** [A-Z] *)
Definition is_upper (c : ascii) : bool := between 65 90 c.
(** [\d], which on this range is [0-9] *)
Definition is_digit (c : ascii) : bool := between 48 57 c.
(** the regex class [a-z0-9] *)
Definition is_az09 (c : ascii) : bool := is_lower c || is_digit c.
Definition is_hyphen (c : ascii) : bool := (code c =? 45)%nat.
(** [-_] *)
Definition is_date_sep (c : ascii) : bool :=
  (code c =? 45)%nat || (code c =? 95)%nat.
(** [.!?] *)
Definition is_terminator (c : ascii) : bool :=
  (code c =? 46)%nat || (code c =? 33)%nat || (code c =? 63)%nat.

(** [Char.IsWhiteSpace], which agrees with the regex class [\s] here:
    U+0009..U+000D, U+0020, U+0085, U+00A0. *)
Definition IsWhiteSpace (c : ascii) : bool :=
  between 9 13 c || (code c =? 32)%nat || (code c =? 133)%nat
  || (code c =? 160)%nat.

(** [Char.ToLowerInvariant]: A-Z, and the Latin-1 capitals U+00C0..U+00DE
    except the multiplication sign U+00D7. *)
Definition ToLowerInvariant (c : ascii) : ascii :=
  if is_upper c || (between 192 222 c && negb (code c =? 215)%nat)
  then ascii_of_nat (code c + 32)
  else c.

End Char.

(** ** Text helpers on character lists *)

Abbreviation chars := (list ascii).

Definition hyphen : ascii := "-"%char.
Definition space : ascii := " "%char.

Definition of_string (s : string) : chars := list_ascii_of_string s.
Definition to_string (l : chars) : string := string_of_list_ascii l.

Module Text.

(** [[string]::IsNullOrWhiteSpace] *)
Definition IsNullOrWhiteSpace (s : chars) : bool := forallb Char.IsWhiteSpace s.

Definition ToLowerInvariant (s : chars) : chars := map Char.ToLowerInvariant s.

(** [[regex]::Replace(s, "C+", r)] for a character class [C] and a
    one-character replacement: every maximal run of characters of the class
    becomes one [r].  [in_run] tells that the previous character was
    already in the run being replaced. *)
Fixpoint Replace_runs (C : ascii -> bool) (r : ascii) (in_run : bool)
    (s : chars) : chars :=
  match s with
  | [] => []
  | c :: s' =>
      if C c
      then (if in_run then Replace_runs C r true s'
            else r :: Replace_runs C r true s')
      else c :: Replace_runs C r false s'
  end.

Fixpoint TrimStart (P : ascii -> bool) (s : chars) : chars :=
  match s with
  | [] => []
  | c :: s' => if P c then TrimStart P s' else s
  end.

Fixpoint TrimEnd (P : ascii -> bool) (s : chars) : chars :=
  match s with
  | [] => []
  | c :: s' =>
      match TrimEnd P s' with
      | [] => if P c then [] else [c]
      | t => c :: t
      end
  end.

(** [s.Trim(set)] *)
Definition TrimSet (P : ascii -> bool) (s : chars) : chars :=
  TrimEnd P (TrimStart P s).

(** [s.Trim()] *)
Definition Trim (s : chars) : chars := TrimSet Char.IsWhiteSpace s.

(** [s.Substring(0, n)], used only where [n <= s.Length] *)
Definition Substring0 (n : nat) (s : chars) : chars := take n s.

End Text.

(** The first, the last character of a text is of class [P]. *)
Definition starts_with (P : ascii -> bool) (s : chars) : bool :=
  match s with [] => false | c :: _ => P c end.

Definition ends_with (P : ascii -> bool) (s : chars) : bool :=
  match last s with None => false | Some c => P c end.

(** No two characters of class [P] are adjacent; [prev] tells that the
    character before the list is of the class. *)
Fixpoint no_adjacent (P : ascii -> bool) (prev : bool) (s : chars) : bool :=
  match s with
  | [] => true
  | c :: s' =>
      if P c then negb prev && no_adjacent P true s'
      else no_adjacent P false s'
  end.

(** ** Get-Slug *)

Definition service : chars := of_string "service".

Definition slug_chars (Text : chars) : chars :=
  if Text.IsNullOrWhiteSpace Text then service
  else
    let s := Text.ToLowerInvariant Text in
    let s := Text.Replace_runs (fun c => negb (Char.is_az09 c)) hyphen false s in
    let s := Text.Replace_runs Char.is_hyphen hyphen false s in
    let s := Text.TrimSet Char.is_hyphen s in
    let s := if Text.IsNullOrWhiteSpace s then service else s in
    if (96 <? length s)%nat
    then Text.TrimSet Char.is_hyphen (Text.Substring0 96 s)
    else s.

Definition Get_Slug (Text : string) : string :=
  to_string (slug_chars (of_string Text)).

(** ** Files and dates *)

(** The date part of a [DateTime]; the script uses nothing else of it. *)
Record DateTime := { Year : nat; Month : nat; Day : nat }.

(** The properties of [System.IO.FileInfo] that the script reads. *)
Record FileInfo := {
  FullName : string;
  Name : string;
  BaseName : string;
  Extension : string;
  LastWriteTime : DateTime
}.

Definition is_char (x : ascii) (c : ascii) : bool := (Char.code c =? Char.code x)%nat.

(** The three captured groups of a date pattern. *)
Definition groups : Type := chars * chars * chars.

(** [(20\d{2})[-_](\d{2})[-_](\d{2})] tried at the start of [s] *)
Definition dashed_here (s : chars) : option groups :=
  match s with
  | y1 :: y2 :: y3 :: y4 :: p :: m1 :: m2 :: q :: d1 :: d2 :: _ =>
      if is_char "2" y1 && is_char "0" y2 && Char.is_digit y3 && Char.is_digit y4
         && Char.is_date_sep p && Char.is_digit m1 && Char.is_digit m2
         && Char.is_date_sep q && Char.is_digit d1 && Char.is_digit d2
      then Some ([y1; y2; y3; y4], [m1; m2], [d1; d2])
      else None
  | _ => None
  end.

(** [(20\d{2})(\d{2})(\d{2})] tried at the start of [s] *)
Definition compact_here (s : chars) : option groups :=
  match s with
  | y1 :: y2 :: y3 :: y4 :: m1 :: m2 :: d1 :: d2 :: _ =>
      if is_char "2" y1 && is_char "0" y2 && Char.is_digit y3 && Char.is_digit y4
         && Char.is_digit m1 && Char.is_digit m2
         && Char.is_digit d1 && Char.is_digit d2
      then Some ([y1; y2; y3; y4], [m1; m2], [d1; d2])
      else None
  | _ => None
  end.

(** [[regex]::Match]: the leftmost position at which the pattern matches. *)
Fixpoint Regex_Match (here : chars -> option groups) (s : chars) : option groups :=
  match here s with
  | Some g => Some g
  | None =>
      match s with
      | [] => None
      | _ :: s' => Regex_Match here s'
      end
  end.

(** ["{0}-{1}-{2}" -f y, m, d] *)
Definition format_groups (g : groups) : chars :=
  let '(y, m, d) := g in y ++ [hyphen] ++ m ++ [hyphen] ++ d.

Definition decimal (n : nat) : chars :=
  of_string (NilZero.string_of_uint (Nat.to_uint n)).

(** A number printed with at least [w] digits, as the custom format
    specifiers [yyyy], [MM] and [dd] do. *)
Definition zero_padded (w n : nat) : chars :=
  let d := decimal n in replicate (w - length d) "0"%char ++ d.

(** [LastWriteTime.ToString("yyyy-MM-dd")] *)
Definition ToString_yyyy_MM_dd (t : DateTime) : chars :=
  zero_padded 4 (Year t) ++ [hyphen] ++ zero_padded 2 (Month t)
  ++ [hyphen] ++ zero_padded 2 (Day t).

Definition date_bucket_chars (name : chars) (mtime : DateTime) : chars :=
  match Regex_Match dashed_here name with
  | Some m1 => format_groups m1
  | None =>
      match Regex_Match compact_here name with
      | Some m2 => format_groups m2
      | None => ToString_yyyy_MM_dd mtime
      end
  end.

Definition Get_DateBucket (File : FileInfo) : string :=
  to_string (date_bucket_chars (of_string (BaseName File)) (LastWriteTime File)).

(** The date patterns as the specification words them: [YYYY-MM-DD] or
    [YYYY_MM_DD] with any four-digit year, then a contiguous [YYYYMMDD]. *)
Definition spec_dashed_here (s : chars) : option groups :=
  match s with
  | y1 :: y2 :: y3 :: y4 :: p :: m1 :: m2 :: q :: d1 :: d2 :: _ =>
      if Char.is_digit y1 && Char.is_digit y2 && Char.is_digit y3
         && Char.is_digit y4 && Char.is_digit m1 && Char.is_digit m2
         && Char.is_digit d1 && Char.is_digit d2
         && ((is_char "-" p && is_char "-" q) || (is_char "_" p && is_char "_" q))
      then Some ([y1; y2; y3; y4], [m1; m2], [d1; d2])
      else None
  | _ => None
  end.

Definition spec_compact_here (s : chars) : option groups :=
  match s with
  | y1 :: y2 :: y3 :: y4 :: m1 :: m2 :: d1 :: d2 :: _ =>
      if Char.is_digit y1 && Char.is_digit y2 && Char.is_digit y3
         && Char.is_digit y4 && Char.is_digit m1 && Char.is_digit m2
         && Char.is_digit d1 && Char.is_digit d2
      then Some ([y1; y2; y3; y4], [m1; m2], [d1; d2])
      else None
  | _ => None
  end.

(** The bucket as the specification words it. *)
Definition spec_DateBucket (File : FileInfo) : string :=
  let name := of_string (BaseName File) in
  to_string
    match Regex_Match spec_dashed_here name with
    | Some g => format_groups g
    | None =>
        match Regex_Match spec_compact_here name with
        | Some g => format_groups g
        | None => ToString_yyyy_MM_dd (LastWriteTime File)
        end
    end.

(** ** The cutoff date *)

(** The end anchor of a .NET pattern without [RegexOptions.Multiline]: the
    end of the text, or a line feed that ends the text. *)
Definition at_end (rest : chars) : bool :=
  match rest with
  | [] => true
  | [c] => (Char.code c =? 10)%nat
  | _ => false
  end.

(** [[regex]::IsMatch(s, '^20\d{2}-\d{2}-\d{2}$')] *)
Definition IsMatch_cutoff (s : chars) : bool :=
  match s with
  | y1 :: y2 :: y3 :: y4 :: p :: m1 :: m2 :: q :: d1 :: d2 :: rest =>
      is_char "2" y1 && is_char "0" y2 && Char.is_digit y3 && Char.is_digit y4
      && Char.is_hyphen p && Char.is_digit m1 && Char.is_digit m2
      && Char.is_hyphen q && Char.is_digit d1 && Char.is_digit d2
      && at_end rest
  | _ => false
  end.

(** The validation of [-BeforeDate]: [true] when the script goes on. *)
Definition BeforeDate_accepted (BeforeDate : string) : bool :=
  Text.IsNullOrWhiteSpace (of_string BeforeDate)
  || IsMatch_cutoff (of_string BeforeDate).

(** The form [YYYY-MM-DD] as the specification words it: four digits, a
    hyphen, two digits, a hyphen, two digits, and nothing else. *)
Definition spec_YYYY_MM_DD (s : chars) : bool :=
  match s with
  | [y1; y2; y3; y4; p; m1; m2; q; d1; d2] =>
      Char.is_digit y1 && Char.is_digit y2 && Char.is_digit y3
      && Char.is_digit y4 && is_char "-" p && Char.is_digit m1
      && Char.is_digit m2 && is_char "-" q && Char.is_digit d1
      && Char.is_digit d2
  | _ => false
  end.

(** ** Build-CleanMarkdown and Build-SummaryMarkdown *)

Definition CRLF : string := String (ascii_of_nat 13) (String (ascii_of_nat 10) "").

(** [-join "`r`n"] *)
Definition join_lines (lines : list string) : string := String.concat CRLF lines.

(** [[regex]::Replace(RawText, "\s+", " ").Trim()] *)
Definition flatten (RawText : chars) : chars :=
  Text.Trim (Text.Replace_runs Char.IsWhiteSpace space false RawText).

(** [[regex]::Split(flat, "(?<=[.!?])\s+")]: the text is cut at every maximal
    run of white space that directly follows one of [.!?].  The function
    returns the piece that starts here and the pieces after it; [after_term]
    tells that the previous character is one of [.!?], [in_sep] that the
    previous character belongs to a separator. *)
Fixpoint Split_from (after_term in_sep : bool) (s : chars) : chars * list chars :=
  match s with
  | [] => ([], [])
  | c :: s' =>
      if Char.IsWhiteSpace c && in_sep then Split_from false true s'
      else if Char.IsWhiteSpace c && after_term then
        let '(p, ps) := Split_from false true s' in ([], p :: ps)
      else
        let '(p, ps) := Split_from (Char.is_terminator c) false s' in
        (c :: p, ps)
  end.

Definition Split_sentences (flat : chars) : list chars :=
  let '(p, ps) := Split_from false false flat in p :: ps.

(** The paragraph length at which the buffer is flushed. *)
Definition paragraph_threshold : nat := 700.

(** The [foreach ($s in $sentences)] loop and the flush after it. *)
Fixpoint pack_sentences (buffer : chars) (sentences : list chars) : list chars :=
  match sentences with
  | [] => if Text.IsNullOrWhiteSpace buffer then [] else [Text.Trim buffer]
  | s :: rest =>
      if Text.IsNullOrWhiteSpace s then pack_sentences buffer rest
      else
        let buffer :=
          if Text.IsNullOrWhiteSpace buffer then Text.Trim s
          else (buffer ++ [space] ++ Text.Trim s)%list in
        if (paragraph_threshold <=? length buffer)%nat
        then Text.Trim buffer :: pack_sentences [] rest
        else pack_sentences buffer rest
  end.

(** The paragraphs of the clean document. *)
Definition clean_paragraphs (RawText : string) : list chars :=
  pack_sentences [] (Split_sentences (flatten (of_string RawText))).

(** Characters outside the modelled range are written as their UTF-8 bytes. *)
Definition ellipsis : string := "…".

(** [$overview] of [Build-SummaryMarkdown], lines 153 to 161. *)
Definition summary_overview (RawText : string) : string :=
  let flat := flatten (of_string RawText) in
  let flat :=
    if (520 <? length flat)%nat
    then to_string (Text.Trim (Text.Substring0 520 flat)) ++ ellipsis
    else to_string flat in
  if Text.IsNullOrWhiteSpace (of_string flat)
  then "(No transcript text extracted)" else flat.

(** The sentences that the loop keeps: those that are not blank, trimmed. *)
Definition kept_sentences (sentences : list chars) : list chars :=
  map Text.Trim
    (List.filter (fun s => negb (Text.IsNullOrWhiteSpace s)) sentences).

(** Sentences put one after the other with a space between them. *)
Fixpoint join_space (l : list chars) : chars :=
  match l with
  | [] => []
  | [s] => s
  | s :: l' => app s (space :: join_space l')
  end.

(** A text that is not empty and has no white space at either end. *)
Definition trimmed (s : chars) : Prop :=
  s <> [] /\ starts_with Char.IsWhiteSpace s = false
  /\ ends_with Char.IsWhiteSpace s = false.

(** A flattened text: its white space is single spaces between other
    characters. *)
Definition single_spaced (s : chars) : Prop :=
  forallb (fun c => negb (Char.IsWhiteSpace c) || is_char " " c) s = true
  /\ no_adjacent Char.IsWhiteSpace false s = true
  /\ starts_with Char.IsWhiteSpace s = false
  /\ ends_with Char.IsWhiteSpace s = false.

(** A sentence of [n] characters, and a text of sentences of given lengths. *)
Definition sentence (n : nat) : chars := app (replicate (n - 1) "a"%char) (of_string ".").

Definition sermon (lengths : list nat) : string :=
  to_string (join_space (map sentence lengths)).

(** ** The world of the script *)

(** The file system is a flat map from full paths to what is there. *)
Inductive Node :=
| Directory
| File (content : string).

(** What the conversion engine did: its exit code, and the waveform it left
    at the output path, if any. *)
Record Converted := { ffmpeg_exit : Z; wav : option string }.

(** What the recognition engine did: its exit code and the [<base>.txt] and
    [<base>.json] it left, if any. *)
Record Recognized := { whisper_exit : Z; txt : option string; json : option string }.

(** A member of the record [$meta]: a string, an [int] or a [bool]. *)
Inductive Value :=
| Text_value (s : string)
| Int_value (z : Z)
| Bool_value (b : bool).

(** What the script cannot decide: the commands on the PATH, the listing of
    the input folder, the two engines (by source path and by waveform path),
    the clock, and what the shell makes of its data:
    - [Resolve_Path] is [(Resolve-Path -LiteralPath <path>).Path];
    - [culture_le a b] tells that [a] does not come after [b] in the order
      of the current culture, case ignored, by which [Sort-Object] sorts;
    - [ConvertTo_Json] is the text that [ConvertTo-Json] prints for an
      ordered record;
    - [CleanMarkdown] and [SummaryMarkdown] are what lines 130 to 143 and
      lines 163 to 177 return, given the three variables that each of them
      reads: the title, the source file, and the paragraphs or the
      overview. *)
Record Env := {
  Get_Command : string -> bool;
  Get_ChildItem : string -> bool -> list FileInfo;
  ffmpeg : string -> Converted;
  whisper : string -> Recognized;
  Get_Date : string;
  Resolve_Path : string -> string;
  culture_le : string -> string -> bool;
  ConvertTo_Json : list (string * Value) -> string;
  CleanMarkdown : string -> string -> list chars -> string;
  SummaryMarkdown : string -> string -> string -> string
}.

(** [Build-CleanMarkdown].  Its third line is written
    ["**Source file:** `$SourceFile`"]: the backticks escape the dollar sign
    and the closing quotation mark, so the variable is not expanded and the
    literal does not end there; the text that comes of it is the
    environment's. *)
Definition Build_CleanMarkdown (env : Env) (Title SourceFile RawText : string)
    : string :=
  CleanMarkdown env Title SourceFile (clean_paragraphs RawText).

(** [Build-SummaryMarkdown]; line 166 is written as line 133 is. *)
Definition Build_SummaryMarkdown (env : Env) (Title SourceFile RawText : string)
    : string :=
  SummaryMarkdown env Title SourceFile (summary_overview RawText).

(** The parameters of the script. *)
Record Params := {
  InputFolder : string;
  OutputFolder : string;
  ModelFile : string;
  WhisperExe : string;
  FfmpegExe : string;
  Force : bool;
  NoRecursive : bool;
  Limit : Z;
  BeforeDate : string;
  Threads : Z;
  FastScan : bool;
  KeepAudio : bool;
  PauseFlagFile : string
}.

(** An entry of [$results]; [Reason] is empty where the script gives none. *)
Record Result := {
  Status : string;
  Source : string;
  Output : string;
  Reason : string
}.

(** What the script does to the outside, in order. *)
Inductive Event :=
| Host (line : string)
| Warning (line : string)
| Poll (present : bool)
| Sleep (seconds : Z)
| Scan (folder : string) (recurse : bool)
| Run (exe : string) (args : list string).

(** The state of a run.  [marker] lists what the coming polls of the pause
    marker will see, in order; the marker is set and removed by the
    controller while the script runs. *)
Record State := {
  fs : gmap string Node;
  marker : list bool;
  results : list Result;
  processed : Z;
  log : list Event
}.

Definition set_fs (f : gmap string Node -> gmap string Node) (st : State) : State :=
  {| fs := f (fs st); marker := marker st; results := results st;
     processed := processed st; log := log st |}.

Definition set_marker (m : list bool) (st : State) : State :=
  {| fs := fs st; marker := m; results := results st;
     processed := processed st; log := log st |}.

Definition emit (es : list Event) (st : State) : State :=
  {| fs := fs st; marker := marker st; results := results st;
     processed := processed st; log := log st ++ es |}.

(** How a piece of the script ends: it goes on with a value, it leaves the
    loop body by [continue], the script ends by [exit] or by [throw], or it
    is still held at the pause gate when the observation of the marker ends. *)
Inductive Outcome (A : Type) :=
| Ret (a : A)
| Continue
| Exit (code : Z)
| Throw (message : string)
| Held.

Arguments Ret {A} a.
Arguments Continue {A}.
Arguments Exit {A} code.
Arguments Throw {A} message.
Arguments Held {A}.

Definition M (A : Type) : Type := State -> Outcome A * State.

Definition ret {A} (a : A) : M A := fun st => (Ret a, st).

Definition bind {A B} (m : M A) (k : A -> M B) : M B :=
  fun st =>
    match m st with
    | (Ret a, st') => k a st'
    | (Continue, st') => (Continue, st')
    | (Exit c, st') => (Exit c, st')
    | (Throw msg, st') => (Throw msg, st')
    | (Held, st') => (Held, st')
    end.

Declare Scope script_scope.
Delimit Scope script_scope with script.

Notation "x ← y ; z" := (bind y (fun x => z))
  (at level 20, y at level 100, z at level 200, only parsing) : script_scope.
Notation "x ;; z" := (bind x (fun _ => z))
  (at level 100, z at level 200, only parsing, right associativity) : script_scope.

Open Scope script_scope.

Definition continue {A} : M A := fun st => (Continue, st).
Definition exit {A} (code : Z) : M A := fun st => (Exit code, st).
Definition throw {A} (message : string) : M A := fun st => (Throw message, st).
Definition when (b : bool) (m : M unit) : M unit := if b then m else ret tt.

(** *** Cmdlets *)

Definition Write_Host (line : string) : M unit :=
  fun st => (Ret tt, emit [Host line] st).

Definition Write_Warning (line : string) : M unit :=
  fun st => (Ret tt, emit [Warning line] st).

Definition present (m : gmap string Node) (path : string) : bool :=
  match m !! path with
  | Some _ => true
  | None => false
  end.

Definition Test_Path (path : string) : M bool :=
  fun st => (Ret (present (fs st) path), st).

(** [New-Item -ItemType Directory -Force]: what is there already stays. *)
Definition mkdir (path : string) (m : gmap string Node) : gmap string Node :=
  if present m path then m else <[path := Directory]> m.

Definition New_Directory (path : string) : M unit :=
  fun st => (Ret tt, set_fs (mkdir path) st).

(** [Move-Item -Force] *)
Definition Move_Item (path destination : string) : M unit :=
  fun st => (Ret tt, set_fs (fun m => match m !! path with
                                      | Some n => <[destination := n]> (delete path m)
                                      | None => m
                                      end) st).

(** [Set-Content -Encoding UTF8]; the cmdlet ends the value with a newline. *)
Definition Set_Content (path value : string) : M unit :=
  fun st => (Ret tt, set_fs (insert path (File (value ++ CRLF))) st).

(** [Get-Content -Raw -Encoding UTF8] *)
Definition Get_Content (path : string) : M string :=
  fun st => (Ret (match fs st !! path with
                  | Some (File c) => c
                  | _ => ""
                  end), st).

(** [Remove-Item -Force -ErrorAction SilentlyContinue] *)
Definition Remove_Item (path : string) : M unit :=
  fun st => (Ret tt, set_fs (delete path) st).

Definition is_separator (c : ascii) : bool := is_char "\" c || is_char "/" c.

(** [Join-Path] *)
Definition Join_Path (parent child : string) : string :=
  if ends_with is_separator (of_string parent)
  then parent ++ child
  else parent ++ "\" ++ child.

(** The part of a path before its last separator, and that separator, if
    the path has one. *)
Fixpoint parent_chars (s : chars) : option (chars * ascii) :=
  match s with
  | [] => None
  | c :: s' =>
      match parent_chars s' with
      | Some (p, sep) => Some (c :: p, sep)
      | None => if is_separator c then Some ([], c) else None
      end
  end.

(** [Split-Path -Parent]: the parent of a path that lies directly under a
    root ([C:\pause.flag], [\pause.flag]) is the root with its separator. *)
Definition Split_Path_Parent (path : string) : string :=
  match parent_chars (of_string path) with
  | Some (p, sep) =>
      if (length p =? 0)%nat || ends_with (is_char ":") p
      then to_string (p ++ [sep])
      else to_string p
  | None => ""
  end.

Definition IsNullOrWhiteSpace (s : string) : bool :=
  Text.IsNullOrWhiteSpace (of_string s).

Definition Z_to_string (z : Z) : string := NilZero.string_of_int (Z.to_int z).

(** *** Wait-IfPaused *)

Definition pause_notice (PauseFlagPath Context : string) : list Event :=
  [ Host ("[pause] Pause requested. Waiting to resume"
          ++ (if negb (IsNullOrWhiteSpace Context)
              then " (" ++ Context ++ ")" else ""));
    Host ("[pause] Remove pause flag to continue: " ++ PauseFlagPath) ].

Definition resume_notice : list Event :=
  [ Host "[pause] Resume detected. Continuing..." ].

(** The [while (Test-Path -LiteralPath $PauseFlagPath)] loop over what the
    polls see.  It gives the events of the loop and, when the loop ends, the
    final [$announced] and the polls left. *)
Fixpoint pause_loop (PauseFlagPath Context : string) (announced : bool)
    (polls : list bool) : list Event * option (bool * list bool) :=
  match polls with
  | [] => ([], None)
  | true :: polls' =>
      let '(es, r) := pause_loop PauseFlagPath Context true polls' in
      (Poll true
         :: (if negb announced then pause_notice PauseFlagPath Context else [])
         ++ Sleep 2 :: es, r)
  | false :: polls' => ([Poll false], Some (announced, polls'))
  end.

(** The events of one call of [Wait-IfPaused] and the polls left when it
    returns; [None] when it does not return. *)
Definition gate (PauseFlagPath Context : string) (polls : list bool)
    : list Event * option (list bool) :=
  if IsNullOrWhiteSpace PauseFlagPath then ([], Some polls)
  else
    match pause_loop PauseFlagPath Context false polls with
    | (es, Some (announced, polls')) =>
        ((es ++ (if announced then resume_notice else []))%list, Some polls')
    | (es, None) => (es, None)
    end.

Definition Wait_IfPaused (PauseFlagPath Context : string) : M unit :=
  fun st =>
    match gate PauseFlagPath Context (marker st) with
    | (es, Some polls') => (Ret tt, emit es (set_marker polls' st))
    | (es, None) => (Held, emit es (set_marker [] st))
    end.

(** The events of a gate that sees the marker [k] times and then sees it
    gone. *)
Definition gate_trace (PauseFlagPath Context : string) (k : nat) : list Event :=
  match k with
  | O => [Poll false]
  | S k' =>
      Poll true :: pause_notice PauseFlagPath Context
      ++ Sleep 2 :: concat (replicate k' [Poll true; Sleep 2])
      ++ [Poll false] ++ resume_notice
  end.

(** The events of a gate that sees the marker [k] times and no more. *)
Definition held_trace (PauseFlagPath Context : string) (k : nat) : list Event :=
  match k with
  | O => []
  | S k' =>
      Poll true :: pause_notice PauseFlagPath Context
      ++ Sleep 2 :: concat (replicate k' [Poll true; Sleep 2])
  end.

(** The text [s] starts with [pre]. *)
Fixpoint has_prefix (pre s : string) : bool :=
  match pre, s with
  | EmptyString, _ => true
  | String a pre', String b s' => Ascii.eqb a b && has_prefix pre' s'
  | String _ _, EmptyString => false
  end.

Definition is_host (e : Event) : bool :=
  match e with Host _ => true | _ => false end.

Definition is_sleep (e : Event) : bool :=
  match e with Sleep _ => true | _ => false end.

Definition is_poll (e : Event) : bool :=
  match e with Poll _ => true | _ => false end.

Definition is_run (e : Event) : bool :=
  match e with Run _ _ => true | _ => false end.

(** A line of the structured progress channel. *)
Definition is_progress (e : Event) : bool :=
  match e with Host line => has_prefix "[progress]" line | _ => false end.

(** What a gate may do: poll, sleep, and print its notices. *)
Definition is_gate_event (e : Event) : bool :=
  match e with
  | Poll _ | Sleep _ => true
  | Host line => has_prefix "[pause]" line
  | _ => false
  end.

(** *** Emit-Progress *)

Definition progress_line (Done Total : Z) (Status Source : string) : string :=
  "[progress] done=" ++ Z_to_string Done ++ " total=" ++ Z_to_string Total
  ++ (if negb (IsNullOrWhiteSpace Status) then " status=" ++ Status else "")
  ++ (if negb (IsNullOrWhiteSpace Source) then " source=" ++ Source else "").

Definition Emit_Progress (Done Total : Z) (Status Source : string) : M unit :=
  Write_Host (progress_line Done Total Status Source).

(** ** The script *)

Definition mediaExts : list string :=
  [ ".mp4"; ".mov"; ".mkv"; ".avi"; ".m4v"; ".webm";
    ".mp3"; ".m4a"; ".wav"; ".aac"; ".flac"; ".ogg"; ".wma" ].

Definition lower (s : string) : string :=
  to_string (Text.ToLowerInvariant (of_string s)).

(** [$mediaExts -contains $_.Extension.ToLowerInvariant()] *)
Definition is_media (f : FileInfo) : bool :=
  existsb (String.eqb (lower (Extension f))) mediaExts.

(** [Sort-Object FullName]: the sort by the order [le] of the current
    culture.  A file is put before the first of the files after it that it
    does not come after; files whose names the order holds equal are taken
    in the order of the listing. *)
Fixpoint insert_by_name (le : string -> string -> bool) (f : FileInfo)
    (l : list FileInfo) : list FileInfo :=
  match l with
  | [] => [f]
  | g :: l' =>
      if le (FullName f) (FullName g)
      then f :: l
      else g :: insert_by_name le f l'
  end.

Definition Sort_FullName (le : string -> string -> bool) (l : list FileInfo)
    : list FileInfo :=
  foldr (insert_by_name le) [] l.

(** [$a -gt $b] on two strings, as the ordinal comparison. *)
Definition String_gt (a b : string) : bool := String.ltb b a.

(** The [foreach] statement: [continue] ends one turn of the body only. *)
Fixpoint foreach {A} (l : list A) (body : A -> M unit) : M unit :=
  match l with
  | [] => ret tt
  | x :: l' =>
      fun st =>
        match body x st with
        | (Ret _, st') => foreach l' body st'
        | (Continue, st') => foreach l' body st'
        | (Exit c, st') => (Exit c, st')
        | (Throw msg, st') => (Throw msg, st')
        | (Held, st') => (Held, st')
        end
  end.

Definition Results_Add (r : Result) : M unit :=
  fun st => (Ret tt,
             {| fs := fs st; marker := marker st; results := results st ++ [r];
                processed := processed st; log := log st |}).

(** [$results = New-Object System.Collections.Generic.List[object]] *)
Definition New_results : M unit :=
  fun st => (Ret tt,
             {| fs := fs st; marker := marker st; results := [];
                processed := processed st; log := log st |}).

(** [$processed = 0] *)
Definition Set_processed (n : Z) : M unit :=
  fun st => (Ret tt,
             {| fs := fs st; marker := marker st; results := results st;
                processed := n; log := log st |}).

(** [$processed += 1] *)
Definition Add_processed (n : Z) : M unit :=
  fun st => (Ret tt,
             {| fs := fs st; marker := marker st; results := results st;
                processed := (processed st + n)%Z; log := log st |}).

Definition Get_processed : M Z := fun st => (Ret (processed st), st).
Definition Get_results : M (list Result) := fun st => (Ret (results st), st).

(** *** Counting under strict mode *)

(** The error of a reference to a property that the object has not. *)
Definition Count_message : string :=
  "The property 'Count' cannot be found on this object. Verify that the property exists.".

(** [-not <value>] for the value of a pipeline that gave the objects [l]:
    true for [$null] only, the objects being files. *)
Definition is_null {A} (l : list A) : bool :=
  match l with
  | [] => true
  | _ => false
  end.

(** [<value>.Count] for the value of a pipeline that gave the objects [l].
    With no object the value is [$null], with one object it is that object,
    a [FileInfo] or a result, and neither has a [Count] under
    [Set-StrictMode -Version Latest]: the reference ends the script.  With
    two objects or more the value is an array and [Count] is its length. *)
Definition Count {A} (l : list A) : M Z :=
  match l with
  | [] | [_] => throw Count_message
  | _ => ret (Z.of_nat (length l))
  end.

(** The number of the results of status [s]. *)
Definition tally (s : string) (rs : list Result) : nat :=
  length (filter (fun r => Status r = s) rs).

(** [($results | Where-Object { $_.Status -eq s }).Count] *)
Definition Count_Status (s : string) (rs : list Result) : M Z :=
  Count (filter (fun r => Status r = s) rs).

(** The exit code of the process that runs the script: the code given to
    [exit], and 1 when an error ends the script.  A script that is held has
    none. *)
Definition process_code {A} (r : Outcome A) : option Z :=
  match r with
  | Exit c => Some c
  | Throw _ => Some 1%Z
  | Ret _ | Continue => Some 0%Z
  | Held => None
  end.

Section Script.

Context (p : Params) (env : Env).

(** [& $FfmpegExe -y -loglevel error -i <source> -vn -ac 1 -ar 16000 <audio>] *)
Definition ffmpeg_call (source audioPath : string) : Event :=
  Run (FfmpegExe p)
    ["-y"; "-loglevel"; "error"; "-i"; source; "-vn"; "-ac"; "1";
     "-ar"; "16000"; audioPath].

(** The conversion engine writes its output path and nothing else. *)
Definition converted_fs (source audioPath : string) (m : gmap string Node)
    : gmap string Node :=
  match wav (ffmpeg env source) with
  | Some c => <[audioPath := File c]> m
  | None => m
  end.

(** The value is [$LASTEXITCODE]. *)
Definition Invoke_ffmpeg (source audioPath : string) : M Z :=
  fun st =>
    (Ret (ffmpeg_exit (ffmpeg env source)),
     emit [ffmpeg_call source audioPath]
       (set_fs (converted_fs source audioPath) st)).

(** [& $WhisperExe @whisperArgs] *)
Definition whisper_call (audioPath baseOut : string) : Event :=
  Run (WhisperExe p)
    (app ["-m"; ModelFile p; "-f"; audioPath; "-of"; baseOut; "-otxt"; "-oj"]
         (if (Threads p >? 0)%Z then ["-t"; Z_to_string (Threads p)] else [])).

(** The recognition engine writes [<base>.txt] and [<base>.json] and nothing
    else. *)
Definition recognized_fs (audioPath baseOut : string) (m : gmap string Node)
    : gmap string Node :=
  let m := match txt (whisper env audioPath) with
           | Some c => <[baseOut ++ ".txt" := File c]> m
           | None => m
           end in
  match json (whisper env audioPath) with
  | Some c => <[baseOut ++ ".json" := File c]> m
  | None => m
  end.

Definition Invoke_whisper (audioPath baseOut : string) : M Z :=
  fun st =>
    (Ret (whisper_exit (whisper env audioPath)),
     emit [whisper_call audioPath baseOut]
       (set_fs (recognized_fs audioPath baseOut) st)).

(** [if (-not (Test-Path -LiteralPath d)) { New-Item -ItemType Directory ... }] *)
Definition ensure_directory (d : string) : M unit :=
  dExists ← Test_Path d;
  when (negb dExists) (New_Directory d).

(** [$meta]: the ordered record that is written to [metadata.json]. *)
Definition meta (file : FileInfo) (dateBucket serviceDir : string)
    : list (string * Value) :=
  [ ("sourceFile", Text_value (FullName file));
    ("generatedAt", Text_value (Get_Date env));
    ("dateBucket", Text_value dateBucket);
    ("modelFile", Text_value (Resolve_Path env (ModelFile p)));
    ("whisperExe", Text_value (WhisperExe p));
    ("ffmpegExe", Text_value (FfmpegExe p));
    ("outputDir", Text_value serviceDir);
    ("threads", Int_value (Threads p));
    ("fastScan", Bool_value (FastScan p));
    ("beforeDate", Text_value (BeforeDate p));
    ("pauseFlagFile", Text_value (PauseFlagFile p)) ].

(** [$meta | ConvertTo-Json -Depth 6] *)
Definition metadata (file : FileInfo) (dateBucket serviceDir : string) : string :=
  ConvertTo_Json env (meta file dateBucket serviceDir).

(** [($file.BaseName -replace "[_-]", " ").Trim()], or the name when that is
    blank. *)
Definition title_of (file : FileInfo) : string :=
  let t := Text.Trim (map (fun c => if Char.is_date_sep c then space else c)
                          (of_string (BaseName file))) in
  if Text.IsNullOrWhiteSpace t then Name file else to_string t.

(** The record of one file and its progress line. *)
Definition finish (totalFiles : Z) (r : Result) (token : string) : M unit :=
  Results_Add r;;
  Add_processed 1;;
  n ← Get_processed;
  Emit_Progress n totalFiles token (Source r).

(** What follows the two engine calls: the artifacts are put in place, the
    secondary documents and the metadata are written, the waveform is
    removed. *)
Definition place_artifacts (file : FileInfo) (dateBucket serviceDir : string) : M unit :=
  let rawPath := Join_Path serviceDir "raw.txt" in
  let cleanPath := Join_Path serviceDir "clean.md" in
  let summaryPath := Join_Path serviceDir "summary.md" in
  let timestampsPath := Join_Path serviceDir "timestamps.json" in
  let metadataPath := Join_Path serviceDir "metadata.json" in
  let audioPath := Join_Path serviceDir "audio-source.wav" in
  let baseOut := Join_Path serviceDir "audio-source" in
  let rawCandidate := baseOut ++ ".txt" in
  let jsonCandidate := baseOut ++ ".json" in
  rawProduced ← Test_Path rawCandidate;
  when rawProduced (Move_Item rawCandidate rawPath);;
  jsonProduced ← Test_Path jsonCandidate;
  when jsonProduced (Move_Item jsonCandidate timestampsPath);;
  rawExists ← Test_Path rawPath;
  rawText ← (if rawExists then Get_Content rawPath else ret "");
  let title := title_of file in
  when (negb (FastScan p))
    (Set_Content cleanPath (Build_CleanMarkdown env title (FullName file) rawText);;
     Set_Content summaryPath
       (Build_SummaryMarkdown env title (FullName file) rawText));;
  Set_Content metadataPath (metadata file dateBucket serviceDir);;
  audioExists ← Test_Path audioPath;
  when (negb (KeepAudio p) && audioExists) (Remove_Item audioPath).

(** The body of [foreach ($file in $mediaFiles)]. *)
Definition process_file (outputResolved : string) (totalFiles : Z)
    (file : FileInfo) : M unit :=
  Wait_IfPaused (PauseFlagFile p) "before next file";;
  Write_Host "";;
  Write_Host ("=== " ++ FullName file ++ " ===");;
  let dateBucket := Get_DateBucket file in
  if negb (IsNullOrWhiteSpace (BeforeDate p)) && String_gt dateBucket (BeforeDate p)
  then
    Write_Host ("[skip] date " ++ dateBucket ++ " is after cutoff " ++ BeforeDate p);;
    finish totalFiles
      {| Status := "skipped-date"; Source := FullName file; Output := ""; Reason := "" |}
      "skipped-date";;
    continue
  else
    let slug := Get_Slug (BaseName file) in
    let dateDir := Join_Path outputResolved dateBucket in
    ensure_directory dateDir;;
    let serviceDir := Join_Path dateDir slug in
    ensure_directory serviceDir;;
    let rawPath := Join_Path serviceDir "raw.txt" in
    rawExists ← Test_Path rawPath;
    if rawExists && negb (Force p)
    then
      Write_Host "[skip] raw.txt exists";;
      finish totalFiles
        {| Status := "skipped"; Source := FullName file; Output := serviceDir; Reason := "" |}
        "skipped";;
      continue
    else
      let audioPath := Join_Path serviceDir "audio-source.wav" in
      let baseOut := Join_Path serviceDir "audio-source" in
      Wait_IfPaused (PauseFlagFile p) "before ffmpeg";;
      code ← Invoke_ffmpeg (FullName file) audioPath;
      if negb (code =? 0)%Z
      then
        Write_Warning ("ffmpeg failed: " ++ FullName file);;
        finish totalFiles
          {| Status := "error"; Source := FullName file; Output := serviceDir; Reason := "ffmpeg" |}
          "error-ffmpeg";;
        continue
      else
        Wait_IfPaused (PauseFlagFile p) "before whisper";;
        code ← Invoke_whisper audioPath baseOut;
        if negb (code =? 0)%Z
        then
          Write_Warning ("whisper failed: " ++ FullName file);;
          finish totalFiles
            {| Status := "error"; Source := FullName file; Output := serviceDir; Reason := "whisper" |}
            "error-whisper";;
          continue
        else
          place_artifacts file dateBucket serviceDir;;
          finish totalFiles
            {| Status := "ok"; Source := FullName file; Output := serviceDir; Reason := "" |}
            "ok".

(** The candidate list: the media files of the listing, sorted, cut at the
    limit. *)
Definition candidates (allFiles : list FileInfo) : list FileInfo :=
  let mediaFiles := Sort_FullName (culture_le env) (List.filter is_media allFiles) in
  if (Limit p >? 0)%Z then take (Z.to_nat (Limit p)) mediaFiles else mediaFiles.

(** ["$r"]: the text of a result object in a double-quoted string, its
    properties in the order in which the script gives them. *)
Definition Result_text (r : Result) : string :=
  "@{Status=" ++ Status r ++ "; Source=" ++ Source r ++ "; Output=" ++ Output r
  ++ (if String.eqb (Reason r) "" then "" else "; Reason=" ++ Reason r)
  ++ "}".

(** A row of the index, line 388:
    ["| $($r.Status) | `$($r.Source)` | `$($r.Output)` |"].  The first
    subexpression is expanded.  The backtick escapes the dollar sign of the
    other two, which are therefore text in which only [$r] is expanded, and
    a backtick before a space gives the space. *)
Definition index_row (r : Result) : string :=
  "| " ++ Status r ++ " | $(" ++ Result_text r ++ ".Source) | $("
  ++ Result_text r ++ ".Output) |".

(** [$indexPath] *)
Definition indexPath_of (out : string) : string := Join_Path out "INDEX.md".

(** The lines of the index of the results [rs]. *)
Definition index_lines (rs : list Result) : list string :=
  app [ "# Transcript Index"; ""; "Generated: " ++ Get_Date env; "";
        "| Status | Source | Transcript Folder |"; "|---|---|---|" ]
      (map index_row rs).

(** What follows the loop: the index, the three counts, the last lines and
    the exit code. *)
Definition conclude (outputResolved : string) (totalFiles : Z) : M unit :=
  let indexPath := indexPath_of outputResolved in
  rs ← Get_results;
  Set_Content indexPath (join_lines (index_lines rs));;
  ok ← Count_Status "ok" rs;
  err ← Count_Status "error" rs;
  sk ← Count_Status "skipped" rs;
  Write_Host "";;
  n ← Get_processed;
  Emit_Progress n totalFiles "complete" "";;
  Write_Host ("Done. ok=" ++ Z_to_string ok ++ " error=" ++ Z_to_string err
              ++ " skipped=" ++ Z_to_string sk);;
  Write_Host ("Index: " ++ indexPath);;
  if (err >? 0)%Z then exit 1 else exit 0.

(** [Get-ChildItem -LiteralPath <folder> -File [-Recurse]] *)
Definition List_Files (folder : string) (recurse : bool) : M (list FileInfo) :=
  fun st => (Ret (Get_ChildItem env folder recurse), emit [Scan folder recurse] st).

(** The lines printed between the scan and the loop. *)
Definition announce (totalFiles : Z) : M unit :=
  Write_Host ("Found " ++ Z_to_string totalFiles ++ " media files");;
  Emit_Progress 0 totalFiles "start" "";;
  when (negb (IsNullOrWhiteSpace (BeforeDate p)))
    (Write_Host ("Date filter: only files with inferred date <= "
                 ++ BeforeDate p));;
  when (Threads p >? 0)%Z
    (Write_Host ("Whisper threads per job: " ++ Z_to_string (Threads p)));;
  when (FastScan p)
    (Write_Host "FastScan: skipping clean.md and summary.md generation").

(** The folder of the pause flag is made, and the flag is named. *)
Definition prepare_pause_flag : M unit :=
  when (negb (IsNullOrWhiteSpace (PauseFlagFile p)))
    (let pauseResolvedDir := Split_Path_Parent (PauseFlagFile p) in
     when (negb (IsNullOrWhiteSpace pauseResolvedDir))
       (ensure_directory pauseResolvedDir);;
     Write_Host ("Pause flag file: " ++ PauseFlagFile p)).

(** The script once its parameters are validated: the pause flag, the scan,
    the loop and the conclusion.  The test of line 235 reads [.Count] only
    when [$mediaFiles] is not [$null]. *)
Definition batch (inputResolved outputResolved : string) : M unit :=
  prepare_pause_flag;;
  Write_Host ("Scanning "
              ++ (if NoRecursive p then "non-recursive" else "recursive")
              ++ " in: " ++ inputResolved);;
  allFiles ← List_Files inputResolved (negb (NoRecursive p));
  let mediaFiles := candidates allFiles in
  none ← (if is_null mediaFiles then ret true
           else n ← Count mediaFiles; ret (n =? 0)%Z);
  if none
  then
    Write_Host "No media files found.";;
    Emit_Progress 0 0 "empty" "";;
    exit 0
  else
    totalFiles ← Count mediaFiles;
    Set_processed 0;;
    announce totalFiles;;
    New_results;;
    foreach mediaFiles (process_file outputResolved totalFiles);;
    conclude outputResolved totalFiles.

Definition BeforeDate_message : string :=
  "BeforeDate must be YYYY-MM-DD (example: 2024-12-31)".

(** [$inputResolved] and [$outputResolved] *)
Definition resolved_input : string := Resolve_Path env (InputFolder p).
Definition resolved_output : string := Resolve_Path env (OutputFolder p).

(** The script from its first statement. *)
Definition script : M unit :=
  inputExists ← Test_Path (InputFolder p);
  if negb inputExists then throw ("Input folder not found: " ++ InputFolder p)
  else
    let inputResolved := resolved_input in
    ensure_directory (OutputFolder p);;
    let outputResolved := resolved_output in
    if negb (Get_Command env (FfmpegExe p))
    then throw "ffmpeg not found on PATH. Set -FfmpegExe or install ffmpeg."
    else if negb (Get_Command env (WhisperExe p))
    then throw ("whisper executable not found: " ++ WhisperExe p)
    else
      modelExists ← Test_Path (ModelFile p);
      if negb modelExists then throw ("Model file not found: " ++ ModelFile p)
      else if negb (IsNullOrWhiteSpace (BeforeDate p))
              && negb (IsMatch_cutoff (of_string (BeforeDate p)))
      then throw BeforeDate_message
      else batch inputResolved outputResolved.

(** The checks that come before the check of the cutoff date all pass. *)
Definition dependencies_present (m : gmap string Node) : bool :=
  present m (InputFolder p)
  && Get_Command env (FfmpegExe p)
  && Get_Command env (WhisperExe p)
  && present (mkdir (OutputFolder p) m) (ModelFile p).

(** *** The turns of the loop, case by case *)

(** The cutoff filter excludes the file. *)
Definition cutoff_excludes (file : FileInfo) : bool :=
  negb (IsNullOrWhiteSpace (BeforeDate p))
  && String_gt (Get_DateBucket file) (BeforeDate p).

Definition dateDir_of (out : string) (file : FileInfo) : string :=
  Join_Path out (Get_DateBucket file).

Definition serviceDir_of (out : string) (file : FileInfo) : string :=
  Join_Path (dateDir_of out file) (Get_Slug (BaseName file)).

Definition rawPath_of (out : string) (file : FileInfo) : string :=
  Join_Path (serviceDir_of out file) "raw.txt".

Definition audioPath_of (out : string) (file : FileInfo) : string :=
  Join_Path (serviceDir_of out file) "audio-source.wav".

Definition baseOut_of (out : string) (file : FileInfo) : string :=
  Join_Path (serviceDir_of out file) "audio-source".

(** The file system once the two directories of the file are there. *)
Definition with_directories (out : string) (file : FileInfo)
    (m : gmap string Node) : gmap string Node :=
  mkdir (serviceDir_of out file) (mkdir (dateDir_of out file) m).

(** The idempotence check skips the file. *)
Definition already_done (out : string) (file : FileInfo)
    (m : gmap string Node) : bool :=
  present (with_directories out file m) (rawPath_of out file) && negb (Force p).

Definition opening (file : FileInfo) : list Event :=
  [ Host ""; Host ("=== " ++ FullName file ++ " ===") ].

Definition result (status : string) (file : FileInfo) (output reason : string)
    : Result :=
  {| Status := status; Source := FullName file; Output := output; Reason := reason |}.

(** One turn of the loop as a relation between the state before, the way the
    turn ends, and the state after.  The eight cases are the eight ways
    through the body. *)
Inductive file_step (out : string) (total : Z) (file : FileInfo)
    (f : gmap string Node) (m : list bool) (rs : list Result) (n : Z)
    (l : list Event) : Outcome unit -> State -> Prop :=
| held_before_file es1 :
    gate (PauseFlagFile p) "before next file" m = (es1, None) ->
    file_step out total file f m rs n l Held
      {| fs := f; marker := []; results := rs; processed := n;
         log := l ++ es1 |}
| skipped_by_date es1 m1 :
    gate (PauseFlagFile p) "before next file" m = (es1, Some m1) ->
    cutoff_excludes file = true ->
    file_step out total file f m rs n l Continue
      {| fs := f; marker := m1;
         results := rs ++ [result "skipped-date" file "" ""];
         processed := n + 1;
         log := l ++ es1 ++ opening file
                ++ [ Host ("[skip] date " ++ Get_DateBucket file
                           ++ " is after cutoff " ++ BeforeDate p);
                     Host (progress_line (n + 1) total "skipped-date"
                             (FullName file)) ] |}
| skipped_as_done es1 m1 :
    gate (PauseFlagFile p) "before next file" m = (es1, Some m1) ->
    cutoff_excludes file = false ->
    already_done out file f = true ->
    file_step out total file f m rs n l Continue
      {| fs := with_directories out file f; marker := m1;
         results := rs ++ [result "skipped" file (serviceDir_of out file) ""];
         processed := n + 1;
         log := l ++ es1 ++ opening file
                ++ [ Host "[skip] raw.txt exists";
                     Host (progress_line (n + 1) total "skipped"
                             (FullName file)) ] |}
| held_before_ffmpeg es1 m1 es2 :
    gate (PauseFlagFile p) "before next file" m = (es1, Some m1) ->
    cutoff_excludes file = false ->
    already_done out file f = false ->
    gate (PauseFlagFile p) "before ffmpeg" m1 = (es2, None) ->
    file_step out total file f m rs n l Held
      {| fs := with_directories out file f; marker := [];
         results := rs; processed := n;
         log := l ++ es1 ++ opening file ++ es2 |}
| failed_ffmpeg es1 m1 es2 m2 :
    gate (PauseFlagFile p) "before next file" m = (es1, Some m1) ->
    cutoff_excludes file = false ->
    already_done out file f = false ->
    gate (PauseFlagFile p) "before ffmpeg" m1 = (es2, Some m2) ->
    ffmpeg_exit (ffmpeg env (FullName file)) <> 0%Z ->
    file_step out total file f m rs n l Continue
      {| fs := converted_fs (FullName file) (audioPath_of out file)
                 (with_directories out file f);
         marker := m2;
         results := rs ++ [result "error" file (serviceDir_of out file) "ffmpeg"];
         processed := n + 1;
         log := l ++ es1 ++ opening file ++ es2
                ++ [ ffmpeg_call (FullName file) (audioPath_of out file);
                     Warning ("ffmpeg failed: " ++ FullName file);
                     Host (progress_line (n + 1) total "error-ffmpeg"
                             (FullName file)) ] |}
| held_before_whisper es1 m1 es2 m2 es3 :
    gate (PauseFlagFile p) "before next file" m = (es1, Some m1) ->
    cutoff_excludes file = false ->
    already_done out file f = false ->
    gate (PauseFlagFile p) "before ffmpeg" m1 = (es2, Some m2) ->
    ffmpeg_exit (ffmpeg env (FullName file)) = 0%Z ->
    gate (PauseFlagFile p) "before whisper" m2 = (es3, None) ->
    file_step out total file f m rs n l Held
      {| fs := converted_fs (FullName file) (audioPath_of out file)
                 (with_directories out file f);
         marker := []; results := rs; processed := n;
         log := l ++ es1 ++ opening file ++ es2
                ++ [ffmpeg_call (FullName file) (audioPath_of out file)]
                ++ es3 |}
| failed_whisper es1 m1 es2 m2 es3 m3 :
    gate (PauseFlagFile p) "before next file" m = (es1, Some m1) ->
    cutoff_excludes file = false ->
    already_done out file f = false ->
    gate (PauseFlagFile p) "before ffmpeg" m1 = (es2, Some m2) ->
    ffmpeg_exit (ffmpeg env (FullName file)) = 0%Z ->
    gate (PauseFlagFile p) "before whisper" m2 = (es3, Some m3) ->
    whisper_exit (whisper env (audioPath_of out file)) <> 0%Z ->
    file_step out total file f m rs n l Continue
      {| fs := recognized_fs (audioPath_of out file) (baseOut_of out file)
                 (converted_fs (FullName file) (audioPath_of out file)
                    (with_directories out file f));
         marker := m3;
         results := rs ++ [result "error" file (serviceDir_of out file) "whisper"];
         processed := n + 1;
         log := l ++ es1 ++ opening file ++ es2
                ++ [ffmpeg_call (FullName file) (audioPath_of out file)]
                ++ es3
                ++ [ whisper_call (audioPath_of out file) (baseOut_of out file);
                     Warning ("whisper failed: " ++ FullName file);
                     Host (progress_line (n + 1) total "error-whisper"
                             (FullName file)) ] |}
| transcribed es1 m1 es2 m2 es3 m3 f' :
    gate (PauseFlagFile p) "before next file" m = (es1, Some m1) ->
    cutoff_excludes file = false ->
    already_done out file f = false ->
    gate (PauseFlagFile p) "before ffmpeg" m1 = (es2, Some m2) ->
    ffmpeg_exit (ffmpeg env (FullName file)) = 0%Z ->
    gate (PauseFlagFile p) "before whisper" m2 = (es3, Some m3) ->
    whisper_exit (whisper env (audioPath_of out file)) = 0%Z ->
    file_step out total file f m rs n l (Ret tt)
      {| fs := f'; marker := m3;
         results := rs ++ [result "ok" file (serviceDir_of out file) ""];
         processed := n + 1;
         log := l ++ es1 ++ opening file ++ es2
                ++ [ffmpeg_call (FullName file) (audioPath_of out file)]
                ++ es3
                ++ [ whisper_call (audioPath_of out file) (baseOut_of out file);
                     Host (progress_line (n + 1) total "ok" (FullName file)) ] |}.

(** Among the events [delta] of a turn there is an engine invocation that
    exits with a code other than zero. *)
Definition engine_failed (out : string) (file : FileInfo) (delta : list Event)
    : Prop :=
  (In (ffmpeg_call (FullName file) (audioPath_of out file)) delta
   /\ ffmpeg_exit (ffmpeg env (FullName file)) <> 0%Z)
  \/ (In (whisper_call (audioPath_of out file) (baseOut_of out file)) delta
      /\ whisper_exit (whisper env (audioPath_of out file)) <> 0%Z).

(** No poll of the marker and no engine among the events. *)
Definition quiet (es : list Event) : bool :=
  forallb (fun e => negb (is_poll e) && negb (is_run e)) es.

(** The events [delta] of a turn that starts when the coming polls of the
    marker are [polls].  They begin with the events [g1] of the gate before
    the file.  If that gate returns, events [a] follow that neither poll nor
    run an engine, and then the turn is over or the gate before the
    conversion follows, which sees the polls that the first gate has left.
    If it returns, the conversion is started at once, and then the turn is
    over after events [b] that neither poll nor run an engine, or the gate
    before the recognition follows at once; if it returns, the recognition
    is started at once, and events [c] that neither poll nor run an engine
    end the turn.  A gate that does not return is the end of the events. *)
Definition polls_at_safe_points (out : string) (file : FileInfo)
    (polls : list bool) (delta : list Event) : Prop :=
  let conversion := ffmpeg_call (FullName file) (audioPath_of out file) in
  let recognition := whisper_call (audioPath_of out file) (baseOut_of out file) in
  match gate (PauseFlagFile p) "before next file" polls with
  | (g1, None) => delta = g1
  | (g1, Some m1) =>
      exists a, quiet a = true /\
        (delta = (g1 ++ a)%list
         \/ match gate (PauseFlagFile p) "before ffmpeg" m1 with
            | (g2, None) => delta = (g1 ++ a ++ g2)%list
            | (g2, Some m2) =>
                (exists b, quiet b = true
                           /\ delta = (g1 ++ a ++ g2 ++ conversion :: b)%list)
                \/ match gate (PauseFlagFile p) "before whisper" m2 with
                   | (g3, None) =>
                       delta = (g1 ++ a ++ g2 ++ conversion :: g3)%list
                   | (g3, Some _) =>
                       exists c, quiet c = true
                                 /\ delta = (g1 ++ a ++ g2 ++ conversion :: g3
                                             ++ recognition :: c)%list
                   end
            end)
  end.

(** The pair of an outcome and a state is a turn of the loop from [st]. *)
Definition follows (out : string) (total : Z) (file : FileInfo) (st : State)
    (x : Outcome unit * State) : Prop :=
  file_step out total file (fs st) (marker st) (results st)
    (processed st) (log st) (fst x) (snd x).

End Script.

(** A run from an empty transcript and an empty list of results. *)
Definition start (files : gmap string Node) (polls : list bool) : State :=
  {| fs := files; marker := polls; results := []; processed := 0; log := [] |}.

(** ** The shape of a slug *)

(** A character of the slug alphabet [a-z0-9-]. *)
Definition slug_char (c : ascii) : bool := Char.is_az09 c || Char.is_hyphen c.

(** The normal form that [Get-Slug] produces: the regex [^[a-z0-9-]+$], no
    hyphen at either end, hyphens isolated, at most 96 characters. *)
Record slug_normal (s : chars) : Prop := {
  sn_nonempty : s <> [];
  sn_alphabet : forallb slug_char s = true;
  sn_isolated : no_adjacent Char.is_hyphen false s = true;
  sn_head : starts_with Char.is_hyphen s = false;
  sn_last : ends_with Char.is_hyphen s = false;
  sn_length : length s <= 96
}.


(** ** The progress channel *)

(** The status tokens of the progress lines of files. *)
Definition file_tokens : list string :=
  [ "ok"; "skipped"; "skipped-date"; "error-ffmpeg"; "error-whisper" ].

(** The progress lines of a transcript. *)
Definition progress_lines (es : list Event) : list Event :=
  List.filter is_progress es.

(** The progress lines of the files of a run whose tokens are [tokens], when
    [n] files were processed before. *)
Fixpoint file_lines (n total : Z) (files : list FileInfo) (tokens : list string)
    : list Event :=
  match files, tokens with
  | file :: files', token :: tokens' =>
      Host (progress_line (n + 1) total token (FullName file))
      :: file_lines (n + 1) total files' tokens'
  | _, _ => []
  end.

(** [<int>]: decimal digits after an optional sign. *)
Definition is_int (s : string) : bool :=
  match of_string s with
  | [] => false
  | c :: ds =>
      if is_char "-" c then negb (length ds =? 0)%nat && forallb Char.is_digit ds
      else forallb Char.is_digit (c :: ds)
  end.

(** [<token>]: not empty, no white space. *)
Definition is_token (s : string) : bool :=
  negb (length (of_string s) =? 0)%nat
  && forallb (fun c => negb (Char.IsWhiteSpace c)) (of_string s).

(** The format of the progress line as the specification words it,
    [[progress] done=<int> total=<int> [status=<token>] [source=<path>]],
    with the four fields of the line. *)
Definition progress_format (line done total : string)
    (status source : option string) : Prop :=
  line = "[progress] done=" ++ done ++ " total=" ++ total
         ++ match status with Some t => " status=" ++ t | None => "" end
         ++ match source with Some s => " source=" ++ s | None => "" end
  /\ is_int done = true /\ is_int total = true
  /\ (forall t, status = Some t -> is_token t = true)
  /\ (forall s, source = Some s -> s <> "").

(** The candidate list of a run. *)
Definition mediaFiles (p : Params) (env : Env) : list FileInfo :=
  candidates p env
    (Get_ChildItem env (resolved_input p env) (negb (NoRecursive p))).

(** The event [e] is the progress line of [file] in a run of [total] files:
    it carries the path of the file as its source and one of the tokens of
    files as its status, and it has the format of the channel. *)
Definition line_of_file (total : Z) (file : FileInfo) (e : Event) : Prop :=
  exists k token,
    e = Host (progress_line k total token (FullName file))
    /\ In token file_tokens
    /\ progress_format (progress_line k total token (FullName file))
         (Z_to_string k) (Z_to_string total) (Some token) (Some (FullName file)).

(** ** Concrete worlds *)

Definition july4 : DateTime := {| Year := 2021; Month := 7; Day := 4 |}.

Definition file_named (base ext : string) (t : DateTime) : FileInfo :=
  {| FullName := "C:\in\" ++ base ++ ext; Name := base ++ ext;
     BaseName := base; Extension := ext; LastWriteTime := t |}.

(** A recording of 1 February 2024. *)
Definition sample_file : FileInfo := file_named "2024-02-01_Service" ".mp4" july4.

(** The recording of the week after, and the two in a folder. *)
Definition later_file : FileInfo := file_named "2024-02-08_Service" ".mp4" july4.

Definition sample_files : list FileInfo := [sample_file; later_file].

Definition sample_params (force : bool) (cutoff flag : string) : Params :=
  {| InputFolder := "C:\in"; OutputFolder := "C:\out";
     ModelFile := "C:\models\ggml-small.en.bin";
     WhisperExe := "whisper-cli.exe"; FfmpegExe := "ffmpeg.exe";
     Force := force; NoRecursive := false; Limit := 0; BeforeDate := cutoff;
     Threads := 0; FastScan := false; KeepAudio := false;
     PauseFlagFile := flag |}.

(** Stand-ins for what the shell prints: the members of a record one on a
    line, and documents made of the title and the paragraphs or the
    overview. *)
Definition sample_json (members : list (string * Value)) : string :=
  join_lines
    (map (fun m => fst m ++ ": "
                   ++ match snd m with
                      | Text_value s => s
                      | Int_value z => Z_to_string z
                      | Bool_value b => if b then "true" else "false"
                      end)
         members).

Definition sample_clean (Title SourceFile : string) (paragraphs : list chars)
    : string :=
  join_lines
    (("# " ++ Title) :: "" :: flat_map (fun p => [to_string p; ""]) paragraphs).

Definition sample_summary (Title SourceFile overview : string) : string :=
  join_lines [ "# Summary: " ++ Title; ""; overview; "" ].

(** An order of names: the ordinal order of the lower-cased names. *)
Definition ordinal_le (a b : string) : bool := String.leb (lower a) (lower b).

(** A machine with both engines, where the conversion exits with [code]. *)
Definition sample_env (files : list FileInfo) (code : Z) : Env :=
  {| Get_Command := fun _ => true;
     Get_ChildItem := fun _ _ => files;
     ffmpeg := fun _ => {| ffmpeg_exit := code;
                           wav := if (code =? 0)%Z then Some "RIFF" else None |};
     whisper := fun _ => {| whisper_exit := 0;
                            txt := Some "Grace and peace. Amen.";
                            json := Some "{}" |};
     Get_Date := "2026-01-01T00:00:00.0000000Z";
     Resolve_Path := fun path => path;
     culture_le := ordinal_le;
     ConvertTo_Json := sample_json;
     CleanMarkdown := sample_clean;
     SummaryMarkdown := sample_summary |}.

Definition sample_fs : gmap string Node :=
  <["C:\in" := Directory]>
    (<["C:\out" := Directory]>
       (<["C:\models\ggml-small.en.bin" := File "ggml"]> ∅)).

(** The same, with the raw transcript of [sample_file] from an earlier run. *)
Definition sample_fs_done : gmap string Node :=
  <["C:\out\2024-02-01\2024-02-01-service\raw.txt" := File "Grace and peace. Amen."]>
    sample_fs.

(** ** The artifacts of a file *)

Definition cleanPath_of (out : string) (file : FileInfo) : string :=
  Join_Path (serviceDir_of out file) "clean.md".

Definition summaryPath_of (out : string) (file : FileInfo) : string :=
  Join_Path (serviceDir_of out file) "summary.md".

Definition timestampsPath_of (out : string) (file : FileInfo) : string :=
  Join_Path (serviceDir_of out file) "timestamps.json".

Definition metadataPath_of (out : string) (file : FileInfo) : string :=
  Join_Path (serviceDir_of out file) "metadata.json".

(** [$rawCandidate] and [$jsonCandidate]: what the recognition engine leaves
    beside the waveform. *)
Definition rawCandidate_of (out : string) (file : FileInfo) : string :=
  baseOut_of out file ++ ".txt".

Definition jsonCandidate_of (out : string) (file : FileInfo) : string :=
  baseOut_of out file ++ ".json".

(** The paths that a turn of the loop writes to: its two directories and the
    files of the service directory. *)
Definition turn_paths (out : string) (file : FileInfo) : list string :=
  [ dateDir_of out file; serviceDir_of out file; rawPath_of out file;
    cleanPath_of out file; summaryPath_of out file; timestampsPath_of out file;
    metadataPath_of out file; audioPath_of out file; rawCandidate_of out file;
    jsonCandidate_of out file ].

(** The file system once the directories are there and the two engines have
    run. *)
Definition engines_fs (env : Env) (out : string) (file : FileInfo)
    (m : gmap string Node) : gmap string Node :=
  recognized_fs env (audioPath_of out file) (baseOut_of out file)
    (converted_fs env (FullName file) (audioPath_of out file)
       (with_directories out file m)).

(** The file system that [place_artifacts] leaves when it starts from [m]. *)
Definition placed (p : Params) (env : Env) (out : string) (file : FileInfo)
    (m : gmap string Node) : gmap string Node :=
  fs (snd (place_artifacts p env file (Get_DateBucket file)
             (serviceDir_of out file) (start m []))).

(** The text of a file of the file system; empty when there is none. *)
Definition content_at (m : gmap string Node) (path : string) : string :=
  match m !! path with
  | Some (File c) => c
  | _ => ""
  end.

(** A fast scan that keeps the waveform. *)
Definition fast_params : Params :=
  {| InputFolder := "C:\in"; OutputFolder := "C:\out";
     ModelFile := "C:\models\ggml-small.en.bin";
     WhisperExe := "whisper-cli.exe"; FfmpegExe := "ffmpeg.exe";
     Force := false; NoRecursive := false; Limit := 0; BeforeDate := "";
     Threads := 4; FastScan := true; KeepAudio := true;
     PauseFlagFile := "" |}.

(** A machine whose recognition engine exits with [code] and writes
    nothing. *)
Definition silent_env (files : list FileInfo) (code : Z) : Env :=
  {| Get_Command := fun _ => true;
     Get_ChildItem := fun _ _ => files;
     ffmpeg := fun _ => {| ffmpeg_exit := 0; wav := Some "RIFF" |};
     whisper := fun _ => {| whisper_exit := code; txt := None; json := None |};
     Get_Date := "2026-01-01T00:00:00.0000000Z";
     Resolve_Path := fun path => path;
     culture_le := ordinal_le;
     ConvertTo_Json := sample_json;
     CleanMarkdown := sample_clean;
     SummaryMarkdown := sample_summary |}.

(** ** The whole run *)

(** The file system that [prepare_pause_flag] leaves when it starts from
    [m]. *)
Definition prepared (p : Params) (m : gmap string Node) : gmap string Node :=
  fs (snd (prepare_pause_flag p (start m []))).

(** The two events of the scan. *)
Definition scanning (p : Params) (inputResolved : string) : list Event :=
  [ Host ("Scanning "
          ++ (if NoRecursive p then "non-recursive" else "recursive")
          ++ " in: " ++ inputResolved);
    Scan inputResolved (negb (NoRecursive p)) ].

(** The three counts of lines 393 to 395 can all be taken: each of the
    statuses [ok], [error] and [skipped] has two results or more. *)
Definition counted (rs : list Result) : bool :=
  (2 <=? tally "ok" rs)%nat && (2 <=? tally "error" rs)%nat
  && (2 <=? tally "skipped" rs)%nat.

(** The file system once the index of the results [rs] is written. *)
Definition indexed (env : Env) (out : string) (rs : list Result)
    (m : gmap string Node) : gmap string Node :=
  <[indexPath_of out := File (join_lines (index_lines env rs) ++ CRLF)]> m.

(** The last lines of a run, which follow the counts. *)
Definition closing (out : string) (total n : Z) (rs : list Result) : list Event :=
  [ Host "";
    Host (progress_line n total "complete" "");
    Host ("Done. ok=" ++ Z_to_string (Z.of_nat (tally "ok" rs))
          ++ " error=" ++ Z_to_string (Z.of_nat (tally "error" rs))
          ++ " skipped=" ++ Z_to_string (Z.of_nat (tally "skipped" rs)));
    Host ("Index: " ++ indexPath_of out) ].

(** The run has passed its checks and found two media files or more, and
    it is not held: its loop has gone through the candidate list. *)
Definition loop_done (p : Params) (env : Env) (files : gmap string Node)
    (r : Outcome unit) : Prop :=
  dependencies_present p env files = true
  /\ BeforeDate_accepted (BeforeDate p) = true
  /\ 2 <= length (mediaFiles p env)
  /\ r <> Held.

(** Six recordings of March 2024: two to transcribe, two on which the
    conversion fails, and two that are transcribed already. *)
Definition six_files : list FileInfo :=
  [ file_named "2024-03-03_Evening" ".mp4" july4;
    file_named "2024-03-03_Morning" ".mp4" july4;
    file_named "2024-03-10_Broken" ".mp4" july4;
    file_named "2024-03-17_Broken" ".mp4" july4;
    file_named "2024-03-24_Done" ".mp3" july4;
    file_named "2024-03-31_Done" ".mp3" july4 ].

(** A machine on which the conversion exits with code 1 on the recordings
    named [Broken]. *)
Definition six_env : Env :=
  {| Get_Command := fun _ => true;
     Get_ChildItem := fun _ _ => six_files;
     ffmpeg := fun source =>
       if existsb (String.eqb source)
            [ "C:\in\2024-03-10_Broken.mp4"; "C:\in\2024-03-17_Broken.mp4" ]
       then {| ffmpeg_exit := 1; wav := None |}
       else {| ffmpeg_exit := 0; wav := Some "RIFF" |};
     whisper := fun _ => {| whisper_exit := 0;
                            txt := Some "Grace and peace. Amen.";
                            json := Some "{}" |};
     Get_Date := "2026-01-01T00:00:00.0000000Z";
     Resolve_Path := fun path => path;
     culture_le := ordinal_le;
     ConvertTo_Json := sample_json;
     CleanMarkdown := sample_clean;
     SummaryMarkdown := sample_summary |}.

(** The folders, the model, and the transcripts of the recordings named
    [Done]. *)
Definition six_fs : gmap string Node :=
  <["C:\out\2024-03-24\2024-03-24-done\raw.txt" := File "Grace and peace."]>
    (<["C:\out\2024-03-31\2024-03-31-done\raw.txt" := File "Amen."]> sample_fs).

(** What the loop records for a file, with what the script has found on
    the way to it: the five ways in which a turn that is not held ends. *)
Definition recorded (p : Params) (env : Env) (out : string) (file : FileInfo)
    (r : Result) : Prop :=
  (r = result "skipped-date" file "" "" /\ cutoff_excludes p file = true)
  \/ (cutoff_excludes p file = false
      /\ ((r = result "skipped" file (serviceDir_of out file) ""
           /\ Force p = false)
          \/ (r = result "error" file (serviceDir_of out file) "ffmpeg"
              /\ ffmpeg_exit (ffmpeg env (FullName file)) <> 0%Z)
          \/ (r = result "error" file (serviceDir_of out file) "whisper"
              /\ ffmpeg_exit (ffmpeg env (FullName file)) = 0%Z
              /\ whisper_exit (whisper env (audioPath_of out file)) <> 0%Z)
          \/ (r = result "ok" file (serviceDir_of out file) ""
              /\ ffmpeg_exit (ffmpeg env (FullName file)) = 0%Z
              /\ whisper_exit (whisper env (audioPath_of out file)) = 0%Z))).

(** The engine invocations of a turn: none, the conversion, or the
    conversion and then the recognition. *)
Definition engine_runs (p : Params) (out : string) (file : FileInfo)
    (runs : list Event) : Prop :=
  runs = []
  \/ runs = [ffmpeg_call p (FullName file) (audioPath_of out file)]
  \/ runs = [ ffmpeg_call p (FullName file) (audioPath_of out file);
              whisper_call p (audioPath_of out file) (baseOut_of out file) ].

(** No engine, no poll of the marker and no sleep among the events. *)
Definition calm (es : list Event) : bool :=
  forallb (fun e => negb (is_run e) && negb (is_poll e) && negb (is_sleep e)) es.

(** The messages of the checks that come after the output folder is made. *)
Definition later_messages (p : Params) : list string :=
  [ "ffmpeg not found on PATH. Set -FfmpegExe or install ffmpeg.";
    "whisper executable not found: " ++ WhisperExe p;
    "Model file not found: " ++ ModelFile p;
    BeforeDate_message ].

(** No poll of the marker and no sleep among the events. *)
Definition never_waits (es : list Event) : bool :=
  forallb (fun e => negb (is_poll e) && negb (is_sleep e)) es.

(** A file system with the input folder and nothing else. *)
Definition bare_fs : gmap string Node := <["C:\in" := Directory]> ∅.

(** ** Dates as numbers *)

Definition digit_value (c : ascii) : nat := Char.code c - 48.

(** The number [YYYYMMDD] of a text that starts with a date of the form
    [YYYY-MM-DD]. *)
Definition date_number (s : chars) : nat :=
  match s with
  | y1 :: y2 :: y3 :: y4 :: _ :: m1 :: m2 :: _ :: d1 :: d2 :: _ =>
      fold_left (fun n c => 10 * n + digit_value c)
        [y1; y2; y3; y4; m1; m2; d1; d2] 0
  | _ => 0
  end.

(** A day of the years 2000 to 2099. *)
Definition this_century (t : DateTime) : bool :=
  (2000 <=? Year t)%nat && (Year t <=? 2099)%nat
  && (1 <=? Month t)%nat && (Month t <=? 12)%nat
  && (1 <=? Day t)%nat && (Day t <=? 31)%nat.

(** The form [20YY-MM-DD], with nothing after it. *)
Definition bucket_form (s : chars) : bool :=
  IsMatch_cutoff s && (length s =? 10)%nat.

(** The days of the years [ys], months [ms] and days [ds], each printed by
    [ToString("yyyy-MM-dd")], have the form. *)
Definition all_dates (ys ms ds : list nat) : bool :=
  forallb (fun y =>
    forallb (fun m =>
      forallb (fun d =>
        bucket_form (ToString_yyyy_MM_dd {| Year := y; Month := m; Day := d |}))
        ds)
      ms)
    ys.

(** ** The overview of the summary *)

(** No line break, tabulation or other white space than the space. *)
Definition one_line (s : chars) : bool :=
  forallb (fun c => negb (Char.IsWhiteSpace c) || is_char " " c) s.

(** * Properties *)

Open Scope list_scope.

Example slug_sunday :
  Get_Slug "Sunday AM - 3/10!!" = "sunday-am-3-10".
Proof. reflexivity. Qed.

Example slug_blank : Get_Slug "  " = "service".
Proof. reflexivity. Qed.

Example slug_punct : Get_Slug "!!!" = "service".
Proof. reflexivity. Qed.

(** ** Facts about characters *)

Section CharFacts.

Lemma az09_not_hyphen c : Char.is_az09 c = true -> Char.is_hyphen c = false.
Proof. destruct c as [[] [] [] [] [] [] [] []]; vm_compute; congruence. Qed.

Lemma az09_not_space c : Char.is_az09 c = true -> Char.IsWhiteSpace c = false.
Proof. destruct c as [[] [] [] [] [] [] [] []]; vm_compute; congruence. Qed.

Lemma az09_lower_fixed c :
  Char.is_az09 c = true -> Char.ToLowerInvariant c = c.
Proof. destruct c as [[] [] [] [] [] [] [] []]; vm_compute; congruence. Qed.

Lemma is_hyphen_eq c : Char.is_hyphen c = true <-> c = hyphen.
Proof.
  split; [| intros ->; reflexivity].
  destruct c as [[] [] [] [] [] [] [] []]; vm_compute; congruence.
Qed.

Lemma hyphen_not_space c : Char.is_hyphen c = true -> Char.IsWhiteSpace c = false.
Proof. intros ->%is_hyphen_eq. reflexivity. Qed.

End CharFacts.

Section TextFacts.

Variable P : ascii -> bool.

Lemma TrimStart_suffix s : exists k, Text.TrimStart P s = drop k s.
Proof.
  induction s as [|c s IH]; simpl.
  - exists 0. reflexivity.
  - destruct (P c).
    + destruct IH as [k ->]. exists (S k). reflexivity.
    + exists 0. reflexivity.
Qed.

Lemma TrimStart_head s : starts_with P (Text.TrimStart P s) = false.
Proof.
  induction s as [|c s IH]; simpl; [reflexivity|].
  destruct (P c) eqn:E; [exact IH | simpl; exact E].
Qed.

Lemma TrimStart_id s : starts_with P s = false -> Text.TrimStart P s = s.
Proof. destruct s as [|c s]; simpl; [reflexivity | intros ->; reflexivity]. Qed.

Lemma TrimEnd_prefix s : exists k, Text.TrimEnd P s = take k s.
Proof.
  induction s as [|c s IH]; simpl.
  - exists 0. reflexivity.
  - destruct IH as [k Hk]. destruct (Text.TrimEnd P s) eqn:E.
    + destruct (P c); [exists 0 | exists 1]; simpl; [reflexivity|].
      rewrite take_0. reflexivity.
    + exists (S k). simpl. rewrite Hk. reflexivity.
Qed.

Lemma TrimEnd_last s : ends_with P (Text.TrimEnd P s) = false.
Proof.
  unfold ends_with. induction s as [|c s IH]; simpl; [reflexivity|].
  destruct (Text.TrimEnd P s) as [|d t] eqn:E.
  - destruct (P c) eqn:Ec; simpl; [reflexivity | rewrite Ec; reflexivity].
  - rewrite last_cons. destruct (last (d :: t)) eqn:El; [exact IH|].
    apply last_None in El. discriminate.
Qed.

Lemma TrimEnd_id s : ends_with P s = false -> s <> [] -> Text.TrimEnd P s = s.
Proof.
  unfold ends_with. induction s as [|c s IH]; [congruence|].
  intros Hl _. simpl. destruct s as [|d t].
  - simpl in *. rewrite Hl. reflexivity.
  - rewrite last_cons in Hl.
    destruct (last (d :: t)) eqn:El; [|apply last_None in El; discriminate].
    rewrite IH; [reflexivity | exact Hl | discriminate].
Qed.

Lemma TrimEnd_head s :
  starts_with P s = false -> starts_with P (Text.TrimEnd P s) = false.
Proof.
  destruct s as [|c s]; simpl; [reflexivity|]. intros Hc.
  destruct (Text.TrimEnd P s); [rewrite Hc|]; simpl; exact Hc.
Qed.

Lemma TrimEnd_nonempty s :
  s <> [] -> starts_with P s = false -> Text.TrimEnd P s <> [].
Proof.
  destruct s as [|c s]; simpl; [congruence|]. intros _ Hc.
  destruct (Text.TrimEnd P s); [rewrite Hc|]; discriminate.
Qed.

End TextFacts.

Section RunFacts.

Variable C : ascii -> bool.

Lemma no_adjacent_weaken b s :
  no_adjacent C b s = true -> no_adjacent C false s = true.
Proof.
  destruct s as [|c s]; simpl; [reflexivity|].
  destruct (C c); [|tauto]. intros [_ H]%andb_prop. exact H.
Qed.

Lemma no_adjacent_drop k b s :
  no_adjacent C b s = true -> no_adjacent C false (drop k s) = true.
Proof.
  revert b s. induction k as [|k IH]; intros b s H.
  - rewrite drop_0. eapply no_adjacent_weaken, H.
  - destruct s as [|c s]; simpl; [reflexivity|]. simpl in H.
    destruct (C c); [apply andb_prop in H as [_ H]|]; eapply IH, H.
Qed.

Lemma no_adjacent_take k b s :
  no_adjacent C b s = true -> no_adjacent C b (take k s) = true.
Proof.
  revert b s. induction k as [|k IH]; intros b s H; [reflexivity|].
  destruct s as [|c s]; simpl; [reflexivity|]. simpl in H.
  destruct (C c).
  - apply andb_prop in H as [-> H]. simpl. eapply IH, H.
  - eapply IH, H.
Qed.

Lemma forallb_take k s : forallb C s = true -> forallb C (take k s) = true.
Proof.
  revert s. induction k as [|k IH]; intros [|c s]; simpl; try reflexivity.
  intros [-> H]%andb_prop. simpl. apply IH, H.
Qed.

Lemma forallb_drop k s : forallb C s = true -> forallb C (drop k s) = true.
Proof.
  revert s. induction k as [|k IH]; intros [|c s]; simpl; try tauto.
  intros [_ H]%andb_prop. apply IH, H.
Qed.

(** A replacement by the hyphen leaves the characters outside the class and
    isolated hyphens, provided the hyphen itself is in the class. *)
Lemma Replace_runs_isolated b s :
  (forall c, Char.is_hyphen c = true -> C c = true) ->
  no_adjacent Char.is_hyphen b (Text.Replace_runs C hyphen b s) = true.
Proof.
  intros HC. revert b. induction s as [|c s IH]; intros b; simpl; [reflexivity|].
  destruct (C c) eqn:Ec.
  - destruct b; [apply IH|]. simpl. apply IH.
  - simpl. destruct (Char.is_hyphen c) eqn:Eh.
    + apply HC in Eh. congruence.
    + apply IH.
Qed.

(** On a text whose characters of the class are isolated hyphens the
    replacement changes nothing. *)
Lemma Replace_runs_id b s :
  Forall (fun c => C c = Char.is_hyphen c) s ->
  no_adjacent Char.is_hyphen b s = true ->
  Text.Replace_runs C hyphen b s = s.
Proof.
  intros HC. revert b. induction HC as [|c s Hc _ IH]; intros b; simpl;
    [reflexivity|].
  rewrite Hc. destruct (Char.is_hyphen c) eqn:Eh.
  - intros [->%negb_true_iff H]%andb_prop.
    apply is_hyphen_eq in Eh as ->. f_equal. apply IH, H.
  - intros H. f_equal. apply IH, H.
Qed.

End RunFacts.

Lemma Replace_nonalnum_alphabet b s :
  forallb slug_char
    (Text.Replace_runs (fun c => negb (Char.is_az09 c)) hyphen b s) = true.
Proof.
  revert b. induction s as [|c s IH]; intros b; simpl; [reflexivity|].
  unfold slug_char at 1.
  destruct (Char.is_az09 c) eqn:Ec; simpl.
  - rewrite Ec. simpl. apply IH.
  - destruct b; [apply IH|]. simpl. apply IH.
Qed.

Lemma slug_char_class c :
  slug_char c = true -> negb (Char.is_az09 c) = Char.is_hyphen c.
Proof.
  unfold slug_char. destruct (Char.is_az09 c) eqn:E; simpl.
  - intros _. symmetry. apply az09_not_hyphen, E.
  - congruence.
Qed.

Lemma slug_alphabet_class s :
  forallb slug_char s = true ->
  Forall (fun c => negb (Char.is_az09 c) = Char.is_hyphen c) s.
Proof.
  induction s as [|c s IH]; simpl; [constructor|].
  intros [Hc H]%andb_prop. constructor; [apply slug_char_class, Hc | apply IH, H].
Qed.

Lemma slug_alphabet_lower s :
  forallb slug_char s = true -> Text.ToLowerInvariant s = s.
Proof.
  induction s as [|c s IH]; simpl; [reflexivity|].
  intros [Hc H]%andb_prop. rewrite IH by exact H. f_equal.
  unfold slug_char in Hc. apply orb_prop in Hc as [Hc|Hc].
  - apply az09_lower_fixed, Hc.
  - apply is_hyphen_eq in Hc as ->. reflexivity.
Qed.

Lemma slug_nonblank s :
  s <> [] -> forallb slug_char s = true ->
  Text.IsNullOrWhiteSpace s = false.
Proof.
  destruct s as [|c s]; [congruence|]. intros _. simpl.
  intros [Hc _]%andb_prop. unfold slug_char in Hc.
  apply orb_prop in Hc as [Hc|Hc].
  - rewrite (az09_not_space _ Hc). reflexivity.
  - rewrite (hyphen_not_space _ Hc). reflexivity.
Qed.

Lemma service_normal : slug_normal service.
Proof. split; vm_compute; first [congruence | lia | reflexivity]. Qed.

Lemma TrimSet_shape s :
  forallb slug_char s = true ->
  no_adjacent Char.is_hyphen false s = true ->
  let t := Text.TrimSet Char.is_hyphen s in
  forallb slug_char t = true /\ no_adjacent Char.is_hyphen false t = true /\
  starts_with Char.is_hyphen t = false /\ ends_with Char.is_hyphen t = false.
Proof.
  intros Ha Hi t. subst t. unfold Text.TrimSet.
  destruct (TrimStart_suffix Char.is_hyphen s) as [k Hk].
  destruct (TrimEnd_prefix Char.is_hyphen (Text.TrimStart Char.is_hyphen s))
    as [j Hj].
  repeat split.
  - rewrite Hj, Hk. apply forallb_take, forallb_drop, Ha.
  - rewrite Hj, Hk. eapply no_adjacent_take, no_adjacent_drop, Hi.
  - apply TrimEnd_head, TrimStart_head.
  - apply TrimEnd_last.
Qed.

Lemma starts_with_take P n s :
  starts_with P s = false -> starts_with P (take n s) = false.
Proof. destruct n, s; simpl; auto. Qed.

(** The cut at 96 characters keeps the normal form. *)
Lemma truncate_normal s :
  s <> [] ->
  forallb slug_char s = true ->
  no_adjacent Char.is_hyphen false s = true ->
  starts_with Char.is_hyphen s = false ->
  slug_normal (Text.TrimSet Char.is_hyphen (Text.Substring0 96 s)).
Proof.
  intros Hne Ha Hi Hh. unfold Text.Substring0.
  pose proof (forallb_take _ 96 _ Ha) as Ha'.
  pose proof (no_adjacent_take _ 96 _ _ Hi) as Hi'.
  pose proof (starts_with_take _ 96 _ Hh) as Hh'.
  destruct (TrimSet_shape _ Ha' Hi') as (Hta & Hti & Hth & Htl).
  split; try assumption.
  - unfold Text.TrimSet. rewrite TrimStart_id by exact Hh'.
    apply TrimEnd_nonempty; [|exact Hh'].
    destruct s; [congruence | discriminate].
  - unfold Text.TrimSet. rewrite TrimStart_id by exact Hh'.
    destruct (TrimEnd_prefix Char.is_hyphen (take 96 s)) as [j ->].
    rewrite !length_take. lia.
Qed.

(** The slug of any text is in normal form. *)
Lemma slug_chars_normal Text : slug_normal (slug_chars Text).
Proof.
  unfold slug_chars.
  destruct (Text.IsNullOrWhiteSpace Text); [apply service_normal|].
  set (s1 := Text.Replace_runs _ hyphen false (Text.ToLowerInvariant Text)).
  assert (Ha1 : forallb slug_char s1 = true) by apply Replace_nonalnum_alphabet.
  assert (Hi1 : no_adjacent Char.is_hyphen false s1 = true).
  { apply Replace_runs_isolated. intros c Hc.
    destruct (Char.is_az09 c) eqn:E; [|reflexivity].
    apply az09_not_hyphen in E. congruence. }
  rewrite (Replace_runs_id Char.is_hyphen false s1);
    [| apply Forall_forall; reflexivity | exact Hi1].
  destruct (TrimSet_shape _ Ha1 Hi1) as (Ha & Hi & Hh & Hl).
  set (s3 := Text.TrimSet Char.is_hyphen s1) in *.
  destruct (Text.IsNullOrWhiteSpace s3) eqn:Eb.
  - change (96 <? length service)%nat with false. cbv iota.
    apply service_normal.
  - assert (Hne : s3 <> []) by (intros E; rewrite E in Eb; discriminate).
    destruct (96 <? length s3)%nat eqn:El.
    + apply truncate_normal; assumption.
    + apply Nat.ltb_ge in El. split; assumption.
Qed.

(** On a text in normal form [Get-Slug] changes nothing. *)
Lemma slug_chars_fixed s : slug_normal s -> slug_chars s = s.
Proof.
  intros [Hne Ha Hi Hh Hl Hlen]. unfold slug_chars.
  rewrite (slug_nonblank s Hne Ha).
  rewrite (slug_alphabet_lower s Ha).
  rewrite (Replace_runs_id (fun c => negb (Char.is_az09 c)) false s);
    [| apply slug_alphabet_class, Ha | exact Hi].
  rewrite (Replace_runs_id Char.is_hyphen false s);
    [| apply Forall_forall; reflexivity | exact Hi].
  unfold Text.TrimSet. rewrite TrimStart_id by exact Hh.
  rewrite TrimEnd_id by assumption.
  rewrite (slug_nonblank s Hne Ha).
  apply Nat.ltb_ge in Hlen. rewrite Hlen. reflexivity.
Qed.

Lemma Replace_runs_all C r s :
  forallb C s = true ->
  Text.Replace_runs C r true s = [] /\
  Text.Replace_runs C r false s = match s with [] => [] | _ => [r] end.
Proof.
  induction s as [|c s IH]; simpl; [auto|].
  intros [-> H]%andb_prop. destruct (IH H) as [-> _]. auto.
Qed.

(** A text without any letter or digit gets the fallback literal. *)
Lemma slug_chars_fallback Text :
  forallb (fun c => negb (Char.is_az09 (Char.ToLowerInvariant c))) Text = true ->
  slug_chars Text = service.
Proof.
  intros H. unfold slug_chars.
  destruct (Text.IsNullOrWhiteSpace Text); [reflexivity|].
  assert (H' : forallb (fun c => negb (Char.is_az09 c))
                 (Text.ToLowerInvariant Text) = true).
  { clear -H. induction Text as [|c t IH]; simpl in *; [reflexivity|].
    apply andb_prop in H as [-> H]. simpl. apply IH, H. }
  destruct (Replace_runs_all _ hyphen _ H') as [_ ->].
  destruct (Text.ToLowerInvariant Text); reflexivity.
Qed.

(** ** Get-Slug: shape and idempotence *)

(** C8: for every base filename the slug matches [^[a-z0-9-]+$] (it is not
    empty and all its characters are of the alphabet), has at most 96
    characters, has no hyphen at either end, and is the literal [service] when
    the name has no letter or digit at all. *)
Theorem Get_Slug_shape (Text : string) :
  of_string (Get_Slug Text) <> [] /\
  forallb slug_char (of_string (Get_Slug Text)) = true /\
  length (of_string (Get_Slug Text)) <= 96 /\
  starts_with Char.is_hyphen (of_string (Get_Slug Text)) = false /\
  ends_with Char.is_hyphen (of_string (Get_Slug Text)) = false /\
  (forallb (fun c => negb (Char.is_az09 (Char.ToLowerInvariant c)))
     (of_string Text) = true ->
   Get_Slug Text = "service").
Proof.
  unfold Get_Slug, of_string, to_string.
  rewrite list_ascii_of_string_of_list_ascii.
  destruct (slug_chars_normal (list_ascii_of_string Text))
    as [Hne Ha Hi Hh Hl Hlen].
  repeat split; try assumption.
  intros H. apply slug_chars_fallback in H.
  unfold of_string in H. rewrite H. reflexivity.
Qed.

Lemma Get_Slug_shape_witness : Get_Slug "?!  --  !?" = "service".
Proof.
  destruct (Get_Slug_shape "?!  --  !?") as (_ & _ & _ & _ & _ & H).
  apply H. reflexivity.
Defined.

(** C10: [Get-Slug] is idempotent. *)
Theorem Get_Slug_idempotent (Text : string) :
  Get_Slug (Get_Slug Text) = Get_Slug Text.
Proof.
  unfold Get_Slug, of_string, to_string.
  rewrite list_ascii_of_string_of_list_ascii.
  rewrite slug_chars_fixed; [reflexivity | apply slug_chars_normal].
Qed.

Example slug_long :
  String.length (Get_Slug
    "aaaaaaaaaaaaaaaaaaaaaaaaaaaaaaaaaaaaaaaaaaaaaaaaaaaaaaaaaaaaaaaaaaaaaaaaaaaaaaaaaaaaaaaaaaaaaaa bbbb")
  = 95.
Proof. reflexivity. Qed.

(** ** Get-DateBucket *)

Example bucket_dashed :
  Get_DateBucket (file_named "2024-03-10_Service" ".mp4" july4) = "2024-03-10".
Proof. reflexivity. Qed.

Example bucket_compact :
  Get_DateBucket (file_named "20240310_Service" ".mp4" july4) = "2024-03-10".
Proof. reflexivity. Qed.

Example bucket_mtime :
  Get_DateBucket (file_named "Service" ".mp4" july4) = "2021-07-04".
Proof. reflexivity. Qed.


(** ** Build-CleanMarkdown *)

Example split_example :
  map to_string (Split_sentences (flatten (of_string "  One.  Two three!
Four? five ")))
  = ["One."; "Two three!"; "Four?"; "five"].
Proof. reflexivity. Qed.

Example split_empty : Split_sentences (flatten []) = [[]].
Proof. reflexivity. Qed.

(** ** The loop body follows the step relation *)

Ltac step_host :=
  unfold bind at 1; unfold Write_Host at 1; unfold emit at 1;
  cbn [fs marker results processed log].

Ltac step_warning :=
  unfold bind at 1; unfold Write_Warning at 1; unfold emit at 1;
  cbn [fs marker results processed log].

Section Steps.

Context (p : Params) (env : Env).

Lemma place_artifacts_state file bucket dir f m rs n l :
  exists f',
    place_artifacts p env file bucket dir
      {| fs := f; marker := m; results := rs; processed := n; log := l |}
    = (Ret tt, {| fs := f'; marker := m; results := rs; processed := n; log := l |}).
Proof.
  unfold place_artifacts, bind, when, Test_Path, Move_Item, Get_Content,
    Set_Content, Remove_Item, ret, set_fs. cbn [fs marker results processed log].
  repeat match goal with
         | |- context [if ?b then _ else _] => destruct b; cbn [fs marker results processed log negb andb]
         end;
  eexists; reflexivity.
Qed.

Lemma Wait_IfPaused_run path ctx f m rs n l :
  Wait_IfPaused path ctx
    {| fs := f; marker := m; results := rs; processed := n; log := l |}
  = match gate path ctx m with
    | (es, Some m') =>
        (Ret tt, {| fs := f; marker := m'; results := rs; processed := n;
                    log := l ++ es |})
    | (es, None) =>
        (Held, {| fs := f; marker := []; results := rs; processed := n;
                  log := l ++ es |})
    end.
Proof.
  unfold Wait_IfPaused. cbn [marker].
  destruct (gate path ctx m) as [es [m'|]]; reflexivity.
Qed.

Lemma ensure_directory_run d f m rs n l :
  ensure_directory d
    {| fs := f; marker := m; results := rs; processed := n; log := l |}
  = (Ret tt, {| fs := mkdir d f; marker := m; results := rs; processed := n;
                log := l |}).
Proof.
  unfold ensure_directory, bind, Test_Path, when, New_Directory, set_fs, ret.
  cbn [fs marker results processed log]. unfold mkdir.
  destruct (present f d) eqn:E; cbn [negb]; [reflexivity|].
  cbn [fs marker results processed log]. rewrite E. reflexivity.
Qed.

Lemma finish_run total r tok f m rs n l :
  finish total r tok
    {| fs := f; marker := m; results := rs; processed := n; log := l |}
  = (Ret tt, {| fs := f; marker := m; results := rs ++ [r];
                processed := n + 1;
                log := l ++ [Host (progress_line (n + 1) total tok (Source r))] |}).
Proof. reflexivity. Qed.

Lemma process_file_step out total file f m rs n l :
  follows p env out total file
    {| fs := f; marker := m; results := rs; processed := n; log := l |}
    (process_file p env out total file
       {| fs := f; marker := m; results := rs; processed := n; log := l |}).
Proof.
  unfold process_file. unfold bind at 1. rewrite Wait_IfPaused_run.
  destruct (gate (PauseFlagFile p) "before next file" m) as [es1 [m1|]] eqn:G1;
    [| apply held_before_file; exact G1].
  step_host. step_host.
  fold (cutoff_excludes p file).
  destruct (cutoff_excludes p file) eqn:Hcut.
  - step_host.
    unfold bind at 1. rewrite finish_run. unfold continue.
    unfold follows. cbn [fst snd fs marker results processed log Source].
    rewrite <- !app_assoc.
    exact (skipped_by_date p env out total file f m rs n l es1 m1 G1 Hcut).
  - unfold bind at 1. rewrite ensure_directory_run.
    unfold bind at 1. rewrite ensure_directory_run.
    unfold bind at 1. unfold Test_Path at 1. cbn [fs marker results processed log].
    fold (dateDir_of out file). fold (serviceDir_of out file).
    fold (with_directories out file f). fold (rawPath_of out file).
    fold (already_done p out file f).
    destruct (already_done p out file f) eqn:Hdone.
    + step_host.
      unfold bind at 1. rewrite finish_run. unfold continue.
      unfold follows. cbn [fst snd fs marker results processed log Source].
      rewrite <- !app_assoc.
      exact (skipped_as_done p env out total file f m rs n l es1 m1 G1 Hcut Hdone).
    + unfold bind at 1. rewrite Wait_IfPaused_run.
      destruct (gate (PauseFlagFile p) "before ffmpeg" m1) as [es2 [m2|]] eqn:G2.
      2:{ unfold follows. cbn [fst snd fs marker results processed log].
          rewrite <- !app_assoc.
          exact (held_before_ffmpeg p env out total file f m rs n l es1 m1 es2
                   G1 Hcut Hdone G2). }
      unfold bind at 1. unfold Invoke_ffmpeg at 1. unfold emit, set_fs.
      cbn [fs marker results processed log].
      fold (audioPath_of out file). fold (baseOut_of out file).
      destruct (ffmpeg_exit (ffmpeg env (FullName file)) =? 0)%Z eqn:Hc;
        cbn [negb].
      * apply Z.eqb_eq in Hc.
        unfold bind at 1. rewrite Wait_IfPaused_run.
        destruct (gate (PauseFlagFile p) "before whisper" m2) as [es3 [m3|]] eqn:G3.
        2:{ unfold follows. cbn [fst snd fs marker results processed log].
            rewrite <- !app_assoc.
            exact (held_before_whisper p env out total file f m rs n l es1 m1 es2
                     m2 es3 G1 Hcut Hdone G2 Hc G3). }
        unfold bind at 1. unfold Invoke_whisper at 1. unfold emit, set_fs.
      cbn [fs marker results processed log].
        destruct (whisper_exit (whisper env (audioPath_of out file)) =? 0)%Z
          eqn:Hw; cbn [negb].
        -- apply Z.eqb_eq in Hw.
           unfold bind at 1.
           match goal with
           | |- context [place_artifacts p env ?a ?b ?c ?st] =>
               destruct (place_artifacts_state a b c (fs st) (marker st)
                           (results st) (processed st) (log st)) as [f' Hp]
           end.
           cbn [fs marker results processed log] in Hp. rewrite Hp.
           rewrite finish_run.
           unfold follows. cbn [fst snd fs marker results processed log Source].
           rewrite <- !app_assoc.
           exact (transcribed p env out total file f m rs n l es1 m1 es2 m2 es3
                    m3 f' G1 Hcut Hdone G2 Hc G3 Hw).
        -- apply Z.eqb_neq in Hw.
           step_warning.
           unfold bind at 1. rewrite finish_run. unfold continue.
           unfold follows. cbn [fst snd fs marker results processed log Source].
           rewrite <- !app_assoc.
           exact (failed_whisper p env out total file f m rs n l es1 m1 es2 m2
                    es3 m3 G1 Hcut Hdone G2 Hc G3 Hw).
      * apply Z.eqb_neq in Hc.
        step_warning.
        unfold bind at 1. rewrite finish_run. unfold continue.
        unfold follows. cbn [fst snd fs marker results processed log Source].
        rewrite <- !app_assoc.
        exact (failed_ffmpeg p env out total file f m rs n l es1 m1 es2 m2
                 G1 Hcut Hdone G2 Hc).
Qed.

End Steps.

(** ** Wait-IfPaused *)

Section Gate.

Context (path ctx : string).

Lemma pause_loop_announced k rest :
  pause_loop path ctx true (replicate k true ++ false :: rest)
  = (concat (replicate k [Poll true; Sleep 2]) ++ [Poll false], Some (true, rest)).
Proof.
  induction k as [|k IH]; [reflexivity|].
  cbn [replicate app pause_loop]. rewrite IH. reflexivity.
Qed.

Lemma pause_loop_announced_held k :
  pause_loop path ctx true (replicate k true)
  = (concat (replicate k [Poll true; Sleep 2]), None).
Proof.
  induction k as [|k IH]; [reflexivity|].
  cbn [replicate pause_loop]. rewrite IH. reflexivity.
Qed.

Lemma gate_opens k rest :
  IsNullOrWhiteSpace path = false ->
  gate path ctx (replicate k true ++ false :: rest) = (gate_trace path ctx k, Some rest).
Proof.
  intros Hp. unfold gate. rewrite Hp. destruct k as [|k]; [reflexivity|].
  cbn [replicate app pause_loop]. rewrite pause_loop_announced.
  cbn [negb gate_trace]. f_equal.
  unfold pause_notice, resume_notice. cbn [app].
  do 4 f_equal. rewrite <- app_assoc. reflexivity.
Qed.

Lemma gate_holds k :
  IsNullOrWhiteSpace path = false ->
  gate path ctx (replicate k true) = (held_trace path ctx k, None).
Proof.
  intros Hp. unfold gate. rewrite Hp. destruct k as [|k]; [reflexivity|].
  cbn [replicate pause_loop]. rewrite pause_loop_announced_held. reflexivity.
Qed.

Lemma gate_without_flag polls :
  IsNullOrWhiteSpace path = true -> gate path ctx polls = ([], Some polls).
Proof. intros Hp. unfold gate. rewrite Hp. reflexivity. Qed.

(** What the polls see is a run of sightings of the marker, ended or not by
    a poll that sees it gone. *)
Lemma polls_shape (polls : list bool) :
  (exists k rest, polls = replicate k true ++ false :: rest)
  \/ (exists k, polls = replicate k true).
Proof.
  induction polls as [|[] polls IH].
  - right. exists 0. reflexivity.
  - destruct IH as [(k & rest & ->) | (k & ->)].
    + left. exists (S k), rest. reflexivity.
    + right. exists (S k). reflexivity.
  - left. exists 0, polls. reflexivity.
Qed.

Lemma gate_trace_events k : forallb is_gate_event (gate_trace path ctx k) = true.
Proof.
  destruct k as [|k]; [reflexivity|].
  cbn [gate_trace pause_notice app forallb is_gate_event].
  rewrite forallb_app. cbn [forallb is_gate_event app andb].
  assert (H : forallb is_gate_event (concat (replicate k [Poll true; Sleep 2])) = true)
    by (induction k; [reflexivity | exact IHk]).
  rewrite H. reflexivity.
Qed.

Lemma held_trace_events k : forallb is_gate_event (held_trace path ctx k) = true.
Proof.
  destruct k as [|k]; [reflexivity|].
  cbn [held_trace pause_notice app forallb is_gate_event].
  assert (H : forallb is_gate_event (concat (replicate k [Poll true; Sleep 2])) = true)
    by (induction k; [reflexivity | exact IHk]).
  rewrite H. reflexivity.
Qed.

(** A gate polls, sleeps and prints its notices, whatever the polls see. *)
Lemma gate_events polls :
  forallb is_gate_event (fst (gate path ctx polls)) = true.
Proof.
  destruct (IsNullOrWhiteSpace path) eqn:Hp.
  - rewrite gate_without_flag by exact Hp. reflexivity.
  - destruct (polls_shape polls) as [(k & rest & ->) | (k & ->)].
    + rewrite gate_opens by exact Hp. apply gate_trace_events.
    + rewrite gate_holds by exact Hp. apply held_trace_events.
Qed.

End Gate.

Lemma gate_event_quiet e :
  is_gate_event e = true -> is_progress e = false /\ is_run e = false.
Proof.
  destruct e as [line| | | | |]; cbn [is_gate_event is_progress is_run];
    try (intros; split; congruence).
  intros H. split; [|reflexivity].
  destruct line as [|a [|b [|c line]]]; cbn [has_prefix] in *;
    rewrite ?andb_false_r in *; try discriminate H; try reflexivity.
  apply andb_prop in H as [_ H]. apply andb_prop in H as [_ H].
  apply andb_prop in H as [H _]. apply Ascii.eqb_eq in H. subst c.
  rewrite !andb_false_r. reflexivity.
Qed.

(** ** Paths and the file system *)

Lemma append_cons x (a b : string) : String x a +:+ b = String x (a +:+ b).
Proof. reflexivity. Qed.

Lemma append_inj_l (a b c : string) : a +:+ b = a +:+ c -> b = c.
Proof.
  induction a as [|x a IH]; [exact id|].
  rewrite !append_cons. intros [= H]. exact (IH H).
Qed.

Lemma length_append (a b : string) :
  String.length (a +:+ b) = String.length a + String.length b.
Proof.
  induction a as [|x a IH]; [reflexivity|].
  rewrite append_cons. cbn [String.length]. rewrite IH. reflexivity.
Qed.

Lemma append_assoc (a b c : string) : (a +:+ b) +:+ c = a +:+ (b +:+ c).
Proof.
  induction a as [|x a IH]; [reflexivity|].
  rewrite !append_cons, IH. reflexivity.
Qed.

(** [Join-Path] puts the child after a prefix that the parent decides. *)
Definition joined (parent : string) : string :=
  if ends_with is_separator (of_string parent) then parent else parent +:+ "\".

Lemma Join_Path_joined parent child : Join_Path parent child = joined parent +:+ child.
Proof.
  unfold Join_Path, joined.
  destruct (ends_with is_separator (of_string parent)); [reflexivity|].
  rewrite append_assoc. reflexivity.
Qed.

Lemma Join_Path_inj parent a b : Join_Path parent a = Join_Path parent b -> a = b.
Proof. rewrite !Join_Path_joined. apply append_inj_l. Qed.

Lemma Join_Path_length parent child :
  String.length parent + String.length child <= String.length (Join_Path parent child).
Proof.
  rewrite Join_Path_joined, length_append. unfold joined.
  destruct (ends_with is_separator (of_string parent)); [lia|].
  rewrite length_append. lia.
Qed.

Section Places.

Context (out : string) (file : FileInfo).

Lemma rawPath_not_serviceDir : rawPath_of out file <> serviceDir_of out file.
Proof.
  intros E. apply (f_equal String.length) in E. unfold rawPath_of in E.
  pose proof (Join_Path_length (serviceDir_of out file) "raw.txt") as H.
  cbn [String.length] in H. lia.
Qed.

Lemma rawPath_not_dateDir : rawPath_of out file <> dateDir_of out file.
Proof.
  intros E. apply (f_equal String.length) in E. unfold rawPath_of in E.
  pose proof (Join_Path_length (serviceDir_of out file) "raw.txt") as H.
  pose proof (Join_Path_length (dateDir_of out file) (Get_Slug (BaseName file))) as H'.
  fold (serviceDir_of out file) in H'. cbn [String.length] in H. lia.
Qed.

Lemma rawPath_not_audioPath : rawPath_of out file <> audioPath_of out file.
Proof. intros E. apply Join_Path_inj in E. discriminate. Qed.

Lemma rawPath_not_txt : rawPath_of out file <> baseOut_of out file +:+ ".txt".
Proof.
  unfold rawPath_of, baseOut_of. rewrite !Join_Path_joined, append_assoc.
  intros E. apply append_inj_l in E. discriminate.
Qed.

Lemma rawPath_not_json : rawPath_of out file <> baseOut_of out file +:+ ".json".
Proof.
  unfold rawPath_of, baseOut_of. rewrite !Join_Path_joined, append_assoc.
  intros E. apply append_inj_l in E. discriminate.
Qed.

Lemma mkdir_lookup_ne d path (m : gmap string Node) :
  path <> d -> mkdir d m !! path = m !! path.
Proof.
  intros H. unfold mkdir. destruct (present m d); [reflexivity|].
  apply lookup_insert_ne. congruence.
Qed.

(** The directories, the conversion and the recognition leave the raw
    transcript as it is. *)
Lemma with_directories_raw (m : gmap string Node) :
  with_directories out file m !! rawPath_of out file = m !! rawPath_of out file.
Proof.
  unfold with_directories.
  rewrite mkdir_lookup_ne by apply rawPath_not_serviceDir.
  apply mkdir_lookup_ne, rawPath_not_dateDir.
Qed.

Lemma converted_raw env (m : gmap string Node) :
  converted_fs env (FullName file) (audioPath_of out file) m !! rawPath_of out file
  = m !! rawPath_of out file.
Proof.
  unfold converted_fs. destruct (wav _); [|reflexivity].
  apply lookup_insert_ne. intros E. symmetry in E. revert E.
  apply rawPath_not_audioPath.
Qed.

Lemma recognized_raw env (m : gmap string Node) :
  recognized_fs env (audioPath_of out file) (baseOut_of out file) m
    !! rawPath_of out file
  = m !! rawPath_of out file.
Proof.
  unfold recognized_fs.
  destruct (json _).
  - rewrite lookup_insert_ne
      by (intros E; symmetry in E; revert E; apply rawPath_not_json).
    destruct (txt _); [|reflexivity].
    apply lookup_insert_ne. intros E. symmetry in E. revert E. apply rawPath_not_txt.
  - destruct (txt _); [|reflexivity].
    apply lookup_insert_ne. intros E. symmetry in E. revert E. apply rawPath_not_txt.
Qed.

Lemma present_lookup (m m' : gmap string Node) path :
  m' !! path = m !! path -> present m' path = present m path.
Proof. unfold present. intros ->. reflexivity. Qed.

End Places.

(** ** One turn of the loop *)

Lemma forallb_impl {A} (P Q : A -> bool) (l : list A) :
  (forall x, P x = true -> Q x = true) ->
  forallb P l = true -> forallb Q l = true.
Proof.
  intros H. induction l as [|x l IH]; cbn; [reflexivity|].
  intros [Hx Hl]%andb_prop. rewrite (H _ Hx), (IH Hl). reflexivity.
Qed.

Lemma gate_no_run path ctx m es r :
  gate path ctx m = (es, r) -> forallb (fun e => negb (is_run e)) es = true.
Proof.
  intros G. pose proof (gate_events path ctx m) as H. rewrite G in H.
  revert H. apply forallb_impl. intros e He.
  destruct (gate_event_quiet e He) as [_ ->]. reflexivity.
Qed.

Lemma process_file_follows p env out total file st r st' :
  process_file p env out total file st = (r, st') ->
  file_step p env out total file (fs st) (marker st) (results st)
    (processed st) (log st) r st'.
Proof.
  intros H. destruct st as [f m rs n l].
  pose proof (process_file_step p env out total file f m rs n l) as F.
  rewrite H in F. exact F.
Qed.

(** C1, as amended: a file whose raw transcript is there, with [Force] off,
    never reaches an engine, and the turn records [skipped] for it, or
    [skipped-date] when the cutoff filter, which comes first, excludes it. *)
Theorem existing_transcript_is_skipped p env out total file st r st' :
  Force p = false ->
  present (fs st) (rawPath_of out file) = true ->
  process_file p env out total file st = (r, st') ->
  r <> Held ->
  exists delta,
    log st' = log st ++ delta /\
    forallb (fun e => negb (is_run e)) delta = true /\
    results st' = results st ++
      [result (if cutoff_excludes p file then "skipped-date" else "skipped")
         file (if cutoff_excludes p file then "" else serviceDir_of out file) ""].
Proof.
  intros HF Hraw Hrun Hheld. apply process_file_follows in Hrun.
  assert (Hdone : already_done p out file (fs st) = true).
  { unfold already_done. rewrite HF.
    rewrite (present_lookup (fs st)) by apply with_directories_raw.
    rewrite Hraw. reflexivity. }
  inversion Hrun; subst; try congruence.
  - eexists. split; [reflexivity|]. rewrite H0. split; [|reflexivity].
    rewrite forallb_app, (gate_no_run _ _ _ _ _ H). reflexivity.
  - eexists. split; [reflexivity|]. rewrite H0. split; [|reflexivity].
    rewrite forallb_app, (gate_no_run _ _ _ _ _ H). reflexivity.
Qed.

Lemma gate_not_run path ctx m es r e :
  gate path ctx m = (es, r) -> In e es -> is_run e = false.
Proof.
  intros G Hin. pose proof (gate_no_run _ _ _ _ _ G) as H.
  rewrite forallb_forall in H. apply H in Hin.
  destruct (is_run e); [discriminate | reflexivity].
Qed.

(** C2, as amended: a turn in which an engine exits with a code other than
    zero leaves the raw transcript as it found it; with [Force] off there is
    none afterwards. *)
Theorem failed_engine_keeps_raw p env out total file st r st' delta :
  process_file p env out total file st = (r, st') ->
  log st' = log st ++ delta ->
  engine_failed p env out file delta ->
  fs st' !! rawPath_of out file = fs st !! rawPath_of out file
  /\ (Force p = false ->
      present (fs st') (rawPath_of out file) = false
      /\ forall retry, already_done retry out file (fs st') = false).
Proof.
  intros Hrun Hlog Hfail. apply process_file_follows in Hrun.
  assert (Hretry : forall m : gmap string Node,
            present m (rawPath_of out file) = false ->
            forall retry, already_done retry out file m = false).
  { intros m Hm retry. unfold already_done.
    rewrite (present_lookup m) by apply with_directories_raw.
    rewrite Hm. reflexivity. }
  assert (Hopen : forall e, In e (opening file) -> is_run e = false).
  { intros e [<-|[<-|[]]]; reflexivity. }
  assert (Hlast : forall m,
            already_done p out file (fs st) = false -> Force p = false ->
            m !! rawPath_of out file = fs st !! rawPath_of out file ->
            present m (rawPath_of out file) = false).
  { intros m Hd HF Hm. unfold already_done in Hd. rewrite HF in Hd.
    rewrite (present_lookup (fs st)) in Hd by apply with_directories_raw.
    rewrite (present_lookup (fs st)) by exact Hm.
    destruct (present (fs st) _); [discriminate | reflexivity]. }
  inversion Hrun; subst; cbn [log fs] in *;
    apply app_inv_head in Hlog; subst delta;
    destruct Hfail as [[Hin Hne] | [Hin Hne]]; try congruence;
    repeat (apply in_app_or in Hin as [Hin|Hin]);
    try (match goal with
         | G : gate _ _ _ = (?es, _), Hin : In _ ?es |- _ =>
             apply (gate_not_run _ _ _ _ _ _ G) in Hin; discriminate
         end);
    try (apply Hopen in Hin; discriminate);
    try (cbn in Hin; intuition discriminate).
  - assert (E : converted_fs env (FullName file) (audioPath_of out file)
                  (with_directories out file (fs st)) !! rawPath_of out file
                = fs st !! rawPath_of out file)
      by (rewrite converted_raw; apply with_directories_raw).
    split; [exact E|]. intros HF.
    assert (Hp : present (converted_fs env (FullName file) (audioPath_of out file)
                            (with_directories out file (fs st)))
                   (rawPath_of out file) = false)
      by (apply Hlast; assumption).
    split; [exact Hp | apply Hretry, Hp].
  - assert (E : recognized_fs env (audioPath_of out file) (baseOut_of out file)
                  (converted_fs env (FullName file) (audioPath_of out file)
                     (with_directories out file (fs st))) !! rawPath_of out file
                = fs st !! rawPath_of out file)
      by (rewrite recognized_raw, converted_raw; apply with_directories_raw).
    split; [exact E|]. intros HF.
    assert (Hp : present (recognized_fs env (audioPath_of out file)
                            (baseOut_of out file)
                            (converted_fs env (FullName file) (audioPath_of out file)
                               (with_directories out file (fs st))))
                   (rawPath_of out file) = false)
      by (apply Hlast; assumption).
    split; [exact Hp | apply Hretry, Hp].
Qed.

Example sample_raw_path :
  rawPath_of "C:\out" sample_file = "C:\out\2024-02-01\2024-02-01-service\raw.txt".
Proof. reflexivity. Qed.

Lemma existing_transcript_is_skipped_witness :
  exists delta,
    log (snd (process_file (sample_params false "" "") (sample_env [sample_file] 0)
                "C:\out" 1 sample_file (start sample_fs_done [])))
    = [] ++ delta /\
    forallb (fun e => negb (is_run e)) delta = true /\
    results (snd (process_file (sample_params false "" "") (sample_env [sample_file] 0)
                "C:\out" 1 sample_file (start sample_fs_done [])))
    = [] ++ [result "skipped" sample_file "C:\out\2024-02-01\2024-02-01-service" ""].
Proof.
  refine (existing_transcript_is_skipped
            (sample_params false "" "") (sample_env [sample_file] 0)
            "C:\out" 1 sample_file (start sample_fs_done []) _ _ _ _ _ _).
  - reflexivity.
  - vm_compute. reflexivity.
  - apply surjective_pairing.
  - vm_compute. discriminate.
Defined.

(** C1 as stated fails: with a cutoff of 1 January 2024 the turn of the
    recording of 1 February 2024, whose raw transcript is there, records
    [skipped-date] and not [skipped]; [Force] is off. *)
Lemma transcript_present_yet_skipped_date :
  Force (sample_params false "2024-01-01" "") = false /\
  present sample_fs_done (rawPath_of "C:\out" sample_file) = true /\
  fst (process_file (sample_params false "2024-01-01" "")
         (sample_env sample_files 0) "C:\out" 2 sample_file
         (start sample_fs_done [])) = Continue /\
  results (snd (process_file (sample_params false "2024-01-01" "")
                  (sample_env sample_files 0) "C:\out" 2 sample_file
                  (start sample_fs_done [])))
  = [result "skipped-date" sample_file "" ""].
Proof. vm_compute. repeat split. Qed.

Lemma failed_engine_keeps_raw_witness :
  fs (snd (process_file (sample_params false "" "") (sample_env [sample_file] 1)
             "C:\out" 1 sample_file (start sample_fs [])))
    !! rawPath_of "C:\out" sample_file
  = sample_fs !! rawPath_of "C:\out" sample_file
  /\ (Force (sample_params false "" "") = false ->
      present
        (fs (snd (process_file (sample_params false "" "")
                    (sample_env [sample_file] 1)
                    "C:\out" 1 sample_file (start sample_fs []))))
        (rawPath_of "C:\out" sample_file) = false
      /\ forall retry,
          already_done retry "C:\out" sample_file
            (fs (snd (process_file (sample_params false "" "")
                        (sample_env [sample_file] 1)
                        "C:\out" 1 sample_file (start sample_fs []))))
          = false).
Proof.
  refine (failed_engine_keeps_raw
            (sample_params false "" "") (sample_env [sample_file] 1)
            "C:\out" 1 sample_file (start sample_fs []) _ _
            (log (snd (process_file (sample_params false "" "")
                         (sample_env [sample_file] 1)
                         "C:\out" 1 sample_file (start sample_fs [])))) _ _ _).
  - apply surjective_pairing.
  - reflexivity.
  - left. split; [vm_compute; tauto | vm_compute; discriminate].
Defined.

(** C2 as stated fails: with [Force] on, a turn in which the conversion
    exits with code 1 leaves the raw transcript of an earlier run where it
    is, and the turn of a later run without [Force] skips the file. *)
Lemma failed_forced_turn_keeps_transcript :
  let failed := process_file (sample_params true "" "") (sample_env sample_files 1)
                  "C:\out" 2 sample_file (start sample_fs_done []) in
  let retry := process_file (sample_params false "" "") (sample_env sample_files 0)
                 "C:\out" 2 sample_file (start (fs (snd failed)) []) in
  In (ffmpeg_call (sample_params true "" "") (FullName sample_file)
        (audioPath_of "C:\out" sample_file)) (log (snd failed)) /\
  ffmpeg_exit (ffmpeg (sample_env sample_files 1) (FullName sample_file)) = 1%Z /\
  results (snd failed)
  = [result "error" sample_file (serviceDir_of "C:\out" sample_file) "ffmpeg"] /\
  present (fs (snd failed)) (rawPath_of "C:\out" sample_file) = true /\
  results (snd retry)
  = [result "skipped" sample_file (serviceDir_of "C:\out" sample_file) ""].
Proof. vm_compute. repeat split. tauto. Qed.

(** ** The progress lines *)

Lemma digits_of_uint d :
  forallb Char.is_digit (of_string (NilEmpty.string_of_uint d)) = true.
Proof. induction d; cbn; try reflexivity; exact IHd. Qed.

Lemma digits_of_uint_zero d :
  exists c ds,
    of_string (NilZero.string_of_uint d) = c :: ds
    /\ forallb Char.is_digit (c :: ds) = true.
Proof.
  pose proof (digits_of_uint d) as H. unfold NilZero.string_of_uint.
  destruct d; eexists _, _; (split; [reflexivity | exact H]).
Qed.

Lemma Z_to_string_int z : is_int (Z_to_string z) = true.
Proof.
  unfold Z_to_string, is_int, NilZero.string_of_int.
  destruct (Z.to_int z) as [d|d];
    destruct (digits_of_uint_zero d) as (c & ds & E & H).
  - rewrite E. cbn [forallb] in H. apply andb_prop in H as [Hc H].
    replace (is_char "-" c) with false.
    + cbn [forallb]. rewrite Hc, H. reflexivity.
    + clear -Hc. destruct c as [[] [] [] [] [] [] [] []]; vm_compute in Hc |- *;
        congruence.
  - change (of_string (String "-" (NilZero.string_of_uint d)))
      with ("-"%char :: of_string (NilZero.string_of_uint d)).
    rewrite E. change (is_char "-" "-") with true. cbn iota.
    rewrite H. reflexivity.
Qed.

Lemma file_token_is_token t : In t file_tokens -> is_token t = true.
Proof.
  intros H. repeat (destruct H as [<-|H]; [reflexivity|]). destruct H.
Qed.

(** The progress line of a file has the format of the channel. *)
Lemma progress_line_format n total token source :
  In token file_tokens ->
  IsNullOrWhiteSpace source = false ->
  progress_format (progress_line n total token source)
    (Z_to_string n) (Z_to_string total) (Some token) (Some source).
Proof.
  intros Ht Hs. unfold progress_format.
  pose proof (file_token_is_token _ Ht) as Htok.
  repeat split; try apply Z_to_string_int.
  - unfold progress_line. rewrite Hs. cbn [negb].
    replace (IsNullOrWhiteSpace token) with false; [reflexivity|].
    repeat (destruct Ht as [<-|Ht]; [reflexivity|]). destruct Ht.
  - intros t [= <-]. exact Htok.
  - intros s [= <-] ->. discriminate Hs.
Qed.

Lemma progress_lines_app es es' :
  progress_lines (es ++ es') = progress_lines es ++ progress_lines es'.
Proof. apply List.filter_app. Qed.

Lemma gate_progress_lines path ctx m es r :
  gate path ctx m = (es, r) -> progress_lines es = [].
Proof.
  intros G. pose proof (gate_events path ctx m) as H. rewrite G in H. clear G.
  induction es as [|e es IH]; [reflexivity|].
  cbn [forallb] in H. apply andb_prop in H as [He H].
  unfold progress_lines. cbn [List.filter].
  destruct (gate_event_quiet e He) as [-> _]. apply IH, H.
Qed.

Lemma opening_progress_lines file : progress_lines (opening file) = [].
Proof. reflexivity. Qed.

Section Turn.

Context (p : Params) (env : Env) (out : string) (total : Z).

(** A turn that is not held prints one progress line, that of its file, and
    counts the file. *)
Lemma file_step_line file f m rs n l r st' :
  file_step p env out total file f m rs n l r st' ->
  r <> Held ->
  exists delta token,
    log st' = l ++ delta /\ In token file_tokens /\
    progress_lines delta = [Host (progress_line (n + 1) total token (FullName file))]
    /\ processed st' = (n + 1)%Z
    /\ exists res, results st' = rs ++ [res] /\ Source res = FullName file.
Proof.
  intros Hstep Hheld. unfold file_tokens.
  inversion Hstep; subst; try congruence; cbn [log processed results];
    eexists; eexists; (split; [reflexivity|]);
    rewrite ?progress_lines_app, ?opening_progress_lines;
    repeat match goal with
           | G : gate _ _ _ = (?es, _) |- _ =>
               rewrite (gate_progress_lines _ _ _ _ _ G); clear G
           end;
    cbn [app].
  - split; [right; right; left; reflexivity|].
    split; [reflexivity|]. split; [reflexivity|]. eexists; split; reflexivity.
  - split; [right; left; reflexivity|].
    split; [reflexivity|]. split; [reflexivity|]. eexists; split; reflexivity.
  - split; [right; right; right; left; reflexivity|].
    split; [reflexivity|]. split; [reflexivity|]. eexists; split; reflexivity.
  - split; [right; right; right; right; left; reflexivity|].
    split; [reflexivity|]. split; [reflexivity|]. eexists; split; reflexivity.
  - split; [left; reflexivity|].
    split; [reflexivity|]. split; [reflexivity|]. eexists; split; reflexivity.
Qed.

(** The loop that ends prints the progress lines of its files, one for each
    and in their order, and records one result for each. *)
Lemma foreach_lines files :
  forall st st',
    foreach files (process_file p env out total) st = (Ret tt, st') ->
    exists delta tokens,
      log st' = log st ++ delta /\
      length tokens = length files /\
      Forall (fun t => In t file_tokens) tokens /\
      progress_lines delta = file_lines (processed st) total files tokens /\
      processed st' = (processed st + Z.of_nat (length files))%Z /\
      exists rs, results st' = results st ++ rs
                 /\ map Source rs = map FullName files.
Proof.
  induction files as [|file files IH]; intros st st' Hrun.
  - injection Hrun as <-. exists [], []. rewrite app_nil_r.
    repeat split; try constructor. { cbn. lia. }
    exists []. rewrite app_nil_r. split; reflexivity.
  - cbn [foreach] in Hrun.
    destruct (process_file p env out total file st) as [r st1] eqn:E.
    apply process_file_follows in E.
    assert (Hnext : r <> Held /\ foreach files (process_file p env out total) st1
                                 = (Ret tt, st')).
    { destruct r; try discriminate Hrun; split; congruence. }
    destruct Hnext as [Hheld Hrest].
    destruct (file_step_line _ _ _ _ _ _ _ _ E Hheld)
      as (d1 & token & Hl1 & Htok & Hp1 & Hn1 & res & Hr1 & Hs1).
    destruct (IH _ _ Hrest)
      as (d2 & tokens & Hl2 & Hlen & Htoks & Hp2 & Hn2 & rs & Hr2 & Hs2).
    exists (d1 ++ d2), (token :: tokens).
    split; [rewrite Hl2, Hl1, app_assoc; reflexivity|].
    split; [cbn; congruence|].
    split; [constructor; assumption|].
    split; [rewrite progress_lines_app, Hp1, Hp2, Hn1; reflexivity|].
    split; [rewrite Hn2, Hn1; cbn [length]; lia|].
    exists (res :: rs). split.
    + rewrite Hr2, Hr1, <- app_assoc. reflexivity.
    + cbn [map]. rewrite Hs1, Hs2. reflexivity.
Qed.

End Turn.

(** ** The whole script *)

Section Whole.

Context (p : Params) (env : Env).

Lemma prepare_pause_flag_exact f m rs n l :
  exists d,
    prepare_pause_flag p
      {| fs := f; marker := m; results := rs; processed := n; log := l |}
    = (Ret tt, {| fs := prepared p f; marker := m; results := rs;
                  processed := n; log := l ++ d |})
    /\ forallb is_host d = true
    /\ progress_lines d = [].
Proof.
  unfold prepared, prepare_pause_flag, when, start.
  destruct (IsNullOrWhiteSpace (PauseFlagFile p)); cbn [negb].
  - exists []. rewrite app_nil_r. repeat split.
  - unfold bind.
    destruct (IsNullOrWhiteSpace (Split_Path_Parent (PauseFlagFile p))); cbn [negb].
    + eexists [_]. repeat split.
    + rewrite !ensure_directory_run. eexists [_]. repeat split.
Qed.

Lemma announce_run total f m rs n l :
  exists d,
    announce p total
      {| fs := f; marker := m; results := rs; processed := n; log := l |}
    = (Ret tt, {| fs := f; marker := m; results := rs; processed := n;
                  log := l ++ d |})
    /\ forallb is_host d = true
    /\ progress_lines d = [Host (progress_line 0 total "start" "")].
Proof.
  unfold announce, when, bind, Emit_Progress, Write_Host, emit, ret.
  cbn [fs marker results processed log].
  destruct (IsNullOrWhiteSpace (BeforeDate p)), (Threads p >? 0)%Z, (FastScan p);
    cbn [negb fs marker results processed log]; rewrite <- ?app_assoc;
    eexists; repeat split.
Qed.

(** [.Count] is there for two objects or more, and for these only. *)
Lemma Count_many {A} (l : list A) st :
  2 <= length l -> Count l st = (Ret (Z.of_nat (length l)), st).
Proof. destruct l as [|a [|b l]]; cbn [length]; try lia. reflexivity. Qed.

Lemma Count_few {A} (l : list A) st :
  length l < 2 -> Count l st = (Throw Count_message, st).
Proof. destruct l as [|a [|b l]]; cbn [length]; try lia; reflexivity. Qed.

(** What follows the loop: the index is written, and then the script ends
    with the error of [.Count], unless each of the three statuses has two
    results or more; it then prints its last lines and exits with code 1. *)
Lemma conclude_exact out total f m rs n l :
  conclude env out total
    {| fs := f; marker := m; results := rs; processed := n; log := l |}
  = if counted rs
    then (Exit 1, {| fs := indexed env out rs f; marker := m; results := rs;
                     processed := n; log := l ++ closing out total n rs |})
    else (Throw Count_message,
          {| fs := indexed env out rs f; marker := m; results := rs;
             processed := n; log := l |}).
Proof.
  unfold conclude. unfold bind at 1. unfold Get_results at 1.
  cbn [fs marker results processed log].
  unfold bind at 1. unfold Set_Content at 1. unfold set_fs.
  cbn [fs marker results processed log]. fold (indexed env out rs f).
  unfold counted, Count_Status, tally.
  destruct (Nat.leb_spec 2 (length (filter (fun r => Status r = "ok") rs)))
    as [Hok|Hok]; cbn [andb];
    [|unfold bind at 1; rewrite Count_few by exact Hok; reflexivity].
  unfold bind at 1. rewrite Count_many by exact Hok.
  destruct (Nat.leb_spec 2 (length (filter (fun r => Status r = "error") rs)))
    as [Herr|Herr]; cbn [andb];
    [|unfold bind at 1; rewrite Count_few by exact Herr; reflexivity].
  unfold bind at 1. rewrite Count_many by exact Herr.
  destruct (Nat.leb_spec 2 (length (filter (fun r => Status r = "skipped") rs)))
    as [Hsk|Hsk]; cbn [andb];
    [|unfold bind at 1; rewrite Count_few by exact Hsk; reflexivity].
  unfold bind at 1. rewrite Count_many by exact Hsk.
  unfold bind, Get_processed, Emit_Progress, Write_Host, emit, exit.
  cbn [fs marker results processed log].
  replace (Z.of_nat (length (filter (fun r => Status r = "error") rs)) >? 0)%Z
    with true by (symmetry; apply Z.gtb_lt; lia).
  unfold closing, tally. rewrite <- !app_assoc. reflexivity.
Qed.

Lemma file_step_outcome out total file f m rs n l r st' :
  file_step p env out total file f m rs n l r st' ->
  r = Held \/ r = Continue \/ r = Ret tt.
Proof. intros H. inversion H; subst; auto. Qed.

(** The loop ends or is held; it neither exits nor throws. *)
Lemma foreach_outcome out total files :
  forall st r st',
    foreach files (process_file p env out total) st = (r, st') ->
    r = Ret tt \/ r = Held.
Proof.
  induction files as [|file files IH]; intros st r st' Hrun.
  - injection Hrun as <- <-. left. reflexivity.
  - cbn [foreach] in Hrun.
    destruct (process_file p env out total file st) as [r1 st1] eqn:E.
    apply process_file_follows, file_step_outcome in E.
    destruct E as [-> | [-> | ->]].
    + injection Hrun as <- <-. right. reflexivity.
    + eapply IH, Hrun.
    + eapply IH, Hrun.
Qed.

Lemma file_step_log out total file f m rs n l r st' :
  file_step p env out total file f m rs n l r st' ->
  exists d, log st' = l ++ d.
Proof. intros H. inversion H; subst; cbn [log]; eexists; reflexivity. Qed.

Lemma foreach_log out total files :
  forall st r st',
    foreach files (process_file p env out total) st = (r, st') ->
    exists d, log st' = log st ++ d.
Proof.
  induction files as [|file files IH]; intros st r st' Hrun.
  - injection Hrun as <- <-. exists []. rewrite app_nil_r. reflexivity.
  - cbn [foreach] in Hrun.
    destruct (process_file p env out total file st) as [r1 st1] eqn:E.
    apply process_file_follows in E.
    destruct (file_step_log _ _ _ _ _ _ _ _ _ _ E) as [d1 Hd1].
    destruct (file_step_outcome _ _ _ _ _ _ _ _ _ _ E) as [-> | [-> | ->]].
    + injection Hrun as <- <-. exists d1. exact Hd1.
    + destruct (IH _ _ _ Hrun) as [d2 Hd2]. exists (d1 ++ d2).
      rewrite Hd2, Hd1, app_assoc. reflexivity.
    + destruct (IH _ _ _ Hrun) as [d2 Hd2]. exists (d1 ++ d2).
      rewrite Hd2, Hd1, app_assoc. reflexivity.
Qed.

(** The script after its checks.  It names the pause flag and scans the
    input folder.  With no media file it exits with code 0 at once; with one
    media file the test of line 235 ends it with the error of [.Count]; with
    two or more the loop runs, and the run is held where the loop is held, or
    it goes on to the conclusion. *)
Lemma batch_cases inR outR f m l r st' :
  batch p env inR outR
    {| fs := f; marker := m; results := []; processed := 0; log := l |}
  = (r, st') ->
  let files := candidates p env (Get_ChildItem env inR (negb (NoRecursive p))) in
  let total := Z.of_nat (length files) in
  exists d0,
    forallb is_host d0 = true /\ progress_lines d0 = [] /\
    ((files = [] /\ r = Exit 0
      /\ st' = {| fs := prepared p f; marker := m; results := []; processed := 0;
                  log := l ++ d0 ++ scanning p inR
                         ++ [ Host "No media files found.";
                              Host (progress_line 0 0 "empty" "") ] |})
     \/ (length files = 1 /\ r = Throw Count_message
         /\ st' = {| fs := prepared p f; marker := m; results := [];
                     processed := 0; log := l ++ d0 ++ scanning p inR |})
     \/ (2 <= length files
         /\ exists d1 r2 st2,
              forallb is_host d1 = true
              /\ progress_lines d1 = [Host (progress_line 0 total "start" "")]
              /\ foreach files (process_file p env outR total)
                   {| fs := prepared p f; marker := m; results := [];
                      processed := 0; log := l ++ d0 ++ scanning p inR ++ d1 |}
                 = (r2, st2)
              /\ ((r2 = Held /\ r = Held /\ st' = st2)
                  \/ (r2 = Ret tt /\ conclude env outR total st2 = (r, st'))))).
Proof.
  cbv zeta.
  set (files := candidates p env (Get_ChildItem env inR (negb (NoRecursive p)))).
  unfold batch. unfold bind at 1.
  destruct (prepare_pause_flag_exact f m [] 0%Z l) as (d0 & -> & H0 & P0).
  step_host. unfold bind at 1. unfold List_Files at 1. unfold emit at 1.
  cbn [fs marker results processed log]. fold files.
  intros Hrun. exists d0. split; [exact H0|]. split; [exact P0|].
  unfold scanning. rewrite <- !app_assoc in Hrun. cbn [app] in Hrun.
  destruct files as [|a [|b rest]] eqn:Ef.
  - left. cbn [is_null] in Hrun.
    unfold bind, ret, Emit_Progress, Write_Host, emit, exit in Hrun.
    cbn [fs marker results processed log] in Hrun.
    injection Hrun as <- <-. rewrite <- !app_assoc. repeat split.
  - right. left. cbn [is_null Count] in Hrun.
    unfold bind, throw in Hrun. injection Hrun as <- <-. repeat split.
  - right. right. split; [cbn [length]; lia|].
    cbn [is_null] in Hrun. unfold bind at 1 in Hrun. unfold bind at 1 in Hrun.
    rewrite Count_many in Hrun by (cbn [length]; lia).
    unfold ret at 1 in Hrun.
    replace (Z.of_nat (length (a :: b :: rest)) =? 0)%Z with false in Hrun
      by (symmetry; apply Z.eqb_neq; cbn [length]; lia).
    unfold bind at 1 in Hrun. rewrite Count_many in Hrun by (cbn [length]; lia).
    unfold bind at 1 in Hrun. unfold Set_processed at 1 in Hrun.
    cbn [fs marker results processed log] in Hrun.
    unfold bind at 1 in Hrun.
    match type of Hrun with
    | context [announce p ?t ?st] =>
        destruct (announce_run t (fs st) (marker st) (results st)
                    (processed st) (log st)) as (d1 & E1 & H1 & P1)
    end.
    cbn [fs marker results processed log] in E1. rewrite E1 in Hrun.
    unfold bind at 1 in Hrun. unfold New_results at 1 in Hrun.
    cbn [fs marker results processed log] in Hrun.
    unfold bind at 1 in Hrun. rewrite <- !app_assoc in Hrun. cbn [app] in Hrun.
    match type of Hrun with
    | context [foreach ?fl ?body ?st] =>
        destruct (foreach fl body st) as [r2 st2] eqn:F
    end.
    exists d1, r2, st2. split; [exact H1|]. split; [exact P1|].
    split; [exact F|].
    destruct (foreach_outcome _ _ _ _ _ _ F) as [-> | ->].
    + right. split; [reflexivity | exact Hrun].
    + left. injection Hrun as <- <-. repeat split.
Qed.

End Whole.

Section Validation.

Context (p : Params) (env : Env).

(** The script up to the check of the cutoff date. *)
Lemma script_checked f m rs n l :
  dependencies_present p env f = true ->
  script p env {| fs := f; marker := m; results := rs; processed := n; log := l |}
  = if BeforeDate_accepted (BeforeDate p)
    then batch p env (resolved_input p env) (resolved_output p env)
           {| fs := mkdir (OutputFolder p) f; marker := m; results := rs;
              processed := n; log := l |}
    else (Throw BeforeDate_message,
          {| fs := mkdir (OutputFolder p) f; marker := m; results := rs;
             processed := n; log := l |}).
Proof.
  unfold dependencies_present. intros H.
  apply andb_prop in H as [H Hmodel]. apply andb_prop in H as [H Hw].
  apply andb_prop in H as [Hin Hf].
  unfold script. unfold bind at 1. unfold Test_Path at 1.
  cbn [fs marker results processed log]. rewrite Hin. cbn [negb].
  unfold bind at 1. rewrite ensure_directory_run. rewrite Hf, Hw. cbn [negb].
  unfold bind at 1. unfold Test_Path at 1.
  cbn [fs marker results processed log]. rewrite Hmodel. cbn [negb].
  unfold BeforeDate_accepted, IsNullOrWhiteSpace.
  destruct (Text.IsNullOrWhiteSpace (of_string (BeforeDate p)));
    [reflexivity|].
  destruct (IsMatch_cutoff (of_string (BeforeDate p))); reflexivity.
Qed.

(** The script from its first statement: it throws at one of its checks, at
    the first of them before the output folder is made and at the others
    after that, or it goes on to the batch. *)
Lemma script_cases f polls r st' :
  script p env (start f polls) = (r, st') ->
  (r = Throw ("Input folder not found: " +:+ InputFolder p)
   /\ st' = start f polls)
  \/ (exists msg, r = Throw msg /\ In msg (later_messages p)
                  /\ st' = start (mkdir (OutputFolder p) f) polls)
  \/ (dependencies_present p env f = true
      /\ BeforeDate_accepted (BeforeDate p) = true
      /\ batch p env (resolved_input p env) (resolved_output p env)
           {| fs := mkdir (OutputFolder p) f; marker := polls; results := [];
              processed := 0; log := [] |}
         = (r, st')).
Proof.
  unfold start, later_messages, dependencies_present.
  unfold script. unfold bind at 1. unfold Test_Path at 1.
  cbn [fs marker results processed log].
  destruct (present f (InputFolder p)); cbn [negb andb];
    [|intros [= <- <-]; left; split; reflexivity].
  unfold bind at 1. rewrite ensure_directory_run.
  destruct (Get_Command env (FfmpegExe p)); cbn [negb andb];
    [|intros [= <- <-]; right; left; eexists; split; [reflexivity|];
      split; [left; reflexivity | reflexivity]].
  destruct (Get_Command env (WhisperExe p)); cbn [negb andb];
    [|intros [= <- <-]; right; left; eexists; split; [reflexivity|];
      split; [right; left; reflexivity | reflexivity]].
  unfold bind at 1. unfold Test_Path at 1.
  cbn [fs marker results processed log].
  destruct (present (mkdir (OutputFolder p) f) (ModelFile p)); cbn [negb];
    [|intros [= <- <-]; right; left; eexists; split; [reflexivity|];
      split; [right; right; left; reflexivity | reflexivity]].
  unfold BeforeDate_accepted, IsNullOrWhiteSpace.
  destruct (Text.IsNullOrWhiteSpace (of_string (BeforeDate p))); cbn [negb andb orb];
    [intros H; right; right; repeat split; exact H|].
  destruct (IsMatch_cutoff (of_string (BeforeDate p))); cbn [negb];
    [intros H; right; right; repeat split; exact H|].
  intros [= <- <-]. right. left. eexists. split; [reflexivity|].
  split; [right; right; right; left; reflexivity | reflexivity].
Qed.

End Validation.

(** ** The exit code *)

(** C3 fails on the code.  Two recordings are transcribed without an error:
    both results are [ok], none is [error], and the script does not reach
    its [exit 0]: the count of the results of status [error], of which there
    are none, is a reference to [.Count] on [$null], an error under
    [Set-StrictMode -Version Latest], and the process ends with code 1.  The
    same happens when both recordings are skipped by the cutoff date: the
    count that fails is then that of the results of status [ok]. *)
Lemma run_without_error_ends_with_code_1 :
  let run := script (sample_params false "" "") (sample_env sample_files 0)
               (start sample_fs []) in
  let skipped := script (sample_params false "2024-01-01" "")
                   (sample_env sample_files 0) (start sample_fs []) in
  map Status (results (snd run)) = ["ok"; "ok"]
  /\ fst run = Throw Count_message
  /\ process_code (fst run) = Some 1%Z
  /\ map Status (results (snd skipped)) = ["skipped-date"; "skipped-date"]
  /\ fst skipped = Throw Count_message
  /\ process_code (fst skipped) = Some 1%Z.
Proof. vm_compute. repeat split. Qed.

(** ** One progress line for each file *)

Lemma file_lines_format total files :
  Forall (fun f => IsNullOrWhiteSpace (FullName f) = false) files ->
  forall n tokens,
    length tokens = length files ->
    Forall (fun t => In t file_tokens) tokens ->
    Forall2 (line_of_file total) files (file_lines n total files tokens).
Proof.
  induction 1 as [|file files Hf _ IH]; intros n tokens Hlen Htok.
  - constructor.
  - destruct tokens as [|token tokens]; [discriminate|].
    inversion Htok; subst. cbn [file_lines]. constructor.
    + exists (n + 1)%Z, token.
      split; [reflexivity|]. split; [assumption|].
      apply progress_line_format; assumption.
    + apply IH; [cbn in Hlen; congruence | assumption].
Qed.

(** C4 fails on the code.  When the input folder holds one media file, the
    candidate list is that file, and the script prints no progress line for
    it, nor any other: [$mediaFiles] is then a single [FileInfo], the test of
    line 235 refers to its [.Count], and the script ends there with an
    error, before the loop. *)
Lemma single_file_gets_no_progress_line :
  let run := script (sample_params false "" "") (sample_env [sample_file] 0)
               (start sample_fs []) in
  mediaFiles (sample_params false "" "") (sample_env [sample_file] 0)
  = [sample_file]
  /\ fst run = Throw Count_message
  /\ progress_lines (log (snd run)) = []
  /\ results (snd run) = [].
Proof. vm_compute. repeat split. Qed.

(** ** The cutoff date *)

Section Cutoff.

Context (p : Params) (env : Env).

(** Once the parameters are validated the script scans the input folder;
    whatever comes then, it is not the error of the cutoff date. *)
Lemma batch_scans inR outR f m l r st' :
  batch p env inR outR
    {| fs := f; marker := m; results := []; processed := 0; log := l |}
  = (r, st') ->
  r <> Throw BeforeDate_message
  /\ exists d, log st' = l ++ d /\ In (Scan inR (negb (NoRecursive p))) d.
Proof.
  intros H. apply batch_cases in H. cbv zeta in H.
  destruct H as (d0 & _ & _ & H).
  assert (Hscan : forall d, In (Scan inR (negb (NoRecursive p)))
                              (d0 ++ scanning p inR ++ d)).
  { intros d. apply in_or_app. right. apply in_or_app. left. cbn. tauto. }
  destruct H as [(_ & -> & ->) | [(_ & -> & ->) | (_ & d1 & r2 & st2 & _ & _ & F & H)]].
  - split; [discriminate|]. eexists. split; [reflexivity | apply Hscan].
  - split; [discriminate|]. exists (d0 ++ scanning p inR ++ []).
    split; [rewrite app_nil_r; reflexivity | apply Hscan].
  - destruct (foreach_log _ _ _ _ _ _ _ _ F) as [d2 Hd2]. cbn [log] in Hd2.
    destruct H as [(_ & -> & ->) | (_ & H)].
    + split; [discriminate|]. exists (d0 ++ scanning p inR ++ d1 ++ d2).
      split; [rewrite Hd2, <- !app_assoc; reflexivity | apply Hscan].
    + destruct st2 as [f2 m2 rs2 n2 l2]. cbn [log] in Hd2.
      rewrite conclude_exact in H. destruct (counted rs2).
      * injection H as <- <-. split; [discriminate|]. cbn [log].
        exists (d0 ++ scanning p inR
                ++ d1 ++ d2 ++ closing outR (Z.of_nat
                      (length (candidates p env
                                 (Get_ChildItem env inR (negb (NoRecursive p))))))
                                 n2 rs2).
        split; [rewrite Hd2, <- !app_assoc; reflexivity | apply Hscan].
      * injection H as <- <-. split; [discriminate|]. cbn [log].
        exists (d0 ++ scanning p inR ++ d1 ++ d2).
        split; [rewrite Hd2, <- !app_assoc; reflexivity | apply Hscan].
Qed.

End Cutoff.

Lemma IsMatch_cutoff_form s :
  spec_YYYY_MM_DD s = true ->
  starts_with (is_char "2") s = true ->
  starts_with (is_char "0") (drop 1 s) = true ->
  IsMatch_cutoff s = true.
Proof.
  destruct s as [|y1 [|y2 [|y3 [|y4 [|a [|m1 [|m2 [|b [|d1 [|d2 [|x s]]]]]]]]]]];
    try discriminate.
  cbn [spec_YYYY_MM_DD starts_with drop IsMatch_cutoff at_end].
  intros H -> ->. cbn [andb].
  repeat (apply andb_prop in H as [H ?]).
  unfold Char.is_hyphen. unfold is_char in *.
  change (Char.code "-") with 45 in *.
  repeat match goal with
         | E : _ = true |- _ => rewrite E; clear E
         end.
  reflexivity.
Qed.

(** C7, as amended: when the folders, the engines and the model are there,
    the script throws the cutoff message, with nothing scanned and no engine
    run, exactly when the cutoff is not blank and does not match
    [^20\d{2}-\d{2}-\d{2}$]; otherwise it goes on to scan the input folder,
    and whatever ends it then is not the cutoff message.  Every cutoff of the
    form [YYYY-MM-DD] whose year starts with 20 is accepted. *)
Theorem cutoff_validation p env files polls :
  dependencies_present p env files = true ->
  (BeforeDate_accepted (BeforeDate p) = false ->
   exists st',
     script p env (start files polls) = (Throw BeforeDate_message, st')
     /\ log st' = [])
  /\ (BeforeDate_accepted (BeforeDate p) = true ->
      exists r st',
        script p env (start files polls) = (r, st')
        /\ r <> Throw BeforeDate_message
        /\ In (Scan (resolved_input p env) (negb (NoRecursive p))) (log st'))
  /\ (spec_YYYY_MM_DD (of_string (BeforeDate p)) = true ->
      has_prefix "20" (BeforeDate p) = true ->
      BeforeDate_accepted (BeforeDate p) = true).
Proof.
  intros Hd. unfold start. rewrite script_checked by exact Hd.
  split; [|split].
  - intros ->. eexists. split; reflexivity.
  - intros ->.
    destruct (batch p env (resolved_input p env) (resolved_output p env)
                {| fs := mkdir (OutputFolder p) files; marker := polls;
                   results := []; processed := 0; log := [] |})
      as [r st'] eqn:E.
    exists r, st'. split; [reflexivity|].
    apply batch_scans in E. destruct E as (Hr & d & Hl & Hin).
    split; [exact Hr|]. rewrite Hl. exact Hin.
  - intros Hform H20. unfold BeforeDate_accepted.
    destruct (BeforeDate p) as [|a [|b s]]; cbn [has_prefix] in H20;
      rewrite ?andb_false_r in H20; try discriminate H20.
    apply andb_prop in H20 as [Ha H20]. apply andb_prop in H20 as [Hb _].
    apply Ascii.eqb_eq in Ha as <-. apply Ascii.eqb_eq in Hb as <-.
    rewrite IsMatch_cutoff_form;
      [apply orb_true_r | exact Hform | reflexivity | reflexivity].
Qed.

Lemma cutoff_validation_witness :
  exists st',
    script (sample_params false "31/12/2024" "") (sample_env sample_files 0)
      (start sample_fs [])
    = (Throw BeforeDate_message, st')
    /\ log st' = [].
Proof.
  destruct (cutoff_validation (sample_params false "31/12/2024" "")
              (sample_env sample_files 0) sample_fs [])
    as (H & _ & _); [vm_compute; reflexivity|].
  apply H. vm_compute. reflexivity.
Defined.

(** C7 as stated fails both ways: the cutoff [1999-12-31] has the form
    [YYYY-MM-DD] and the script throws on it, and a cutoff of three spaces is
    not empty, has not the form, and the script goes on to the scan with
    it. *)
Lemma cutoff_of_1999_is_rejected :
  spec_YYYY_MM_DD (of_string "1999-12-31") = true /\
  fst (script (sample_params false "1999-12-31" "") (sample_env sample_files 0)
         (start sample_fs [])) = Throw BeforeDate_message /\
  of_string "   " <> [] /\
  spec_YYYY_MM_DD (of_string "   ") = false /\
  fst (script (sample_params false "   " "") (sample_env sample_files 0)
         (start sample_fs [])) <> Throw BeforeDate_message /\
  In (Scan "C:\in" true)
    (log (snd (script (sample_params false "   " "") (sample_env sample_files 0)
                 (start sample_fs [])))).
Proof. vm_compute. repeat split; try discriminate. tauto. Qed.

(** ** The pause gate *)

Section GateContract.

Context (p : Params) (env : Env) (out : string) (total : Z) (file : FileInfo).

Lemma turn_polls_at_safe_points f m rs n l r st' :
  file_step p env out total file f m rs n l r st' ->
  exists delta, log st' = l ++ delta /\ polls_at_safe_points p out file m delta.
Proof.
  intros H. unfold polls_at_safe_points. cbv zeta.
  inversion H; subst; cbn [log]; eexists; (split; [reflexivity|]);
    repeat match goal with
           | G : gate _ "before next file" _ = _ |- _ => rewrite G; clear G
           end;
    try reflexivity.
  - eexists. split; [|left; reflexivity]. reflexivity.
  - eexists. split; [|left; reflexivity]. reflexivity.
  - exists (opening file). split; [reflexivity|]. right.
    rewrite H3. reflexivity.
  - exists (opening file). split; [reflexivity|]. right.
    rewrite H3. left. eexists. split; [|reflexivity]. reflexivity.
  - exists (opening file). split; [reflexivity|]. right.
    rewrite H3. right. rewrite H5. reflexivity.
  - exists (opening file). split; [reflexivity|]. right.
    rewrite H3. right. rewrite H5. eexists. split; [|reflexivity]. reflexivity.
  - exists (opening file). split; [reflexivity|]. right.
    rewrite H3. right. rewrite H5. eexists. split; [|reflexivity]. reflexivity.
Qed.

(** While the polls see the marker, the turn waits at its first gate: it is
    held there, and it starts no engine. *)
Lemma turn_waits f m rs n l r st' :
  IsNullOrWhiteSpace (PauseFlagFile p) = false ->
  forallb (fun seen => seen) m = true ->
  file_step p env out total file f m rs n l r st' ->
  r = Held
  /\ log st' = l ++ held_trace (PauseFlagFile p) "before next file" (length m).
Proof.
  intros Hflag Hm Hstep.
  assert (E : m = replicate (length m) true).
  { clear -Hm. induction m as [|[] m IH]; cbn in *;
      [reflexivity | f_equal; exact (IH Hm) | discriminate Hm]. }
  pose proof (gate_holds (PauseFlagFile p) "before next file" (length m) Hflag)
    as G.
  rewrite <- E in G.
  inversion Hstep; subst; try congruence.
  cbn [log]. split; [reflexivity|]. congruence.
Qed.

End GateContract.

Section GateNotices.

Context (path ctx : string).

Lemma waiting_hosts k :
  List.filter is_host (concat (replicate k [Poll true; Sleep 2])) = [].
Proof. induction k as [|k IH]; [reflexivity | exact IH]. Qed.

Lemma waiting_sleeps k :
  List.filter is_sleep (concat (replicate k [Poll true; Sleep 2]))
  = replicate k (Sleep 2).
Proof.
  induction k as [|k IH]; [reflexivity|].
  cbn [replicate concat app List.filter is_sleep]. rewrite IH. reflexivity.
Qed.

Lemma waiting_polls k :
  List.filter is_poll (concat (replicate k [Poll true; Sleep 2]))
  = replicate k (Poll true).
Proof.
  induction k as [|k IH]; [reflexivity|].
  cbn [replicate concat app List.filter is_poll]. rewrite IH. reflexivity.
Qed.

(** The notices of a gate do not depend on the number of polls. *)
Lemma gate_trace_hosts k :
  List.filter is_host (gate_trace path ctx k)
  = if (k =? 0)%nat then [] else pause_notice path ctx ++ resume_notice.
Proof.
  destruct k as [|k]; [reflexivity|].
  cbn [gate_trace Nat.eqb List.filter is_host].
  rewrite List.filter_app. cbn [pause_notice List.filter is_host app].
  rewrite List.filter_app, waiting_hosts. reflexivity.
Qed.

(** A gate sleeps two seconds after each poll that sees the marker. *)
Lemma gate_trace_sleeps k :
  List.filter is_sleep (gate_trace path ctx k) = replicate k (Sleep 2).
Proof.
  destruct k as [|k]; [reflexivity|].
  cbn [gate_trace List.filter is_sleep].
  rewrite List.filter_app. cbn [pause_notice List.filter is_sleep app].
  rewrite List.filter_app, waiting_sleeps. cbn [List.filter is_sleep app].
  rewrite app_nil_r. reflexivity.
Qed.

(** A gate polls until it sees the marker gone, and no more. *)
Lemma gate_trace_polls k :
  List.filter is_poll (gate_trace path ctx k) = replicate k (Poll true) ++ [Poll false].
Proof.
  destruct k as [|k]; [reflexivity|].
  cbn [gate_trace List.filter is_poll].
  rewrite List.filter_app. cbn [pause_notice List.filter is_poll app].
  rewrite List.filter_app, waiting_polls. reflexivity.
Qed.

(** A gate that does not return has printed the notice of the pause and
    nothing else, and has slept after each of its polls. *)
Lemma held_trace_events_exact k :
  List.filter is_host (held_trace path ctx k)
  = (if (k =? 0)%nat then [] else pause_notice path ctx)
  /\ List.filter is_poll (held_trace path ctx k) = replicate k (Poll true)
  /\ List.filter is_sleep (held_trace path ctx k) = replicate k (Sleep 2).
Proof.
  destruct k as [|k]; [repeat split|].
  cbn [held_trace Nat.eqb List.filter is_host is_poll is_sleep pause_notice app].
  rewrite waiting_hosts, waiting_polls, waiting_sleeps. repeat split.
Qed.

End GateNotices.

(** C9: with a pause flag, [Wait-IfPaused] called when the coming polls see
    the marker [k] times and then see it gone returns after these polls and
    not before, and called when the polls only see the marker it does not
    return.  It sleeps two seconds after each poll that sees the marker; it
    prints the notice of the pause once, at the first such poll, and the
    notice of the resumption once, whatever the number of polls.  In a turn
    of the loop the marker is polled by the three gates only, before the
    file, before the conversion and before the recognition; an engine is
    started only right after its gate has returned, and nothing follows a
    gate that does not return.  A turn whose polls only see the marker is
    held at its first gate and starts no engine. *)
Theorem pause_gate_contract p env out total file st r st' :
  IsNullOrWhiteSpace (PauseFlagFile p) = false ->
  process_file p env out total file st = (r, st') ->
  (forall ctx k rest s,
     marker s = replicate k true ++ false :: rest ->
     Wait_IfPaused (PauseFlagFile p) ctx s
     = (Ret tt, emit (gate_trace (PauseFlagFile p) ctx k) (set_marker rest s)))
  /\ (forall ctx k s,
        marker s = replicate k true ->
        Wait_IfPaused (PauseFlagFile p) ctx s
        = (Held, emit (held_trace (PauseFlagFile p) ctx k) (set_marker [] s)))
  /\ (forall ctx k,
        List.filter is_poll (gate_trace (PauseFlagFile p) ctx k)
        = replicate k (Poll true) ++ [Poll false]
        /\ List.filter is_sleep (gate_trace (PauseFlagFile p) ctx k)
           = replicate k (Sleep 2)
        /\ List.filter is_host (gate_trace (PauseFlagFile p) ctx k)
           = if (k =? 0)%nat then []
             else pause_notice (PauseFlagFile p) ctx ++ resume_notice)
  /\ (forall ctx k,
        List.filter is_poll (held_trace (PauseFlagFile p) ctx k)
        = replicate k (Poll true)
        /\ List.filter is_sleep (held_trace (PauseFlagFile p) ctx k)
           = replicate k (Sleep 2)
        /\ List.filter is_host (held_trace (PauseFlagFile p) ctx k)
           = if (k =? 0)%nat then [] else pause_notice (PauseFlagFile p) ctx)
  /\ (exists delta,
        log st' = log st ++ delta
        /\ polls_at_safe_points p out file (marker st) delta)
  /\ (forallb (fun seen => seen) (marker st) = true ->
      r = Held
      /\ log st' = log st ++ held_trace (PauseFlagFile p) "before next file"
                              (length (marker st))).
Proof.
  intros Hflag Hrun.
  split.
  { intros ctx k rest s Hs. unfold Wait_IfPaused.
    rewrite Hs, gate_opens by exact Hflag. reflexivity. }
  split.
  { intros ctx k s Hs. unfold Wait_IfPaused.
    rewrite Hs, gate_holds by exact Hflag. reflexivity. }
  split.
  { intros ctx k. split; [apply gate_trace_polls|].
    split; [apply gate_trace_sleeps | apply gate_trace_hosts]. }
  split.
  { intros ctx k.
    destruct (held_trace_events_exact (PauseFlagFile p) ctx k) as (Hh & Hp & Hs).
    repeat split; assumption. }
  apply process_file_follows in Hrun.
  split; [eapply turn_polls_at_safe_points, Hrun|].
  intros Hm. eapply turn_waits; eassumption.
Qed.

Lemma pause_gate_contract_witness :
  exists delta,
    log (snd (process_file (sample_params false "" "C:\out\pause.flag")
                (sample_env sample_files 0) "C:\out" 2 sample_file
                (start sample_fs [true; true; false; false; true; false])))
    = [] ++ delta
    /\ polls_at_safe_points (sample_params false "" "C:\out\pause.flag")
         "C:\out" sample_file [true; true; false; false; true; false] delta.
Proof.
  refine (proj1 (proj2 (proj2 (proj2 (proj2
            (pause_gate_contract (sample_params false "" "C:\out\pause.flag")
               (sample_env sample_files 0) "C:\out" 2 sample_file
               (start sample_fs [true; true; false; false; true; false])
               _ _ _ _)))))).
  - reflexivity.
  - apply surjective_pairing.
Defined.

Example paused_turn :
  log (snd (process_file (sample_params false "" "C:\out\pause.flag")
              (sample_env sample_files 0) "C:\out" 2 sample_file
              (start sample_fs [true; true; false; false; true; false])))
  = [ Poll true;
      Host "[pause] Pause requested. Waiting to resume (before next file)";
      Host "[pause] Remove pause flag to continue: C:\out\pause.flag";
      Sleep 2; Poll true; Sleep 2; Poll false;
      Host "[pause] Resume detected. Continuing...";
      Host ""; Host "=== C:\in\2024-02-01_Service.mp4 ===";
      Poll false;
      Run "ffmpeg.exe"
        ["-y"; "-loglevel"; "error"; "-i"; "C:\in\2024-02-01_Service.mp4";
         "-vn"; "-ac"; "1"; "-ar"; "16000";
         "C:\out\2024-02-01\2024-02-01-service\audio-source.wav"];
      Poll true;
      Host "[pause] Pause requested. Waiting to resume (before whisper)";
      Host "[pause] Remove pause flag to continue: C:\out\pause.flag";
      Sleep 2; Poll false;
      Host "[pause] Resume detected. Continuing...";
      Run "whisper-cli.exe"
        ["-m"; "C:\models\ggml-small.en.bin"; "-f";
         "C:\out\2024-02-01\2024-02-01-service\audio-source.wav"; "-of";
         "C:\out\2024-02-01\2024-02-01-service\audio-source"; "-otxt"; "-oj"];
      Host "[progress] done=1 total=2 status=ok source=C:\in\2024-02-01_Service.mp4" ].
Proof. vm_compute. reflexivity. Qed.

(** A turn that finds the marker before the conversion and never sees it
    gone: the conversion is not started. *)
Example waiting_turn :
  process_file (sample_params false "" "C:\out\pause.flag")
    (sample_env sample_files 0) "C:\out" 2 sample_file
    (start sample_fs [false; true; true])
  = (Held,
     {| fs := with_directories "C:\out" sample_file sample_fs;
        marker := []; results := []; processed := 0;
        log := [ Poll false;
                 Host ""; Host "=== C:\in\2024-02-01_Service.mp4 ===";
                 Poll true;
                 Host "[pause] Pause requested. Waiting to resume (before ffmpeg)";
                 Host "[pause] Remove pause flag to continue: C:\out\pause.flag";
                 Sleep 2; Poll true; Sleep 2 ] |}).
Proof. vm_compute. reflexivity. Qed.

(** ** Get-DateBucket: the order of the patterns *)

Section LeftmostMatch.

Context (here : chars -> option groups).

Lemma Regex_Match_none s :
  (forall j, here (drop j s) = None) -> Regex_Match here s = None.
Proof.
  induction s as [|c s IH]; intros H.
  - cbn [Regex_Match]. rewrite (H 0 : here [] = None). reflexivity.
  - cbn [Regex_Match]. rewrite (H 0 : here (c :: s) = None).
    apply IH. intros j. exact (H (S j)).
Qed.

(** The match is at the first position at which the pattern matches. *)
Lemma Regex_Match_first k :
  forall s g,
    here (drop k s) = Some g ->
    (forall j, j < k -> here (drop j s) = None) ->
    Regex_Match here s = Some g.
Proof.
  induction k as [|k IH]; intros s g Hk Hbefore.
  - rewrite drop_0 in Hk. destruct s; cbn [Regex_Match]; rewrite Hk; reflexivity.
  - destruct s as [|c s].
    + cbn [drop] in Hk. cbn [Regex_Match]. rewrite Hk. reflexivity.
    + cbn [Regex_Match]. rewrite (Hbefore 0 ltac:(lia) : here (c :: s) = None).
      apply IH; [exact Hk|]. intros j Hj. apply (Hbefore (S j)). lia.
Qed.

End LeftmostMatch.

(** C6, as amended: the bucket is the leftmost match of
    [20\d{2}[-_]\d{2}[-_]\d{2}] in the base name when there is one, else the
    leftmost match of [20\d{6}] when there is one, else the day of the last
    write; so [2024-03-10_Service] and [20240310_Service] are both in the
    bucket [2024-03-10], and [Service] is in the bucket of its last write. *)
Theorem date_bucket_priority (File : FileInfo) :
  (forall k g,
     dashed_here (drop k (of_string (BaseName File))) = Some g ->
     (forall j, j < k -> dashed_here (drop j (of_string (BaseName File))) = None) ->
     Get_DateBucket File = to_string (format_groups g))
  /\ (forall k g,
        (forall j, dashed_here (drop j (of_string (BaseName File))) = None) ->
        compact_here (drop k (of_string (BaseName File))) = Some g ->
        (forall j, j < k -> compact_here (drop j (of_string (BaseName File))) = None) ->
        Get_DateBucket File = to_string (format_groups g))
  /\ ((forall j, dashed_here (drop j (of_string (BaseName File))) = None) ->
      (forall j, compact_here (drop j (of_string (BaseName File))) = None) ->
      Get_DateBucket File = to_string (ToString_yyyy_MM_dd (LastWriteTime File)))
  /\ Get_DateBucket (file_named "2024-03-10_Service" ".mp4" (LastWriteTime File))
     = "2024-03-10"
  /\ Get_DateBucket (file_named "20240310_Service" ".mp4" (LastWriteTime File))
     = "2024-03-10"
  /\ Get_DateBucket (file_named "Service" ".mp4" (LastWriteTime File))
     = to_string (ToString_yyyy_MM_dd (LastWriteTime File)).
Proof.
  unfold Get_DateBucket, date_bucket_chars.
  split; [|split; [|split]].
  - intros k g Hk Hbefore.
    rewrite (Regex_Match_first dashed_here k _ g Hk Hbefore). reflexivity.
  - intros k g Hnone Hk Hbefore.
    rewrite (Regex_Match_none dashed_here _ Hnone).
    rewrite (Regex_Match_first compact_here k _ g Hk Hbefore). reflexivity.
  - intros Hd Hc.
    rewrite (Regex_Match_none dashed_here _ Hd).
    rewrite (Regex_Match_none compact_here _ Hc). reflexivity.
  - repeat split.
Qed.

Lemma date_bucket_priority_witness :
  Get_DateBucket (file_named "Easter 20240331 (2024_04-01 upload)" ".mov" july4)
  = "2024-04-01".
Proof.
  refine (proj1 (date_bucket_priority
                   (file_named "Easter 20240331 (2024_04-01 upload)" ".mov" july4))
            17 (of_string "2024", of_string "04", of_string "01") _ _).
  - reflexivity.
  - intros j Hj.
    do 17 (destruct j as [|j]; [reflexivity|]). lia.
Defined.

(** C6 as stated fails: the base name [1999-12-31_Service] holds a date of
    the form [YYYY-MM-DD], and the file is put in the bucket of its last
    write. *)
Lemma bucket_of_1999_is_last_write :
  spec_DateBucket (file_named "1999-12-31_Service" ".mp4" july4) = "1999-12-31"
  /\ Get_DateBucket (file_named "1999-12-31_Service" ".mp4" july4) = "2021-07-04".
Proof. split; reflexivity. Qed.

(** ** Build-CleanMarkdown: the paragraphs *)


Section TrimFacts.

Context (P : ascii -> bool).

Lemma TrimStart_forallb s :
  forallb P s = false -> Text.TrimStart P s <> [].
Proof.
  induction s as [|c s IH]; cbn; [discriminate|].
  destruct (P c); cbn; [exact IH | discriminate].
Qed.

Lemma ends_with_app s t : t <> [] -> ends_with P (s ++ t) = ends_with P t.
Proof.
  intros Ht. unfold ends_with. rewrite last_app.
  destruct (last t) eqn:E; [reflexivity|].
  apply last_None in E. contradiction.
Qed.

Lemma starts_with_app s t : s <> [] -> starts_with P (s ++ t) = starts_with P s.
Proof. destruct s; [congruence | reflexivity]. Qed.

End TrimFacts.

Lemma Trim_nonblank s :
  Text.IsNullOrWhiteSpace s = false -> trimmed (Text.Trim s).
Proof.
  intros H. unfold Text.Trim, Text.TrimSet.
  pose proof (TrimStart_forallb _ _ H) as Hne.
  pose proof (TrimStart_head Char.IsWhiteSpace s) as Hh.
  repeat split.
  - apply TrimEnd_nonempty; assumption.
  - apply TrimEnd_head, Hh.
  - apply TrimEnd_last.
Qed.

Lemma Trim_trimmed s : trimmed s -> Text.Trim s = s.
Proof.
  intros (Hne & Hh & Hl). unfold Text.Trim, Text.TrimSet.
  rewrite TrimStart_id by exact Hh. apply TrimEnd_id; assumption.
Qed.

Lemma trimmed_nonblank s : trimmed s -> Text.IsNullOrWhiteSpace s = false.
Proof.
  intros (Hne & Hh & _). destruct s as [|c s]; [congruence|].
  cbn in Hh |- *. rewrite Hh. reflexivity.
Qed.

Lemma join_space_snoc bg s :
  bg <> [] -> join_space (bg ++ [s]) = join_space bg ++ space :: s.
Proof.
  induction bg as [|x bg IH]; [congruence|]. intros _.
  destruct bg as [|y bg]; [reflexivity|].
  change (join_space ((x :: y :: bg) ++ [s]))
    with (x ++ space :: join_space ((y :: bg) ++ [s])).
  rewrite IH by discriminate.
  change (join_space (x :: y :: bg)) with (x ++ space :: join_space (y :: bg)).
  rewrite <- app_assoc. reflexivity.
Qed.

Lemma join_space_trimmed bg :
  bg <> [] -> Forall trimmed bg -> trimmed (join_space bg).
Proof.
  induction bg as [|x bg IH] using rev_ind; [congruence|]. intros _ H.
  apply Forall_app in H as [Hbg Hx]. inversion Hx as [|? ? Hx' _]; subst.
  destruct bg as [|y bg]; [exact Hx'|].
  rewrite join_space_snoc by discriminate.
  destruct (IH ltac:(discriminate) Hbg) as (Hne & Hh & Hl).
  destruct Hx' as (Hxne & Hxh & Hxl).
  repeat split.
  - destruct (join_space (y :: bg)); [congruence | discriminate].
  - rewrite starts_with_app by exact Hne. exact Hh.
  - rewrite ends_with_app by discriminate.
    change (space :: x) with ([space] ++ x).
    rewrite ends_with_app by exact Hxne. exact Hxl.
Qed.

Lemma join_space_removelast bg :
  length (join_space (removelast bg)) <= length (join_space bg).
Proof.
  induction bg as [|x bg IH] using rev_ind; [reflexivity|].
  rewrite removelast_last. destruct bg as [|y bg]; [cbn; lia|].
  rewrite join_space_snoc by discriminate. rewrite length_app. lia.
Qed.

(** The loop from a buffer that holds the sentences [bg] of the paragraph in
    the making: the paragraphs are whole sentences put together, a paragraph
    is below the threshold as long as its last sentence is not in it, and
    every paragraph but the last one reaches the threshold. *)
Lemma pack_groups sentences :
  forall bg,
    Forall trimmed bg ->
    length (join_space bg) < paragraph_threshold ->
    exists groups,
      pack_sentences (join_space bg) sentences = map join_space groups
      /\ concat groups = bg ++ kept_sentences sentences
      /\ Forall (fun g => g <> []) groups
      /\ Forall (fun g => length (join_space (removelast g)) < paragraph_threshold)
           groups
      /\ Forall (fun g => paragraph_threshold <= length (join_space g))
           (removelast groups).
Proof.
  induction sentences as [|s rest IH]; intros bg Hbg Hlen.
  - cbn [pack_sentences]. unfold kept_sentences. cbn [List.filter map].
    rewrite app_nil_r. destruct bg as [|x bg].
    + exists []. repeat split; constructor.
    + pose proof (join_space_trimmed (x :: bg) ltac:(discriminate) Hbg) as Ht.
      rewrite (trimmed_nonblank _ Ht), (Trim_trimmed _ Ht).
      exists [x :: bg]. cbn [map concat]. rewrite app_nil_r.
      split; [reflexivity|]. split; [reflexivity|].
      split; [constructor; [discriminate | constructor]|].
      split; [|constructor].
      constructor; [|constructor].
      pose proof (join_space_removelast (x :: bg)). lia.
  - cbn [pack_sentences]. unfold kept_sentences. cbn [List.filter].
    destruct (Text.IsNullOrWhiteSpace s) eqn:Hs; cbn [negb].
    + apply IH; assumption.
    + cbn [map]. fold (kept_sentences rest).
      pose proof (Trim_nonblank s Hs) as Ht.
      set (t := Text.Trim s) in *.
      assert (Hbuf : (if Text.IsNullOrWhiteSpace (join_space bg) then t
                      else join_space bg ++ [space] ++ t)
                     = join_space (bg ++ [t])).
      { destruct bg as [|x bg]; [reflexivity|].
        rewrite (trimmed_nonblank _ (join_space_trimmed (x :: bg)
                                       ltac:(discriminate) Hbg)).
        rewrite join_space_snoc by discriminate. reflexivity. }
      rewrite Hbuf.
      assert (Hbg' : Forall trimmed (bg ++ [t])).
      { apply Forall_app. split; [exact Hbg|].
        constructor; [exact Ht | constructor]. }
      pose proof (join_space_trimmed (bg ++ [t])
                    ltac:(destruct bg; discriminate) Hbg') as Htj.
      destruct (paragraph_threshold <=? length (join_space (bg ++ [t])))%nat
        eqn:Hcmp.
      * apply Nat.leb_le in Hcmp.
        assert (H0 : length (join_space []) < paragraph_threshold)
          by (cbn [join_space length]; unfold paragraph_threshold; lia).
        destruct (IH [] (List.Forall_nil trimmed) H0)
          as (groups & Hp & Hc & Hne & Hb & Hr).
        cbn [join_space] in Hp. rewrite Hp, (Trim_trimmed _ Htj).
        exists ((bg ++ [t]) :: groups). cbn [map concat].
        split; [reflexivity|].
        split; [rewrite Hc, <- app_assoc; reflexivity|].
        split; [constructor; [destruct bg; discriminate | exact Hne]|].
        split; [constructor; [rewrite removelast_last; exact Hlen | exact Hb]|].
        destruct groups as [|g groups]; [constructor|].
        change (removelast ((bg ++ [t]) :: g :: groups))
          with ((bg ++ [t]) :: removelast (g :: groups)).
        constructor; assumption.
      * apply Nat.leb_gt in Hcmp.
        destruct (IH (bg ++ [t]) Hbg' Hcmp) as (groups & Hp & Hc & Hne & Hb & Hr).
        exists groups. rewrite Hp, Hc, <- app_assoc.
        repeat split; assumption.
Qed.

(** ** The sentences of a flattened text *)

Lemma is_char_eq x c : is_char x c = true -> c = x.
Proof.
  unfold is_char, Char.code. intros H%Nat.eqb_eq.
  rewrite <- (ascii_nat_embedding c), <- (ascii_nat_embedding x), H.
  reflexivity.
Qed.

Section Runs.

Context (C : ascii -> bool) (r : ascii) (Hr : C r = true).

Lemma Replace_runs_no_adjacent b s :
  no_adjacent C b (Text.Replace_runs C r b s) = true.
Proof.
  revert b. induction s as [|c s IH]; intros b; [reflexivity|].
  cbn [Text.Replace_runs]. destruct (C c) eqn:Ec.
  - destruct b; [apply IH|]. cbn [no_adjacent]. rewrite Hr. apply IH.
  - cbn [no_adjacent]. rewrite Ec. apply IH.
Qed.

Lemma Replace_runs_class b s :
  forallb (fun c => negb (C c) || is_char r c) (Text.Replace_runs C r b s) = true.
Proof.
  revert b. induction s as [|c s IH]; intros b; [reflexivity|].
  cbn [Text.Replace_runs]. destruct (C c) eqn:Ec.
  - destruct b; [apply IH|]. cbn [forallb]. rewrite IH.
    unfold is_char. rewrite Nat.eqb_refl, orb_true_r. reflexivity.
  - cbn [forallb]. rewrite Ec, IH. reflexivity.
Qed.

End Runs.

(** The flattened text is single-spaced. *)
Lemma flatten_single_spaced RawText : single_spaced (flatten RawText).
Proof.
  unfold flatten, Text.Trim, Text.TrimSet.
  set (s := Text.Replace_runs Char.IsWhiteSpace space false RawText).
  destruct (TrimStart_suffix Char.IsWhiteSpace s) as [k Hk].
  destruct (TrimEnd_prefix Char.IsWhiteSpace (Text.TrimStart Char.IsWhiteSpace s))
    as [j Hj].
  repeat split.
  - rewrite Hj, Hk. apply forallb_take, forallb_drop.
    apply (Replace_runs_class Char.IsWhiteSpace space).
  - rewrite Hj, Hk. eapply no_adjacent_take, no_adjacent_drop.
    apply (Replace_runs_no_adjacent Char.IsWhiteSpace space). reflexivity.
  - apply TrimEnd_head, TrimStart_head.
  - apply TrimEnd_last.
Qed.

Lemma Split_from_cons a b c s :
  Split_from a b (c :: s)
  = if Char.IsWhiteSpace c && b then Split_from false true s
    else if Char.IsWhiteSpace c && a then
      let '(p, ps) := Split_from false true s in ([], p :: ps)
    else
      let '(p, ps) := Split_from (Char.is_terminator c) false s in (c :: p, ps).
Proof. reflexivity. Qed.

Lemma Split_from_fresh a b a' b' c s :
  Char.IsWhiteSpace c = false ->
  Split_from a b (c :: s) = Split_from a' b' (c :: s).
Proof. intros H. rewrite !Split_from_cons, H. reflexivity. Qed.

Lemma join_space_cons c p ps :
  join_space ((c :: p) :: ps) = c :: join_space (p :: ps).
Proof. destruct ps; reflexivity. Qed.

Lemma ends_with_cons P c (p : chars) :
  p <> [] -> ends_with P (c :: p) = ends_with P p.
Proof.
  intros Hp. unfold ends_with. rewrite last_cons.
  destruct (last p) eqn:E; [reflexivity|].
  apply last_None in E. contradiction.
Qed.

(** The pieces of a single-spaced text, put together with single spaces,
    are the text; the pieces after the first have no white space at their
    ends, and the first has none at its end. *)
Lemma Split_from_joins s :
  forall a,
    forallb (fun c => negb (Char.IsWhiteSpace c) || is_char " " c) s = true ->
    no_adjacent Char.IsWhiteSpace false s = true ->
    ends_with Char.IsWhiteSpace s = false ->
    join_space (fst (Split_from a false s) :: snd (Split_from a false s)) = s
    /\ Forall trimmed (snd (Split_from a false s))
    /\ ends_with Char.IsWhiteSpace (fst (Split_from a false s)) = false
    /\ (starts_with Char.IsWhiteSpace s = false -> s <> [] ->
        starts_with Char.IsWhiteSpace (fst (Split_from a false s)) = false
        /\ fst (Split_from a false s) <> []).
Proof.
  induction s as [|c s IH]; intros a Hsp Hadj Hend.
  - cbn. repeat split; try constructor; congruence.
  - cbn [forallb] in Hsp. apply andb_prop in Hsp as [Hc Hsp].
    cbn [no_adjacent] in Hadj.
    destruct (Char.IsWhiteSpace c) eqn:Ews.
    + cbn [negb orb andb] in Hc, Hadj. apply is_char_eq in Hc. subst c.
      destruct s as [|d s']; [discriminate Hend|].
      assert (Hd : Char.IsWhiteSpace d = false).
      { cbn [no_adjacent] in Hadj. destruct (Char.IsWhiteSpace d);
          [discriminate Hadj | reflexivity]. }
      assert (Hend' : ends_with Char.IsWhiteSpace (d :: s') = false)
        by (rewrite ends_with_cons in Hend by discriminate; exact Hend).
      pose proof (no_adjacent_weaken _ _ _ Hadj) as Hadj'.
      destruct (IH false Hsp Hadj' Hend') as (Hj & Ht & He & Hs).
      destruct (Hs Hd ltac:(discriminate)) as [Hps Hpne].
      rewrite Split_from_cons, Ews. cbn [andb].
      destruct a.
      * rewrite (Split_from_fresh false true false false d s' Hd).
        destruct (Split_from false false (d :: s')) as [p ps].
        cbn [fst snd] in *. split; [|split; [|split]].
        -- change (join_space ([] :: p :: ps)) with (" "%char :: join_space (p :: ps)).
           rewrite Hj. reflexivity.
        -- constructor; [repeat split; assumption | exact Ht].
        -- reflexivity.
        -- intros Hx. discriminate Hx.
      * change (Char.is_terminator " ") with false.
        destruct (Split_from false false (d :: s')) as [p ps].
        cbn [fst snd] in *. split; [|split; [|split]].
        -- rewrite join_space_cons, Hj. reflexivity.
        -- exact Ht.
        -- rewrite ends_with_cons by exact Hpne. exact He.
        -- intros Hx. discriminate Hx.
    + assert (Hend' : ends_with Char.IsWhiteSpace s = false).
      { destruct s as [|d s']; [reflexivity|].
        rewrite ends_with_cons in Hend by discriminate. exact Hend. }
      destruct (IH (Char.is_terminator c) Hsp Hadj Hend') as (Hj & Ht & He & Hs).
      rewrite Split_from_cons, Ews. cbn [andb].
      destruct (Split_from (Char.is_terminator c) false s) as [p ps].
      cbn [fst snd] in *. split; [|split; [|split]].
      * rewrite join_space_cons, Hj. reflexivity.
      * exact Ht.
      * destruct p as [|e p]; [unfold ends_with; cbn; exact Ews|].
        rewrite ends_with_cons by discriminate. exact He.
      * intros _ _. split; [exact Ews | discriminate].
Qed.

Lemma kept_trimmed l : Forall trimmed l -> kept_sentences l = l.
Proof.
  unfold kept_sentences. induction 1 as [|s l Hs _ IH]; [reflexivity|].
  cbn [List.filter]. rewrite (trimmed_nonblank _ Hs). cbn [negb map].
  rewrite (Trim_trimmed _ Hs), IH. reflexivity.
Qed.

(** The kept sentences of a single-spaced text, put together with single
    spaces, are the text. *)
Lemma Split_sentences_joins flat :
  single_spaced flat ->
  join_space (kept_sentences (Split_sentences flat)) = flat.
Proof.
  intros (Hsp & Hadj & Hs & He).
  destruct flat as [|c s]; [reflexivity|].
  destruct (Split_from_joins (c :: s) false Hsp Hadj He) as (Hj & Ht & Hpe & Hp).
  destruct (Hp Hs ltac:(discriminate)) as [Hps Hpne].
  unfold Split_sentences.
  destruct (Split_from false false (c :: s)) as [p ps]. cbn [fst snd] in *.
  rewrite kept_trimmed; [exact Hj|].
  constructor; [repeat split; assumption | exact Ht].
Qed.

(** C5, as amended: the paragraphs of the clean document are the sentences
    of the flattened text, trimmed and without the blank ones, put together
    in their order, each paragraph being one or more whole sentences, and
    the sentences of all the paragraphs, put together with single spaces,
    are the flattened text; a paragraph is closed as soon as it reaches 700
    characters, so it is below 700 characters without its last sentence, and
    every paragraph but the last one has at least 700 characters. *)
Theorem paragraphs_are_whole_sentences (RawText : string) :
  exists groups,
    clean_paragraphs RawText = map join_space groups
    /\ concat groups
       = kept_sentences (Split_sentences (flatten (of_string RawText)))
    /\ join_space (concat groups) = flatten (of_string RawText)
    /\ Forall (fun g => g <> []) groups
    /\ Forall (fun g => length (join_space (removelast g)) < paragraph_threshold)
         groups
    /\ Forall (fun g => paragraph_threshold <= length (join_space g))
         (removelast groups).
Proof.
  unfold clean_paragraphs.
  destruct (pack_groups (Split_sentences (flatten (of_string RawText))) [])
    as (groups & Hp & Hc & Hne & Hb & Hr).
  - constructor.
  - cbn [join_space length]. unfold paragraph_threshold. lia.
  - exists groups. cbn [app] in Hc.
    split; [exact Hp|]. split; [exact Hc|].
    split; [rewrite Hc; apply Split_sentences_joins, flatten_single_spaced|].
    repeat split; assumption.
Qed.

(** C5 as stated fails: of three sentences of 690, 690 and 10 characters,
    none of which exceeds the cap, the first two make a paragraph of 1381
    characters. *)
Lemma paragraph_over_the_cap :
  map (@length ascii) (Split_sentences (flatten (of_string (sermon [690; 690; 10]))))
  = [690; 690; 10]
  /\ map (@length ascii) (clean_paragraphs (sermon [690; 690; 10])) = [1381; 10].
Proof. vm_compute. split; reflexivity. Qed.

(** * More of the script *)

(** ** The paths of the artifacts *)

(** The eight files of a service directory have names of their own. *)
Ltac artifact_ne :=
  unfold rawPath_of, cleanPath_of, summaryPath_of, timestampsPath_of,
    metadataPath_of, audioPath_of, rawCandidate_of, jsonCandidate_of, baseOut_of;
  rewrite ?Join_Path_joined, ?append_assoc;
  let E := fresh "E" in
  intros E; apply append_inj_l in E; vm_compute in E; discriminate E.

Ltac map_lookup :=
  repeat first
    [ rewrite lookup_insert_eq
    | rewrite lookup_delete_eq
    | rewrite lookup_insert_ne by first [artifact_ne | congruence]
    | rewrite lookup_delete_ne by first [artifact_ne | congruence] ].

Ltac map_lookup_in H :=
  repeat first
    [ rewrite lookup_insert_eq in H
    | rewrite lookup_delete_eq in H
    | rewrite lookup_insert_ne in H by first [artifact_ne | congruence]
    | rewrite lookup_delete_ne in H by first [artifact_ne | congruence] ].

Section ArtifactPaths.

Context (out : string) (file : FileInfo).

(** A file of the service directory is neither the service directory nor the
    date directory. *)
Lemma artifact_not_directory name :
  name <> "" ->
  joined (serviceDir_of out file) +:+ name <> serviceDir_of out file
  /\ joined (serviceDir_of out file) +:+ name <> dateDir_of out file.
Proof.
  intros Hname.
  assert (H : String.length (serviceDir_of out file)
              < String.length (joined (serviceDir_of out file) +:+ name)).
  { rewrite length_append. unfold joined.
    destruct name as [|c name]; [congruence|]. cbn [String.length].
    destruct (ends_with _ _); [|rewrite length_append]; lia. }
  pose proof (Join_Path_length (dateDir_of out file) (Get_Slug (BaseName file)))
    as H'.
  fold (serviceDir_of out file) in H'.
  split; intros E; apply (f_equal String.length) in E; lia.
Qed.

(** A path outside [turn_paths] is none of the ten paths. *)
Lemma outside_turn_paths path :
  path ∉ turn_paths out file ->
  path <> dateDir_of out file /\ path <> serviceDir_of out file
  /\ path <> rawPath_of out file /\ path <> cleanPath_of out file
  /\ path <> summaryPath_of out file /\ path <> timestampsPath_of out file
  /\ path <> metadataPath_of out file /\ path <> audioPath_of out file
  /\ path <> rawCandidate_of out file /\ path <> jsonCandidate_of out file.
Proof.
  unfold turn_paths. intros H.
  repeat (apply not_elem_of_cons in H as [? H]). repeat split; assumption.
Qed.

End ArtifactPaths.

(** A goal [a <> b] where one side is a directory of the turn and the other
    a file of its service directory. *)
Ltac directory_ne :=
  unfold rawPath_of, cleanPath_of, summaryPath_of, timestampsPath_of,
    metadataPath_of, audioPath_of, rawCandidate_of, jsonCandidate_of, baseOut_of;
  rewrite ?Join_Path_joined, ?append_assoc;
  first
    [ apply artifact_not_directory; vm_compute; discriminate
    | apply not_eq_sym, artifact_not_directory; vm_compute; discriminate ].

(** ** The artifacts of a turn *)

Section Artifacts.

Context (p : Params) (env : Env).

(** [place_artifacts] changes the file system only, and what it does to it
    depends on the file system only. *)
Lemma place_artifacts_run file bucket dir f m rs n l :
  place_artifacts p env file bucket dir
    {| fs := f; marker := m; results := rs; processed := n; log := l |}
  = (Ret tt,
     {| fs := fs (snd (place_artifacts p env file bucket dir (start f [])));
        marker := m; results := rs; processed := n; log := l |}).
Proof.
  unfold place_artifacts, start, bind, when, Test_Path, Move_Item, Get_Content,
    Set_Content, Remove_Item, ret, set_fs. cbn [fs marker results processed log].
  repeat match goal with
         | |- context [if ?b then _ else _] =>
             destruct b; cbn [fst snd fs marker results processed log negb andb]
         end;
  reflexivity.
Qed.

(** The same, step by step. *)
Lemma placed_eq out file (m : gmap string Node) :
  placed p env out file m
  = let m1 := match m !! rawCandidate_of out file with
              | Some n => <[rawPath_of out file := n]>
                            (delete (rawCandidate_of out file) m)
              | None => m
              end in
    let m2 := match m1 !! jsonCandidate_of out file with
              | Some n => <[timestampsPath_of out file := n]>
                            (delete (jsonCandidate_of out file) m1)
              | None => m1
              end in
    let rawText := match m2 !! rawPath_of out file with
                   | Some (File c) => c
                   | _ => ""
                   end in
    let m3 := if FastScan p then m2
              else <[summaryPath_of out file :=
                       File (Build_SummaryMarkdown env (title_of file) (FullName file)
                               rawText +:+ CRLF)]>
                     (<[cleanPath_of out file :=
                          File (Build_CleanMarkdown env (title_of file) (FullName file)
                                  rawText +:+ CRLF)]> m2) in
    let m4 := <[metadataPath_of out file :=
                  File (metadata p env file (Get_DateBucket file)
                          (serviceDir_of out file) +:+ CRLF)]> m3 in
    if negb (KeepAudio p) && present m4 (audioPath_of out file)
    then delete (audioPath_of out file) m4 else m4.
Proof.
  cbv zeta.
  unfold placed, place_artifacts, start, bind, when, Test_Path, Move_Item,
    Get_Content, Set_Content, Remove_Item, ret, set_fs, present.
  cbn [fs marker results processed log].
  fold (baseOut_of out file). fold (rawCandidate_of out file).
  fold (jsonCandidate_of out file). fold (rawPath_of out file).
  fold (timestampsPath_of out file). fold (cleanPath_of out file).
  fold (summaryPath_of out file). fold (metadataPath_of out file).
  fold (audioPath_of out file).
  destruct (m !! rawCandidate_of out file) as [n1|] eqn:E1;
    cbn [fst snd fs marker results processed log]; rewrite ?E1;
    cbn [fst snd fs marker results processed log].
  all: destruct (_ !! jsonCandidate_of out file) as [n2|] eqn:E2;
    cbn [fst snd fs marker results processed log]; rewrite ?E2;
    cbn [fst snd fs marker results processed log].
  all: destruct (_ !! rawPath_of out file) as [[|c]|] eqn:E3;
    cbn [fst snd fs marker results processed log]; rewrite ?E3.
  all: destruct (FastScan p), (KeepAudio p);
    cbn [negb andb fst snd fs marker results processed log]; try reflexivity.
  all: match goal with
       | |- context [if ?b then _ else _] => destruct b
       end; reflexivity.
Qed.

(** What the directories and the engines leave at a path. *)
Lemma with_directories_lookup out file path (m : gmap string Node) :
  path <> dateDir_of out file -> path <> serviceDir_of out file ->
  with_directories out file m !! path = m !! path.
Proof.
  intros Hd Hs. unfold with_directories.
  rewrite mkdir_lookup_ne by exact Hs. apply mkdir_lookup_ne, Hd.
Qed.

Lemma engines_fs_frame out file path (m : gmap string Node) :
  path <> dateDir_of out file -> path <> serviceDir_of out file ->
  path <> audioPath_of out file -> path <> rawCandidate_of out file ->
  path <> jsonCandidate_of out file ->
  engines_fs env out file m !! path = m !! path.
Proof.
  intros Hd Hs Ha Ht Hj. unfold engines_fs, recognized_fs, converted_fs.
  fold (rawCandidate_of out file). fold (jsonCandidate_of out file).
  destruct (json _), (txt _), (wav _); map_lookup;
    apply with_directories_lookup; assumption.
Qed.

Lemma engines_fs_rawCandidate out file (m : gmap string Node) :
  engines_fs env out file m !! rawCandidate_of out file
  = match txt (whisper env (audioPath_of out file)) with
    | Some c => Some (File c)
    | None => m !! rawCandidate_of out file
    end.
Proof.
  unfold engines_fs, recognized_fs, converted_fs.
  fold (rawCandidate_of out file). fold (jsonCandidate_of out file).
  destruct (json _), (txt _), (wav _); map_lookup; try reflexivity;
    apply with_directories_lookup; directory_ne.
Qed.

Lemma engines_fs_jsonCandidate out file (m : gmap string Node) :
  engines_fs env out file m !! jsonCandidate_of out file
  = match json (whisper env (audioPath_of out file)) with
    | Some c => Some (File c)
    | None => m !! jsonCandidate_of out file
    end.
Proof.
  unfold engines_fs, recognized_fs, converted_fs.
  fold (rawCandidate_of out file). fold (jsonCandidate_of out file).
  destruct (json _), (txt _), (wav _); map_lookup; try reflexivity;
    apply with_directories_lookup; directory_ne.
Qed.

Lemma engines_fs_audio out file (m : gmap string Node) :
  engines_fs env out file m !! audioPath_of out file
  = match wav (ffmpeg env (FullName file)) with
    | Some w => Some (File w)
    | None => m !! audioPath_of out file
    end.
Proof.
  unfold engines_fs, recognized_fs, converted_fs.
  fold (rawCandidate_of out file). fold (jsonCandidate_of out file).
  destruct (json _), (txt _), (wav _); map_lookup; try reflexivity;
    apply with_directories_lookup; directory_ne.
Qed.

Lemma remove_if_present (m : gmap string Node) path :
  (if present m path then delete path m else m) !! path = None.
Proof.
  unfold present. destruct (m !! path) eqn:E; [apply lookup_delete_eq | exact E].
Qed.

(** What [place_artifacts] leaves at each of its paths. *)
Lemma placed_raw out file (m : gmap string Node) :
  placed p env out file m !! rawPath_of out file
  = match m !! rawCandidate_of out file with
    | Some n => Some n
    | None => m !! rawPath_of out file
    end.
Proof.
  rewrite placed_eq. cbv zeta.
  destruct (m !! rawCandidate_of out file) as [n1|] eqn:E1.
  all: destruct (_ !! jsonCandidate_of out file) as [n2|] eqn:E2.
  all: destruct (FastScan p), (negb (KeepAudio p) && present _ _);
    map_lookup; reflexivity.
Qed.

Lemma placed_rawCandidate out file (m : gmap string Node) :
  placed p env out file m !! rawCandidate_of out file = None.
Proof.
  rewrite placed_eq. cbv zeta.
  destruct (m !! rawCandidate_of out file) as [n1|] eqn:E1.
  all: destruct (_ !! jsonCandidate_of out file) as [n2|] eqn:E2.
  all: destruct (FastScan p), (negb (KeepAudio p) && present _ _);
    map_lookup; first [reflexivity | exact E1].
Qed.

Lemma placed_timestamps out file (m : gmap string Node) :
  placed p env out file m !! timestampsPath_of out file
  = match m !! jsonCandidate_of out file with
    | Some n => Some n
    | None => m !! timestampsPath_of out file
    end.
Proof.
  rewrite placed_eq. cbv zeta.
  destruct (m !! rawCandidate_of out file) as [n1|] eqn:E1.
  all: destruct (_ !! jsonCandidate_of out file) as [n2|] eqn:E2.
  all: map_lookup_in E2; rewrite ?E2.
  all: destruct (FastScan p), (negb (KeepAudio p) && present _ _);
    map_lookup; reflexivity.
Qed.

Lemma placed_jsonCandidate out file (m : gmap string Node) :
  placed p env out file m !! jsonCandidate_of out file = None.
Proof.
  rewrite placed_eq. cbv zeta.
  destruct (m !! rawCandidate_of out file) as [n1|] eqn:E1; map_lookup.
  all: destruct (m !! jsonCandidate_of out file) as [n2|] eqn:E2.
  all: destruct (FastScan p), (negb (KeepAudio p) && present _ _);
    map_lookup; first [reflexivity | exact E2].
Qed.


Lemma placed_fast out file (m : gmap string Node) :
  FastScan p = true ->
  placed p env out file m !! cleanPath_of out file = m !! cleanPath_of out file
  /\ placed p env out file m !! summaryPath_of out file
     = m !! summaryPath_of out file.
Proof.
  intros HF. rewrite placed_eq. cbv zeta. rewrite HF.
  destruct (m !! rawCandidate_of out file) as [n1|] eqn:E1.
  all: destruct (_ !! jsonCandidate_of out file) as [n2|] eqn:E2.
  all: destruct (negb (KeepAudio p) && present _ _); map_lookup;
    split; reflexivity.
Qed.

Lemma placed_metadata out file (m : gmap string Node) :
  placed p env out file m !! metadataPath_of out file
  = Some (File (metadata p env file (Get_DateBucket file) (serviceDir_of out file)
                +:+ CRLF)).
Proof.
  rewrite placed_eq. cbv zeta.
  destruct (m !! rawCandidate_of out file) as [n1|] eqn:E1.
  all: destruct (_ !! jsonCandidate_of out file) as [n2|] eqn:E2.
  all: destruct (FastScan p), (negb (KeepAudio p) && present _ _);
    map_lookup; reflexivity.
Qed.

Lemma placed_audio out file (m : gmap string Node) :
  placed p env out file m !! audioPath_of out file
  = if KeepAudio p then m !! audioPath_of out file else None.
Proof.
  rewrite placed_eq. cbv zeta.
  destruct (m !! rawCandidate_of out file) as [n1|] eqn:E1.
  all: destruct (_ !! jsonCandidate_of out file) as [n2|] eqn:E2.
  all: destruct (FastScan p), (KeepAudio p); cbn [negb andb];
    first [apply remove_if_present | map_lookup; reflexivity].
Qed.

Lemma placed_frame out file path (m : gmap string Node) :
  path <> rawPath_of out file -> path <> cleanPath_of out file ->
  path <> summaryPath_of out file -> path <> timestampsPath_of out file ->
  path <> metadataPath_of out file -> path <> audioPath_of out file ->
  path <> rawCandidate_of out file -> path <> jsonCandidate_of out file ->
  placed p env out file m !! path = m !! path.
Proof.
  intros. rewrite placed_eq. cbv zeta.
  destruct (m !! rawCandidate_of out file) as [n1|] eqn:E1.
  all: destruct (_ !! jsonCandidate_of out file) as [n2|] eqn:E2.
  all: destruct (FastScan p), (negb (KeepAudio p) && present _ _);
    map_lookup; reflexivity.
Qed.

End Artifacts.

(** ** The file system after a turn *)

Section TurnFs.

Context (p : Params) (env : Env) (out : string) (total : Z) (file : FileInfo).

(** A turn that goes through to its end has run the two engines and put the
    artifacts in place. *)
Lemma process_file_placed st st' :
  process_file p env out total file st = (Ret tt, st') ->
  fs st' = placed p env out file (engines_fs env out file (fs st)).
Proof.
  destruct st as [f m rs n l]. cbn [fs].
  unfold process_file. unfold bind at 1. rewrite Wait_IfPaused_run.
  destruct (gate (PauseFlagFile p) "before next file" m) as [es1 [m1|]];
    [|intros H; discriminate H].
  step_host. step_host.
  destruct (negb (IsNullOrWhiteSpace (BeforeDate p)) && _).
  { step_host. unfold bind at 1. rewrite finish_run. unfold continue.
    intros H; discriminate H. }
  unfold bind at 1. rewrite ensure_directory_run.
  unfold bind at 1. rewrite ensure_directory_run.
  unfold bind at 1. unfold Test_Path at 1. cbn [fs marker results processed log].
  destruct (present _ _ && negb (Force p)).
  { step_host. unfold bind at 1. rewrite finish_run. unfold continue.
    intros H; discriminate H. }
  unfold bind at 1. rewrite Wait_IfPaused_run.
  destruct (gate (PauseFlagFile p) "before ffmpeg" m1) as [es2 [m2|]];
    [|intros H; discriminate H].
  unfold bind at 1. unfold Invoke_ffmpeg at 1. unfold emit, set_fs.
  cbn [fs marker results processed log].
  destruct (negb (ffmpeg_exit _ =? 0)%Z).
  { step_warning. unfold bind at 1. rewrite finish_run. unfold continue.
    intros H; discriminate H. }
  unfold bind at 1. rewrite Wait_IfPaused_run.
  destruct (gate (PauseFlagFile p) "before whisper" m2) as [es3 [m3|]];
    [|intros H; discriminate H].
  unfold bind at 1. unfold Invoke_whisper at 1. unfold emit, set_fs.
  cbn [fs marker results processed log].
  destruct (negb (whisper_exit _ =? 0)%Z).
  { step_warning. unfold bind at 1. rewrite finish_run. unfold continue.
    intros H; discriminate H. }
  unfold bind at 1. rewrite place_artifacts_run. rewrite finish_run.
  intros [= <-]. reflexivity.
Qed.

(** The file system after a turn, whatever its outcome: what the turn found,
    with the directories of the file, with what the engines wrote, with the
    artifacts in place. *)
Lemma turn_fs f m rs n l r st' :
  file_step p env out total file f m rs n l r st' ->
  process_file p env out total file
    {| fs := f; marker := m; results := rs; processed := n; log := l |}
  = (r, st') ->
  fs st' = f
  \/ fs st' = with_directories out file f
  \/ fs st' = converted_fs env (FullName file) (audioPath_of out file)
               (with_directories out file f)
  \/ fs st' = engines_fs env out file f
  \/ fs st' = placed p env out file (engines_fs env out file f).
Proof.
  intros Hstep Hrun. inversion Hstep; subst; cbn [fs]; auto;
    try (right; right; right; left; reflexivity).
  right. right. right. right. exact (process_file_placed _ _ Hrun).
Qed.

(** A turn leaves every path outside [turn_paths] as it is. *)
Lemma turn_frame st r st' path :
  process_file p env out total file st = (r, st') ->
  path ∉ turn_paths out file ->
  fs st' !! path = fs st !! path.
Proof.
  intros Hrun Hpath. destruct st as [f m rs n l]. cbn [fs].
  apply outside_turn_paths in Hpath
    as (Hd & Hs & Hraw & Hc & Hsum & Hts & Hmeta & Ha & Htxt & Hjson).
  pose proof (process_file_follows _ _ _ _ _ _ _ _ Hrun) as Hstep.
  cbn [fs marker results processed log] in Hstep.
  assert (Hw : with_directories out file f !! path = f !! path)
    by (apply with_directories_lookup; assumption).
  assert (Hcv : converted_fs env (FullName file) (audioPath_of out file)
                  (with_directories out file f) !! path = f !! path).
  { unfold converted_fs. destruct (wav _); [|exact Hw].
    rewrite lookup_insert_ne by congruence. exact Hw. }
  assert (He : engines_fs env out file f !! path = f !! path)
    by (apply engines_fs_frame; assumption).
  destruct (turn_fs _ _ _ _ _ _ _ Hstep Hrun) as [-> | [-> | [-> | [-> | ->]]]];
    try assumption; [reflexivity|].
  rewrite placed_frame by assumption. exact He.
Qed.

End TurnFs.

(** ** The turns of the loop, one property at a time *)

Lemma fs_start m polls : fs (start m polls) = m.
Proof. reflexivity. Qed.

Lemma pair_of_fst {A B} (x : A * B) (a : A) : fst x = a -> x = (a, snd x).
Proof. intros <-. apply surjective_pairing. Qed.

(** X1: a file that the cutoff filter excludes is recorded as [skipped-date]
    with an empty output folder, and the turn leaves the file system as it
    found it: no directory is made for the file, and no engine runs. *)
Theorem date_skipped_turn_touches_nothing p env out total file st r st' :
  cutoff_excludes p file = true ->
  process_file p env out total file st = (r, st') ->
  r <> Held ->
  r = Continue
  /\ fs st' = fs st
  /\ results st' = results st ++ [result "skipped-date" file "" ""]
  /\ exists delta,
       log st' = log st ++ delta
       /\ forallb (fun e => negb (is_run e)) delta = true.
Proof.
  intros Hcut Hrun Hheld. apply process_file_follows in Hrun.
  inversion Hrun; subst; try congruence.
  cbn [fs results log]. repeat split.
  eexists. split; [reflexivity|].
  rewrite forallb_app, (gate_no_run _ _ _ _ _ H). reflexivity.
Qed.

Lemma date_skipped_turn_touches_nothing_witness :
  fst (process_file (sample_params true "2024-01-01" "") (sample_env [sample_file] 0)
         "C:\out" 1 sample_file (start sample_fs [])) = Continue
  /\ fs (snd (process_file (sample_params true "2024-01-01" "")
                (sample_env [sample_file] 0) "C:\out" 1 sample_file
                (start sample_fs []))) = sample_fs
  /\ results (snd (process_file (sample_params true "2024-01-01" "")
                     (sample_env [sample_file] 0) "C:\out" 1 sample_file
                     (start sample_fs [])))
     = [] ++ [result "skipped-date" sample_file "" ""]
  /\ exists delta,
       log (snd (process_file (sample_params true "2024-01-01" "")
                   (sample_env [sample_file] 0) "C:\out" 1 sample_file
                   (start sample_fs []))) = [] ++ delta
       /\ forallb (fun e => negb (is_run e)) delta = true.
Proof.
  refine (date_skipped_turn_touches_nothing
            (sample_params true "2024-01-01" "") (sample_env [sample_file] 0)
            "C:\out" 1 sample_file (start sample_fs []) _ _ _ _ _).
  - reflexivity.
  - apply surjective_pairing.
  - vm_compute. discriminate.
Defined.

(** X2: in a turn that goes through to its end, the text that the
    recognition engine wrote beside the waveform is moved to [raw.txt], and
    its JSON to [timestamps.json]: the transcript is what the engine wrote,
    and nothing is left at the places where the engine wrote. *)
Theorem transcript_is_what_the_engine_wrote p env out total file st st' c :
  process_file p env out total file st = (Ret tt, st') ->
  txt (whisper env (audioPath_of out file)) = Some c ->
  fs st' !! rawPath_of out file = Some (File c)
  /\ fs st' !! rawCandidate_of out file = None
  /\ fs st' !! jsonCandidate_of out file = None
  /\ forall j, json (whisper env (audioPath_of out file)) = Some j ->
               fs st' !! timestampsPath_of out file = Some (File j).
Proof.
  intros Hrun Htxt. apply process_file_placed in Hrun. rewrite Hrun.
  split; [|split; [|split]].
  - rewrite placed_raw, engines_fs_rawCandidate, Htxt. reflexivity.
  - apply placed_rawCandidate.
  - apply placed_jsonCandidate.
  - intros j Hj. rewrite placed_timestamps, engines_fs_jsonCandidate, Hj.
    reflexivity.
Qed.

Lemma transcript_is_what_the_engine_wrote_witness :
  fs (snd (process_file (sample_params false "" "") (sample_env [sample_file] 0)
             "C:\out" 1 sample_file (start sample_fs [])))
    !! rawPath_of "C:\out" sample_file
  = Some (File "Grace and peace. Amen.")
  /\ fs (snd (process_file (sample_params false "" "") (sample_env [sample_file] 0)
                "C:\out" 1 sample_file (start sample_fs [])))
       !! rawCandidate_of "C:\out" sample_file = None
  /\ fs (snd (process_file (sample_params false "" "") (sample_env [sample_file] 0)
                "C:\out" 1 sample_file (start sample_fs [])))
       !! jsonCandidate_of "C:\out" sample_file = None
  /\ forall j,
       json (whisper (sample_env [sample_file] 0)
               (audioPath_of "C:\out" sample_file)) = Some j ->
       fs (snd (process_file (sample_params false "" "")
                  (sample_env [sample_file] 0) "C:\out" 1 sample_file
                  (start sample_fs [])))
         !! timestampsPath_of "C:\out" sample_file = Some (File j).
Proof.
  refine (transcript_is_what_the_engine_wrote
            (sample_params false "" "") (sample_env [sample_file] 0)
            "C:\out" 1 sample_file (start sample_fs []) _
            "Grace and peace. Amen." _ _).
  - apply pair_of_fst. vm_compute. reflexivity.
  - reflexivity.
Defined.



(** What the documents of the sample recording are made of. *)
Example sample_document_parts :
  content_at
    (fs (snd (process_file (sample_params false "" "") (sample_env sample_files 0)
                "C:\out" 2 sample_file (start sample_fs []))))
    (rawPath_of "C:\out" sample_file)
  = "Grace and peace. Amen."
  /\ title_of sample_file = "2024 02 01 Service"
  /\ clean_paragraphs "Grace and peace. Amen."
     = [of_string "Grace and peace. Amen."]
  /\ summary_overview "Grace and peace. Amen." = "Grace and peace. Amen.".
Proof. vm_compute. repeat split. Qed.

(** X4: with [-FastScan], a turn that goes through to its end leaves
    [clean.md] and [summary.md] as it found them, and it writes
    [metadata.json] all the same: what [ConvertTo-Json] prints for the
    record [$meta] of the file. *)
Theorem fast_scan_writes_no_documents p env out total file st st' :
  process_file p env out total file st = (Ret tt, st') ->
  FastScan p = true ->
  fs st' !! cleanPath_of out file = fs st !! cleanPath_of out file
  /\ fs st' !! summaryPath_of out file = fs st !! summaryPath_of out file
  /\ fs st' !! metadataPath_of out file
     = Some (File (ConvertTo_Json env
                     (meta p env file (Get_DateBucket file)
                        (serviceDir_of out file)) +:+ CRLF)).
Proof.
  intros Hrun HF. apply process_file_placed in Hrun. rewrite Hrun.
  destruct (placed_fast p env out file (engines_fs env out file (fs st)) HF)
    as [-> ->].
  rewrite !engines_fs_frame by first [artifact_ne | directory_ne].
  split; [reflexivity|]. split; [reflexivity|]. apply placed_metadata.
Qed.

Lemma fast_scan_writes_no_documents_witness :
  fs (snd (process_file fast_params (sample_env sample_files 0)
             "C:\out" 2 sample_file (start sample_fs [])))
    !! cleanPath_of "C:\out" sample_file
  = sample_fs !! cleanPath_of "C:\out" sample_file
  /\ fs (snd (process_file fast_params (sample_env sample_files 0)
                "C:\out" 2 sample_file (start sample_fs [])))
       !! summaryPath_of "C:\out" sample_file
     = sample_fs !! summaryPath_of "C:\out" sample_file
  /\ fs (snd (process_file fast_params (sample_env sample_files 0)
                "C:\out" 2 sample_file (start sample_fs [])))
       !! metadataPath_of "C:\out" sample_file
     = Some (File (ConvertTo_Json (sample_env sample_files 0)
                     (meta fast_params (sample_env sample_files 0) sample_file
                        (Get_DateBucket sample_file)
                        (serviceDir_of "C:\out" sample_file)) +:+ CRLF)).
Proof.
  refine (fast_scan_writes_no_documents fast_params (sample_env sample_files 0)
            "C:\out" 2 sample_file (start sample_fs []) _ _ _).
  - apply pair_of_fst. vm_compute. reflexivity.
  - reflexivity.
Defined.

(** X5: a turn that goes through to its end removes the waveform, unless
    [-KeepAudio] is given; then the waveform that the conversion engine wrote
    stays. *)
Theorem waveform_is_removed_unless_kept p env out total file st st' :
  process_file p env out total file st = (Ret tt, st') ->
  fs st' !! audioPath_of out file
  = if KeepAudio p
    then match wav (ffmpeg env (FullName file)) with
         | Some w => Some (File w)
         | None => fs st !! audioPath_of out file
         end
    else None.
Proof.
  intros Hrun. apply process_file_placed in Hrun. rewrite Hrun.
  rewrite placed_audio, engines_fs_audio. reflexivity.
Qed.

Lemma waveform_is_removed_unless_kept_witness :
  fs (snd (process_file fast_params (sample_env [sample_file] 0)
             "C:\out" 1 sample_file (start sample_fs [])))
    !! audioPath_of "C:\out" sample_file
  = if KeepAudio fast_params
    then match wav (ffmpeg (sample_env [sample_file] 0) (FullName sample_file)) with
         | Some w => Some (File w)
         | None => sample_fs !! audioPath_of "C:\out" sample_file
         end
    else None.
Proof.
  refine (waveform_is_removed_unless_kept fast_params (sample_env [sample_file] 0)
            "C:\out" 1 sample_file (start sample_fs []) _ _).
  apply pair_of_fst. vm_compute. reflexivity.
Defined.

(** X6: a turn in which the recognition engine exits with a code other than
    zero ends at once: the waveform that the conversion engine wrote stays
    in the service directory, whether [-KeepAudio] is given or not, and so
    does whatever the recognition engine wrote beside it. *)
Theorem failed_recognition_leaves_the_waveform p env out total file st r st' :
  process_file p env out total file st = (r, st') ->
  results st'
  = results st ++ [result "error" file (serviceDir_of out file) "whisper"] ->
  r = Continue
  /\ whisper_exit (whisper env (audioPath_of out file)) <> 0%Z
  /\ fs st' !! audioPath_of out file
     = match wav (ffmpeg env (FullName file)) with
       | Some w => Some (File w)
       | None => fs st !! audioPath_of out file
       end
  /\ fs st' !! rawCandidate_of out file
     = match txt (whisper env (audioPath_of out file)) with
       | Some c => Some (File c)
       | None => fs st !! rawCandidate_of out file
       end.
Proof.
  intros Hrun Hres. apply process_file_follows in Hrun.
  inversion Hrun; subst; cbn [results fs] in *;
    try (apply app_inv_head in Hres; discriminate Hres);
    try (symmetry in Hres; rewrite <- (app_nil_r (results st)) in Hres at 2;
         apply app_inv_head in Hres; discriminate Hres).
  fold (engines_fs env out file (fs st)).
  split; [reflexivity|]. split; [assumption|].
  split; [apply engines_fs_audio | apply engines_fs_rawCandidate].
Qed.

Lemma failed_recognition_leaves_the_waveform_witness :
  fst (process_file (sample_params false "" "") (silent_env [sample_file] 3)
         "C:\out" 1 sample_file (start sample_fs [])) = Continue
  /\ whisper_exit (whisper (silent_env [sample_file] 3)
                     (audioPath_of "C:\out" sample_file)) <> 0%Z
  /\ fs (snd (process_file (sample_params false "" "") (silent_env [sample_file] 3)
                "C:\out" 1 sample_file (start sample_fs [])))
       !! audioPath_of "C:\out" sample_file
     = match wav (ffmpeg (silent_env [sample_file] 3) (FullName sample_file)) with
       | Some w => Some (File w)
       | None => sample_fs !! audioPath_of "C:\out" sample_file
       end
  /\ fs (snd (process_file (sample_params false "" "") (silent_env [sample_file] 3)
                "C:\out" 1 sample_file (start sample_fs [])))
       !! rawCandidate_of "C:\out" sample_file
     = match txt (whisper (silent_env [sample_file] 3)
                    (audioPath_of "C:\out" sample_file)) with
       | Some c => Some (File c)
       | None => sample_fs !! rawCandidate_of "C:\out" sample_file
       end.
Proof.
  refine (failed_recognition_leaves_the_waveform
            (sample_params false "" "") (silent_env [sample_file] 3)
            "C:\out" 1 sample_file (start sample_fs []) _ _ _ _).
  - apply surjective_pairing.
  - vm_compute. reflexivity.
Defined.

(** X7: the script does not check that the recognition engine wrote a text.
    When the engine exits with code zero and has written none, and none was
    left beside the waveform, the turn goes through to its end and records
    [ok], and it leaves [raw.txt] as it found it; with [Force] off there is
    no [raw.txt] then, and the documents are built from the empty text. *)
Theorem ok_without_transcript p env out total file st st' :
  process_file p env out total file st = (Ret tt, st') ->
  txt (whisper env (audioPath_of out file)) = None ->
  fs st !! rawCandidate_of out file = None ->
  results st' = results st ++ [result "ok" file (serviceDir_of out file) ""]
  /\ fs st' !! rawPath_of out file = fs st !! rawPath_of out file
  /\ (Force p = false ->
      fs st' !! rawPath_of out file = None
      /\ content_at (fs st') (rawPath_of out file) = "").
Proof.
  intros Hrun Htxt Hstale.
  pose proof (process_file_placed _ _ _ _ _ _ _ Hrun) as Hfs.
  apply process_file_follows in Hrun.
  assert (Hraw : fs st' !! rawPath_of out file = fs st !! rawPath_of out file).
  { rewrite Hfs, placed_raw, engines_fs_rawCandidate, Htxt, Hstale.
    apply engines_fs_frame; first [artifact_ne | directory_ne]. }
  inversion Hrun; subst. cbn [results fs] in *.
  split; [reflexivity|]. split; [exact Hraw|]. intros HF.
  assert (Hnone : fs st !! rawPath_of out file = None).
  { match goal with
    | Hd : already_done _ _ _ _ = false |- _ =>
        unfold already_done in Hd; rewrite HF in Hd;
        rewrite (present_lookup (fs st)) in Hd by apply with_directories_raw;
        unfold present in Hd;
        destruct (fs st !! rawPath_of out file); [discriminate Hd | reflexivity]
    end. }
  unfold content_at. rewrite Hraw, Hnone. split; reflexivity.
Qed.

Lemma ok_without_transcript_witness :
  results (snd (process_file (sample_params false "" "") (silent_env [sample_file] 0)
                  "C:\out" 1 sample_file (start sample_fs [])))
  = [] ++ [result "ok" sample_file (serviceDir_of "C:\out" sample_file) ""]
  /\ fs (snd (process_file (sample_params false "" "") (silent_env [sample_file] 0)
                "C:\out" 1 sample_file (start sample_fs [])))
       !! rawPath_of "C:\out" sample_file
     = sample_fs !! rawPath_of "C:\out" sample_file
  /\ (Force (sample_params false "" "") = false ->
      fs (snd (process_file (sample_params false "" "")
                 (silent_env [sample_file] 0) "C:\out" 1 sample_file
                 (start sample_fs [])))
        !! rawPath_of "C:\out" sample_file = None
      /\ content_at
           (fs (snd (process_file (sample_params false "" "")
                       (silent_env [sample_file] 0) "C:\out" 1 sample_file
                       (start sample_fs []))))
           (rawPath_of "C:\out" sample_file) = "").
Proof.
  refine (ok_without_transcript
            (sample_params false "" "") (silent_env [sample_file] 0)
            "C:\out" 1 sample_file (start sample_fs []) _ _ _ _).
  - apply pair_of_fst. vm_compute. reflexivity.
  - reflexivity.
  - vm_compute. reflexivity.
Defined.

(** X8: once a turn has gone through to its end and the engine has written
    a text, a later turn without [-Force] for the same file, or for another
    file that has the same service directory, does not transcribe again as
    long as [raw.txt] is where the first turn put it: it runs no engine and
    leaves the transcript as it is, and it records [skipped], or
    [skipped-date] when the cutoff of the later run excludes the file. *)
Theorem transcribed_file_is_skipped_next_time
    p env out total file st st' c p2 env2 total2 file2 st2 r2 st2' :
  process_file p env out total file st = (Ret tt, st') ->
  txt (whisper env (audioPath_of out file)) = Some c ->
  serviceDir_of out file2 = serviceDir_of out file ->
  fs st2 !! rawPath_of out file = fs st' !! rawPath_of out file ->
  Force p2 = false ->
  process_file p2 env2 out total2 file2 st2 = (r2, st2') ->
  r2 <> Held ->
  r2 = Continue
  /\ results st2'
     = results st2
       ++ [if cutoff_excludes p2 file2
           then result "skipped-date" file2 "" ""
           else result "skipped" file2 (serviceDir_of out file2) ""]
  /\ fs st2' !! rawPath_of out file = Some (File c)
  /\ exists delta,
       log st2' = log st2 ++ delta
       /\ forallb (fun e => negb (is_run e)) delta = true.
Proof.
  intros Hrun Htxt Hdir Hkept HF Hrun2 Hheld.
  apply process_file_placed in Hrun.
  assert (Hraw : fs st2 !! rawPath_of out file2 = Some (File c)).
  { unfold rawPath_of. rewrite Hdir. fold (rawPath_of out file).
    rewrite Hkept, Hrun, placed_raw, engines_fs_rawCandidate, Htxt.
    reflexivity. }
  assert (Hsame : rawPath_of out file = rawPath_of out file2)
    by (unfold rawPath_of; rewrite Hdir; reflexivity).
  assert (Hdone : already_done p2 out file2 (fs st2) = true).
  { unfold already_done. rewrite HF.
    rewrite (present_lookup (fs st2)) by apply with_directories_raw.
    unfold present. rewrite Hraw. reflexivity. }
  apply process_file_follows in Hrun2.
  inversion Hrun2; subst; try congruence.
  - match goal with Hc : cutoff_excludes _ _ = true |- _ => rewrite Hc end.
    cbn [results fs log]. split; [reflexivity|]. split; [reflexivity|].
    split; [rewrite Hsame; exact Hraw|].
    eexists. split; [reflexivity|].
    rewrite forallb_app, (gate_no_run _ _ _ _ _ H). reflexivity.
  - match goal with Hc : cutoff_excludes _ _ = false |- _ => rewrite Hc end.
    cbn [results fs log]. split; [reflexivity|]. split; [reflexivity|].
    split; [rewrite Hsame, with_directories_raw; exact Hraw|].
    eexists. split; [reflexivity|].
    rewrite forallb_app, (gate_no_run _ _ _ _ _ H). reflexivity.
Qed.

Lemma transcribed_file_is_skipped_next_time_witness :
  let first := process_file (sample_params false "" "") (sample_env sample_files 0)
                 "C:\out" 2 sample_file (start sample_fs []) in
  let again := process_file (sample_params false "" "") (sample_env sample_files 0)
                 "C:\out" 2 sample_file (start (fs (snd first)) []) in
  fst again = Continue
  /\ results (snd again)
     = [] ++ [if cutoff_excludes (sample_params false "" "") sample_file
              then result "skipped-date" sample_file "" ""
              else result "skipped" sample_file
                     (serviceDir_of "C:\out" sample_file) ""]
  /\ fs (snd again) !! rawPath_of "C:\out" sample_file
     = Some (File "Grace and peace. Amen.")
  /\ exists delta,
       log (snd again) = [] ++ delta
       /\ forallb (fun e => negb (is_run e)) delta = true.
Proof.
  refine (transcribed_file_is_skipped_next_time
            (sample_params false "" "") (sample_env sample_files 0)
            "C:\out" 2 sample_file (start sample_fs []) _
            "Grace and peace. Amen."
            (sample_params false "" "") (sample_env sample_files 0) 2 sample_file
            (start (fs (snd (process_file (sample_params false "" "")
                               (sample_env sample_files 0) "C:\out" 2
                               sample_file (start sample_fs [])))) [])
            _ _ _ _ _ _ _ _ _).
  - apply pair_of_fst. vm_compute. reflexivity.
  - reflexivity.
  - reflexivity.
  - rewrite fs_start. reflexivity.
  - reflexivity.
  - apply surjective_pairing.
  - vm_compute. discriminate.
Defined.

(** ** The whole run, step by step *)

Lemma filter_none {A} (P : A -> bool) (l : list A) :
  forallb (fun x => negb (P x)) l = true -> List.filter P l = [].
Proof.
  induction l as [|x l IH]; cbn; [reflexivity|].
  intros [Hx Hl]%andb_prop. apply negb_true_iff in Hx. rewrite Hx. exact (IH Hl).
Qed.

Section Run.

Context (p : Params) (env : Env).

(** An invariant of the turns is an invariant of the loop. *)
Lemma foreach_invariant (I : State -> Prop) out total files :
  (forall file st r st',
     In file files -> I st ->
     process_file p env out total file st = (r, st') -> I st') ->
  forall st r st',
    I st -> foreach files (process_file p env out total) st = (r, st') -> I st'.
Proof.
  induction files as [|file files IH]; intros Hturn st r st' HI Hrun.
  - injection Hrun as <- <-. exact HI.
  - cbn [foreach] in Hrun.
    destruct (process_file p env out total file st) as [r1 st1] eqn:E.
    assert (HI1 : I st1) by (eapply Hturn; [left; reflexivity | exact HI | exact E]).
    assert (Hrest : forall file st r st',
               In file files -> I st ->
               process_file p env out total file st = (r, st') -> I st')
      by (intros; eapply Hturn; [right|..]; eassumption).
    destruct r1; try (injection Hrun as <- <-; exact HI1);
      exact (IH Hrest _ _ _ HI1 Hrun).
Qed.

Lemma prepared_lookup (m : gmap string Node) path :
  path <> Split_Path_Parent (PauseFlagFile p) -> prepared p m !! path = m !! path.
Proof.
  intros H. unfold prepared, prepare_pause_flag, when, start.
  destruct (IsNullOrWhiteSpace (PauseFlagFile p)); cbn [negb]; [reflexivity|].
  unfold bind at 1.
  destruct (IsNullOrWhiteSpace (Split_Path_Parent (PauseFlagFile p))); cbn [negb];
    [reflexivity|].
  rewrite ensure_directory_run. cbn. apply mkdir_lookup_ne, H.
Qed.

Lemma hosts_calm d : forallb is_host d = true -> calm d = true.
Proof.
  unfold calm. apply forallb_impl. intros [] H; try discriminate H; reflexivity.
Qed.

Lemma calm_app d d' : calm (d ++ d') = calm d && calm d'.
Proof. apply forallb_app. Qed.

Lemma calm_runs d : calm d = true -> List.filter is_run d = [].
Proof.
  intros H. apply filter_none. revert H. apply forallb_impl.
  intros e He. apply andb_prop in He as [He _]. apply andb_prop in He as [He _].
  exact He.
Qed.

(** The script after its checks, with what each of its ways leaves: the
    empty run, the run of one file that ends at the test of line 235, the
    run that is held in its loop, and the run whose loop is done, which
    exits with code 1 when the three counts can be taken and ends with the
    error of [.Count] when they cannot. *)
Lemma run_cases f polls r st' :
  batch p env (resolved_input p env) (resolved_output p env)
    {| fs := mkdir (OutputFolder p) f; marker := polls; results := [];
       processed := 0; log := [] |}
  = (r, st') ->
  let out := resolved_output p env in
  let total := Z.of_nat (length (mediaFiles p env)) in
  let m0 := prepared p (mkdir (OutputFolder p) f) in
  exists d0,
    calm d0 = true /\ progress_lines d0 = []
    /\ In (Scan (resolved_input p env) (negb (NoRecursive p))) d0
    /\ ((mediaFiles p env = [] /\ r = Exit 0
         /\ st' = {| fs := m0; marker := polls; results := []; processed := 0;
                     log := d0 ++ [ Host "No media files found.";
                                    Host (progress_line 0 0 "empty" "") ] |})
        \/ (length (mediaFiles p env) = 1 /\ r = Throw Count_message
            /\ st' = {| fs := m0; marker := polls; results := [];
                        processed := 0; log := d0 |})
        \/ (2 <= length (mediaFiles p env)
            /\ exists d1 r2 st2,
                 calm d1 = true
                 /\ progress_lines d1 = [Host (progress_line 0 total "start" "")]
                 /\ foreach (mediaFiles p env) (process_file p env out total)
                      {| fs := m0; marker := polls; results := [];
                         processed := 0; log := d0 ++ d1 |}
                    = (r2, st2)
                 /\ ((r2 = Held /\ r = Held /\ st' = st2)
                     \/ (r2 = Ret tt /\ counted (results st2) = true
                         /\ r = Exit 1
                         /\ st' = {| fs := indexed env out (results st2) (fs st2);
                                     marker := marker st2;
                                     results := results st2;
                                     processed := processed st2;
                                     log := log st2
                                            ++ closing out total (processed st2)
                                                 (results st2) |})
                     \/ (r2 = Ret tt /\ counted (results st2) = false
                         /\ r = Throw Count_message
                         /\ st' = {| fs := indexed env out (results st2) (fs st2);
                                     marker := marker st2;
                                     results := results st2;
                                     processed := processed st2;
                                     log := log st2 |})))).
Proof.
  intros H. cbv zeta. apply batch_cases in H. cbv zeta in H.
  fold (mediaFiles p env) in H.
  destruct H as (d0 & H0 & P0 & H). apply hosts_calm in H0.
  exists (d0 ++ scanning p (resolved_input p env)).
  split; [rewrite calm_app, H0; reflexivity|].
  split; [rewrite progress_lines_app, P0; reflexivity|].
  split; [apply in_or_app; right; cbn; tauto|].
  cbn [app] in H. rewrite <- !app_assoc.
  destruct H as [(He & -> & ->) | [(H1 & -> & ->) | (H2 & d1 & r2 & st2 & Hd1 & P1 & F & H)]].
  - left. repeat split. exact He.
  - right. left. repeat split. exact H1.
  - right. right. split; [exact H2|]. exists d1, r2, st2.
    split; [apply hosts_calm, Hd1|]. split; [exact P1|].
    split; [rewrite <- app_assoc; exact F|].
    destruct H as [(-> & -> & ->) | (-> & H)]; [left; repeat split|].
    right. destruct st2 as [f2 m2 rs2 n2 l2]. rewrite conclude_exact in H.
    cbn [fs marker results processed log].
    destruct (counted rs2); injection H as <- <-;
      [left | right]; repeat split.
Qed.

(** The script is its batch once the checks have passed. *)
Lemma script_batch f polls :
  dependencies_present p env f = true ->
  BeforeDate_accepted (BeforeDate p) = true ->
  script p env (start f polls)
  = batch p env (resolved_input p env) (resolved_output p env)
      {| fs := mkdir (OutputFolder p) f; marker := polls; results := [];
         processed := 0; log := [] |}.
Proof.
  intros Hd Hb. unfold start. rewrite script_checked by exact Hd.
  rewrite Hb. reflexivity.
Qed.

(** *** What a turn records and runs *)

Lemma turn_record out total file f m rs n l r st' :
  file_step p env out total file f m rs n l r st' ->
  r <> Held ->
  exists res, results st' = rs ++ [res] /\ recorded p env out file res.
Proof.
  intros Hstep Hheld. unfold recorded.
  inversion Hstep; subst; try congruence; cbn [results];
    eexists; (split; [reflexivity|]).
  - left. split; [reflexivity | assumption].
  - right. split; [assumption|]. left. split; [reflexivity|].
    match goal with
    | Hd : already_done _ _ _ _ = true |- _ =>
        unfold already_done in Hd; apply andb_prop in Hd as [_ Hd];
        destruct (Force p); [discriminate Hd | reflexivity]
    end.
  - right. split; [assumption|]. right. left. split; [reflexivity | assumption].
  - right. split; [assumption|]. right. right. left.
    split; [reflexivity|]. split; assumption.
  - right. split; [assumption|]. right. right. right.
    split; [reflexivity|]. split; assumption.
Qed.

Lemma gate_runs path ctx m es r :
  gate path ctx m = (es, r) -> List.filter is_run es = [].
Proof. intros G. apply filter_none. exact (gate_no_run _ _ _ _ _ G). Qed.

Lemma turn_runs out total file f m rs n l r st' :
  file_step p env out total file f m rs n l r st' ->
  exists delta,
    log st' = l ++ delta
    /\ engine_runs p out file (List.filter is_run delta).
Proof.
  intros Hstep. unfold engine_runs.
  inversion Hstep; subst; cbn [log]; eexists; (split; [reflexivity|]);
    rewrite ?List.filter_app;
    repeat match goal with
           | G : gate _ _ _ = (?es, _) |- _ =>
               rewrite (gate_runs _ _ _ _ _ G); clear G
           end;
    cbn; auto.
Qed.

Lemma turn_counts out total file f m rs n l st' :
  file_step p env out total file f m rs n l Held st' ->
  results st' = rs /\ processed st' = n.
Proof. intros Hstep. inversion Hstep; subst; split; reflexivity. Qed.

Lemma turn_processed out total file f m rs n l r st' :
  file_step p env out total file f m rs n l r st' ->
  r <> Held -> processed st' = (n + 1)%Z.
Proof. intros H Hheld. inversion H; subst; try congruence; reflexivity. Qed.

(** *** What the loop records and runs *)

(** The loop records the files in their order, up to the file at which it is
    held, if it is held. *)
Lemma foreach_records out total files :
  forall st r st',
    foreach files (process_file p env out total) st = (r, st') ->
    exists rs,
      results st' = results st ++ rs
      /\ Forall2 (recorded p env out) (take (length rs) files) rs
      /\ processed st' = (processed st + Z.of_nat (length rs))%Z
      /\ (r = Ret tt -> length rs = length files)
      /\ (r = Held -> length rs < length files).
Proof.
  induction files as [|file files IH]; intros st r st' Hrun.
  - injection Hrun as <- <-. exists []. rewrite app_nil_r, Z.add_0_r.
    split; [reflexivity|]. split; [constructor|]. split; [reflexivity|].
    split; [reflexivity | intros H; discriminate H].
  - cbn [foreach] in Hrun.
    destruct (process_file p env out total file st) as [r1 st1] eqn:E.
    apply process_file_follows in E.
    destruct (file_step_outcome _ _ _ _ _ _ _ _ _ _ _ _ E) as [-> | Hgo].
    + injection Hrun as <- <-.
      destruct (turn_counts _ _ _ _ _ _ _ _ _ E) as [Hr Hn].
      exists []. rewrite app_nil_r, Z.add_0_r, Hr, Hn. cbn [length take].
      split; [reflexivity|]. split; [constructor|]. split; [reflexivity|].
      split; [intros H; discriminate H | intros _; lia].
    + assert (Hheld : r1 <> Held) by (destruct Hgo as [-> | ->]; discriminate).
      assert (Hrest : foreach files (process_file p env out total) st1 = (r, st'))
        by (destruct Hgo as [-> | ->]; exact Hrun).
      destruct (turn_record _ _ _ _ _ _ _ _ _ _ E Hheld) as (res & Hr1 & Hrec).
      pose proof (turn_processed _ _ _ _ _ _ _ _ _ _ E Hheld) as Hn1.
      destruct (IH _ _ _ Hrest) as (rs & Hr2 & Hall & Hn2 & Hret & Hhold).
      exists (res :: rs). cbn [length take].
      split; [rewrite Hr2, Hr1, <- app_assoc; reflexivity|].
      split; [constructor; assumption|].
      split; [rewrite Hn2, Hn1; lia|].
      split; [intros Hr; rewrite (Hret Hr); reflexivity|].
      intros Hr. specialize (Hhold Hr). lia.
Qed.

Lemma foreach_runs out total files :
  forall st r st',
    foreach files (process_file p env out total) st = (r, st') ->
    exists delta runs,
      log st' = log st ++ delta
      /\ List.filter is_run delta = concat runs
      /\ Forall2 (engine_runs p out) (take (length runs) files) runs
      /\ (r = Ret tt -> length runs = length files).
Proof.
  induction files as [|file files IH]; intros st r st' Hrun.
  - injection Hrun as <- <-. exists [], []. rewrite app_nil_r.
    repeat split. constructor.
  - cbn [foreach] in Hrun.
    destruct (process_file p env out total file st) as [r1 st1] eqn:E.
    apply process_file_follows in E.
    destruct (turn_runs _ _ _ _ _ _ _ _ _ _ E) as (d1 & Hl1 & Hruns1).
    destruct (file_step_outcome _ _ _ _ _ _ _ _ _ _ _ _ E) as [-> | Hgo].
    + injection Hrun as <- <-. exists d1, [List.filter is_run d1].
      split; [exact Hl1|]. cbn [concat length take]. rewrite app_nil_r, take_0.
      split; [reflexivity|]. split; [|intros H; discriminate H].
      constructor; [exact Hruns1 | constructor].
    + assert (Hrest : foreach files (process_file p env out total) st1 = (r, st'))
        by (destruct Hgo as [-> | ->]; exact Hrun).
      destruct (IH _ _ _ Hrest) as (d2 & runs & Hl2 & Hf & Hall & Hlen).
      exists (d1 ++ d2), (List.filter is_run d1 :: runs).
      split; [rewrite Hl2, Hl1, app_assoc; reflexivity|].
      split; [rewrite List.filter_app, Hf; reflexivity|].
      split; [cbn [length take]; constructor; assumption|].
      intros Hr. cbn [length]. rewrite (Hlen Hr). reflexivity.
Qed.

(** *** The run whose loop is done *)

Lemma run_done f polls r st' :
  script p env (start f polls) = (r, st') ->
  loop_done p env f r ->
  let out := resolved_output p env in
  let total := Z.of_nat (length (mediaFiles p env)) in
  exists d0 d1 st2,
    calm d0 = true /\ progress_lines d0 = []
    /\ calm d1 = true
    /\ progress_lines d1 = [Host (progress_line 0 total "start" "")]
    /\ foreach (mediaFiles p env) (process_file p env out total)
         {| fs := prepared p (mkdir (OutputFolder p) f); marker := polls;
            results := []; processed := 0; log := d0 ++ d1 |}
       = (Ret tt, st2)
    /\ fs st' = indexed env out (results st2) (fs st2)
    /\ marker st' = marker st2
    /\ results st' = results st2
    /\ processed st' = processed st2
    /\ r = (if counted (results st2) then Exit 1 else Throw Count_message)
    /\ log st' = log st2
                 ++ (if counted (results st2)
                     then closing out total (processed st2) (results st2)
                     else []).
Proof.
  intros H (Hd & Hb & H2 & Hheld). cbv zeta.
  rewrite script_batch in H by assumption. apply run_cases in H. cbv zeta in H.
  destruct H as (d0 & H0 & P0 & _ & H).
  destruct H as [(He & _) | [(H1 & _) | (_ & d1 & r2 & st2 & Hd1 & P1 & F & H)]];
    [rewrite He in H2; cbn in H2; lia | lia |].
  destruct H as [(_ & -> & _) | [(-> & Hc & -> & ->) | (-> & Hc & -> & ->)]];
    [congruence | |];
    exists d0, d1, st2; rewrite Hc; cbn [fs marker results processed log];
    rewrite ?app_nil_r; repeat split; assumption.
Qed.

End Run.

(** ** The results of a run *)

Lemma recorded_status p env out file r :
  recorded p env out file r ->
  Source r = FullName file
  /\ (Status r = "ok" \/ Status r = "error" \/ Status r = "skipped"
      \/ Status r = "skipped-date").
Proof.
  unfold recorded.
  intros [[-> _] | [_ [[-> _] | [[-> _] | [[-> _] | [-> _]]]]]];
    cbn [result Status Source]; auto 6.
Qed.

(** The results of a run, whatever its outcome. *)
Lemma run_records p env f polls r st' :
  script p env (start f polls) = (r, st') ->
  Forall2 (recorded p env (resolved_output p env))
    (take (length (results st')) (mediaFiles p env)) (results st')
  /\ processed st' = Z.of_nat (length (results st'))
  /\ (r = Held -> length (results st') < length (mediaFiles p env)).
Proof.
  intros H. apply script_cases in H.
  destruct H as [[-> ->] | [(msg & -> & _ & ->) | (_ & _ & H)]];
    [repeat split; try constructor; intros H; discriminate H ..|].
  apply run_cases in H. cbv zeta in H. destruct H as (d0 & _ & _ & _ & H).
  destruct H as [(_ & -> & ->) | [(_ & -> & ->) | (_ & d1 & r2 & st2 & _ & _ & F & H)]];
    [repeat split; try constructor; intros H; discriminate H ..|].
  apply foreach_records in F.
  destruct F as (rs & Hr & Hall & Hn & _ & Hhold).
  cbn [results processed app] in Hr, Hn. subst rs.
  destruct H as [(-> & -> & ->) | [(_ & _ & -> & ->) | (_ & _ & -> & ->)]];
    cbn [results processed]; (split; [exact Hall|]); (split; [lia|]);
    first [exact (fun _ => Hhold eq_refl) | intros H; discriminate H].
Qed.

(** X9: whatever the outcome of a run, its results are those of the first
    files of the candidate list, one for each and in the order of the list,
    and each result tells what the script found: [skipped-date] with no
    output folder when the cutoff filter excludes the file; otherwise, with
    the service directory as the output folder, [skipped] when [-Force] is
    off, [error] with the reason [ffmpeg] when the conversion engine exits
    with a code other than zero, [error] with the reason [whisper] when the
    recognition engine does after a conversion that exits with zero, and
    [ok] when both exit with zero.  A run whose loop is done has a result
    for every file of the list. *)
Theorem every_file_gets_its_result p env files polls r st' :
  script p env (start files polls) = (r, st') ->
  Forall2 (recorded p env (resolved_output p env))
    (take (length (results st')) (mediaFiles p env)) (results st')
  /\ (loop_done p env files r ->
      length (results st') = length (mediaFiles p env)).
Proof.
  intros H. split; [exact (proj1 (run_records _ _ _ _ _ _ H))|].
  intros Hdone. apply run_done in H; [|exact Hdone]. cbv zeta in H.
  destruct H as (d0 & d1 & st2 & _ & _ & _ & _ & F & _ & _ & -> & _).
  apply foreach_records in F. destruct F as (rs & Hr & _ & _ & Hlen & _).
  cbn [results app] in Hr. subst rs. apply Hlen. reflexivity.
Qed.

Lemma every_file_gets_its_result_witness :
  Forall2 (recorded (sample_params false "" "") six_env
             (resolved_output (sample_params false "" "") six_env))
    (take (length (results (snd (script (sample_params false "" "") six_env
                                   (start six_fs [])))))
       (mediaFiles (sample_params false "" "") six_env))
    (results (snd (script (sample_params false "" "") six_env (start six_fs []))))
  /\ (loop_done (sample_params false "" "") six_env six_fs
        (fst (script (sample_params false "" "") six_env (start six_fs []))) ->
      length (results (snd (script (sample_params false "" "") six_env
                              (start six_fs []))))
      = length (mediaFiles (sample_params false "" "") six_env)).
Proof.
  apply (every_file_gets_its_result (sample_params false "" "") six_env six_fs []).
  apply surjective_pairing.
Defined.

Example six_results :
  results (snd (script (sample_params false "" "") six_env (start six_fs [])))
  = [ result "ok" (file_named "2024-03-03_Evening" ".mp4" july4)
        "C:\out\2024-03-03\2024-03-03-evening" "";
      result "ok" (file_named "2024-03-03_Morning" ".mp4" july4)
        "C:\out\2024-03-03\2024-03-03-morning" "";
      result "error" (file_named "2024-03-10_Broken" ".mp4" july4)
        "C:\out\2024-03-10\2024-03-10-broken" "ffmpeg";
      result "error" (file_named "2024-03-17_Broken" ".mp4" july4)
        "C:\out\2024-03-17\2024-03-17-broken" "ffmpeg";
      result "skipped" (file_named "2024-03-24_Done" ".mp3" july4)
        "C:\out\2024-03-24\2024-03-24-done" "";
      result "skipped" (file_named "2024-03-31_Done" ".mp3" july4)
        "C:\out\2024-03-31\2024-03-31-done" "" ].
Proof. vm_compute. reflexivity. Qed.

Lemma tally_cons s r rs :
  tally s (r :: rs) = (if decide (Status r = s) then 1 else 0) + tally s rs.
Proof.
  unfold tally. rewrite filter_cons.
  destruct (decide (Status r = s)); reflexivity.
Qed.


Lemma counted_tallies rs :
  counted rs = true ->
  2 <= tally "ok" rs /\ 2 <= tally "error" rs /\ 2 <= tally "skipped" rs.
Proof.
  unfold counted. intros H. apply andb_prop in H as [H Hsk].
  apply andb_prop in H as [Hok Herr].
  apply Nat.leb_le in Hok, Herr, Hsk. repeat split; assumption.
Qed.



Example six_last_lines :
  closing "C:\out" 6 6
    (results (snd (script (sample_params false "" "") six_env (start six_fs []))))
  = [ Host "";
      Host "[progress] done=6 total=6 status=complete";
      Host "Done. ok=2 error=2 skipped=2";
      Host "Index: C:\out\INDEX.md" ].
Proof. vm_compute. reflexivity. Qed.

(** A result of status [error] comes from an engine that failed. *)
Lemma error_recorded p env out files rs :
  Forall2 (recorded p env out) files rs ->
  1 <= tally "error" rs ->
  exists file,
    In file files
    /\ cutoff_excludes p file = false
    /\ (ffmpeg_exit (ffmpeg env (FullName file)) <> 0%Z
        \/ whisper_exit (whisper env (audioPath_of out file)) <> 0%Z).
Proof.
  induction 1 as [|file r fl rs Hr _ IH]; [cbn; lia|].
  rewrite tally_cons. destruct (decide (Status r = "error")) as [He|He].
  - intros _. exists file. split; [left; reflexivity|]. unfold recorded in Hr.
    destruct Hr as [[-> _] | [Hcut [[-> _] | [[-> Hf] | [[-> [_ Hw]] | [-> _]]]]]];
      try discriminate He; split; auto.
  - cbn [plus]. intros Ht. destruct (IH Ht) as (file' & Hin & Hcut & Hex).
    exists file'. split; [right; exact Hin | split; assumption].
Qed.

(** X11: the exit codes of the script.  A run exits with code 0 only when
    the scan finds no media file, and with code 1 only after its loop, when
    each of the statuses [ok], [error] and [skipped] has two results or
    more; there is then a candidate file that the cutoff filter does not
    exclude and on which the conversion engine, or after it the recognition
    engine, exits with a code other than zero.  The script has no other
    exit code. *)
Theorem error_exit_means_an_engine_failed p env files polls c st' :
  script p env (start files polls) = (Exit c, st') ->
  (c = 0%Z /\ mediaFiles p env = [] /\ results st' = [])
  \/ (c = 1%Z
      /\ length (results st') = length (mediaFiles p env)
      /\ counted (results st') = true
      /\ exists file,
           In file (mediaFiles p env)
           /\ cutoff_excludes p file = false
           /\ (ffmpeg_exit (ffmpeg env (FullName file)) <> 0%Z
               \/ whisper_exit
                    (whisper env (audioPath_of (resolved_output p env) file))
                  <> 0%Z)).
Proof.
  intros H. apply script_cases in H.
  destruct H as [[Hr _] | [(msg & Hr & _) | (_ & _ & H)]];
    [discriminate Hr | discriminate Hr |].
  apply run_cases in H. cbv zeta in H. destruct H as (d0 & _ & _ & _ & H).
  destruct H as [(He & [= <-] & ->) | [(_ & Hr & _) | (_ & d1 & r2 & st2 & _ & _ & F & H)]];
    [left; repeat split; exact He | discriminate Hr |].
  destruct H as [(_ & Hr & _) | [(-> & Hc & [= <-] & ->) | (_ & _ & Hr & _)]];
    [discriminate Hr | | discriminate Hr].
  right. split; [reflexivity|].
  apply foreach_records in F. destruct F as (rs & Hr & Hall & _ & Hlen & _).
  cbn [results app] in *. subst rs. specialize (Hlen eq_refl).
  split; [exact Hlen|]. split; [exact Hc|].
  rewrite Hlen, take_ge in Hall by lia.
  destruct (counted_tallies _ Hc) as (_ & Herr & _).
  apply (error_recorded _ _ _ _ _ Hall). lia.
Qed.

Lemma error_exit_means_an_engine_failed_witness :
  (1%Z = 0%Z /\ mediaFiles (sample_params false "" "") six_env = []
   /\ results (snd (script (sample_params false "" "") six_env (start six_fs [])))
      = [])
  \/ (1%Z = 1%Z
      /\ length (results (snd (script (sample_params false "" "") six_env
                                 (start six_fs []))))
         = length (mediaFiles (sample_params false "" "") six_env)
      /\ counted (results (snd (script (sample_params false "" "") six_env
                                  (start six_fs [])))) = true
      /\ exists file,
           In file (mediaFiles (sample_params false "" "") six_env)
           /\ cutoff_excludes (sample_params false "" "") file = false
           /\ (ffmpeg_exit (ffmpeg six_env (FullName file)) <> 0%Z
               \/ whisper_exit
                    (whisper six_env
                       (audioPath_of
                          (resolved_output (sample_params false "" "") six_env)
                          file))
                  <> 0%Z)).
Proof.
  apply (error_exit_means_an_engine_failed (sample_params false "" "") six_env
           six_fs [] 1%Z).
  apply pair_of_fst. vm_compute. reflexivity.
Defined.

Lemma skips_recorded p env out files rs :
  Forall2 (recorded p env out) files rs ->
  forall res,
    In res rs ->
    (Status res = "skipped" -> Force p = false)
    /\ (Status res = "skipped-date" ->
        IsNullOrWhiteSpace (BeforeDate p) = false
        /\ exists file,
             In file files /\ Source res = FullName file
             /\ String_gt (Get_DateBucket file) (BeforeDate p) = true).
Proof.
  induction 1 as [|file r0 fl rs Hr _ IH]; intros res Hin; [destruct Hin|].
  destruct Hin as [<- | Hin].
  - unfold recorded in Hr.
    destruct Hr as [[-> Hcut] | [Hcut [[-> HF] | [[-> _] | [[-> _] | [-> _]]]]]];
      cbn [result Status Source]; (split; [intros E | intros E]);
      try discriminate E; try assumption.
    unfold cutoff_excludes in Hcut. apply andb_prop in Hcut as [Hb Hgt].
    apply negb_true_iff in Hb. split; [exact Hb|].
    exists file. split; [left; reflexivity|]. split; [reflexivity | exact Hgt].
  - destruct (IH res Hin) as [H1 H2]. split; [exact H1|].
    intros E. destruct (H2 E) as (Hb & file' & Hin' & Hs & Hgt).
    split; [exact Hb|]. exists file'. split; [right; exact Hin'|].
    split; assumption.
Qed.

(** X12: the two kinds of skip need their switch.  In any run, a result
    with the status [skipped] means that [-Force] is off, and a result with
    the status [skipped-date] means that a cutoff date is given and that the
    date bucket of the file is after it; so with [-Force] no file is skipped
    as done, and without a cutoff no file is skipped by date. *)
Theorem skips_need_their_switch p env files polls r st' :
  script p env (start files polls) = (r, st') ->
  forall res,
    In res (results st') ->
    (Status res = "skipped" -> Force p = false)
    /\ (Status res = "skipped-date" ->
        IsNullOrWhiteSpace (BeforeDate p) = false
        /\ exists file,
             In file (mediaFiles p env) /\ Source res = FullName file
             /\ String_gt (Get_DateBucket file) (BeforeDate p) = true).
Proof.
  intros H res Hin. apply run_records in H as (H & _ & _).
  destruct (skips_recorded _ _ _ _ _ H res Hin) as [H1 H2].
  split; [exact H1|]. intros E.
  destruct (H2 E) as (Hb & file & Hf & Hs & Hgt).
  split; [exact Hb|]. exists file. split; [|split; assumption].
  rewrite <- (take_drop (length (results st')) (mediaFiles p env)).
  apply in_or_app. left. exact Hf.
Qed.

Lemma skips_need_their_switch_witness :
  (Status (result "skipped-date" later_file "" "") = "skipped" ->
   Force (sample_params false "2024-01-01" "") = false)
  /\ (Status (result "skipped-date" later_file "" "") = "skipped-date" ->
      IsNullOrWhiteSpace (BeforeDate (sample_params false "2024-01-01" "")) = false
      /\ exists file,
           In file (mediaFiles (sample_params false "2024-01-01" "")
                      (sample_env sample_files 0))
           /\ Source (result "skipped-date" later_file "" "") = FullName file
           /\ String_gt (Get_DateBucket file)
                (BeforeDate (sample_params false "2024-01-01" "")) = true).
Proof.
  refine (skips_need_their_switch (sample_params false "2024-01-01" "")
            (sample_env sample_files 0) sample_fs_done [] _ _
            _ (result "skipped-date" later_file "" "") _).
  - apply surjective_pairing.
  - vm_compute. right. left. reflexivity.
Defined.

(** A run that has passed its checks has scanned the input folder. *)
Lemma checked_run_scans p env f polls r st' :
  script p env (start f polls) = (r, st') ->
  dependencies_present p env f = true ->
  BeforeDate_accepted (BeforeDate p) = true ->
  In (Scan (resolved_input p env) (negb (NoRecursive p))) (log st').
Proof.
  intros H Hd Hb. rewrite script_batch in H by assumption.
  apply batch_scans in H as (_ & d & -> & Hin). exact Hin.
Qed.

(** X13: the engines run file by file and in their order.  The engine
    invocations of a run are, for each file of the candidate list in turn,
    none, or the conversion of the file, or the conversion of the file
    followed by the recognition of its waveform: the recognition engine
    never runs on a file before the conversion engine has run on it, and no
    engine runs twice on a file.  A run that exits, and a run whose loop is
    done, have gone through all the files; a run that throws at one of its
    checks has run no engine. *)
Theorem engines_run_in_order p env files polls r st' :
  script p env (start files polls) = (r, st') ->
  exists runs,
    List.filter is_run (log st') = concat runs
    /\ Forall2 (engine_runs p (resolved_output p env))
         (take (length runs) (mediaFiles p env)) runs
    /\ (forall c, r = Exit c -> length runs = length (mediaFiles p env))
    /\ (loop_done p env files r -> length runs = length (mediaFiles p env))
    /\ (forall msg, r = Throw msg -> msg <> Count_message -> runs = []).
Proof.
  intros H. pose proof H as Hrun. apply script_cases in H.
  destruct H as [[-> ->] | [(msg & -> & _ & ->) | (Hd & Hb & H)]].
  - exists []. split; [reflexivity|]. split; [constructor|].
    split; [intros c Hc; discriminate Hc|]. split; [|reflexivity].
    intros (Hd & Hb & _). destruct (checked_run_scans _ _ _ _ _ _ Hrun Hd Hb).
  - exists []. split; [reflexivity|]. split; [constructor|].
    split; [intros c Hc; discriminate Hc|]. split; [|reflexivity].
    intros (Hd & Hb & _). destruct (checked_run_scans _ _ _ _ _ _ Hrun Hd Hb).
  - apply run_cases in H. cbv zeta in H.
    destruct H as (d0 & H0 & _ & _ & H). apply calm_runs in H0.
    destruct H as [(He & -> & ->) | [(H1 & -> & ->) | (H2 & d1 & r2 & st2 & Hd1 & _ & F & H)]].
    + exists []. rewrite He. cbn [log]. rewrite List.filter_app, H0.
      split; [reflexivity|]. split; [constructor|].
      split; [reflexivity|].
      split; [intros (_ & _ & Hlen & _); rewrite He in Hlen; cbn in Hlen; lia|].
      reflexivity.
    + exists []. cbn [log]. rewrite H0.
      split; [reflexivity|]. split; [constructor|].
      split; [intros c Hc; discriminate Hc|].
      split; [intros (_ & _ & Hlen & _); lia | reflexivity].
    + apply calm_runs in Hd1. apply foreach_runs in F.
      destruct F as (delta & runs & Hl & Hf & Hall & Hlen).
      cbn [log] in Hl. exists runs.
      destruct H as [(-> & -> & ->) | [(-> & _ & -> & ->) | (-> & _ & -> & ->)]];
        cbn [log]; rewrite Hl, ?List.filter_app, H0, Hd1, Hf; cbn [app];
        rewrite ?app_nil_r.
      * split; [reflexivity|]. split; [exact Hall|].
        split; [intros c Hc; discriminate Hc|].
        split; [intros (_ & _ & _ & Hh); congruence|].
        intros msg Hm. discriminate Hm.
      * split; [reflexivity|]. split; [exact Hall|].
        split; [intros _ _; apply Hlen; reflexivity|].
        split; [intros _; apply Hlen; reflexivity|].
        intros msg Hm. discriminate Hm.
      * split; [reflexivity|]. split; [exact Hall|].
        split; [intros c Hc; discriminate Hc|].
        split; [intros _; apply Hlen; reflexivity|].
        intros msg [= <-] Hne. congruence.
Qed.

Lemma engines_run_in_order_witness :
  exists runs,
    List.filter is_run
      (log (snd (script (sample_params false "" "") six_env (start six_fs []))))
    = concat runs
    /\ Forall2 (engine_runs (sample_params false "" "")
                  (resolved_output (sample_params false "" "") six_env))
         (take (length runs) (mediaFiles (sample_params false "" "") six_env))
         runs
    /\ (forall c,
          fst (script (sample_params false "" "") six_env (start six_fs []))
          = Exit c ->
          length runs = length (mediaFiles (sample_params false "" "") six_env))
    /\ (loop_done (sample_params false "" "") six_env six_fs
          (fst (script (sample_params false "" "") six_env (start six_fs []))) ->
        length runs = length (mediaFiles (sample_params false "" "") six_env))
    /\ (forall msg,
          fst (script (sample_params false "" "") six_env (start six_fs []))
          = Throw msg ->
          msg <> Count_message -> runs = []).
Proof.
  apply (engines_run_in_order (sample_params false "" "") six_env six_fs []).
  apply surjective_pairing.
Defined.

(** X14: a run whose loop is done writes the index, whether it then exits or
    ends at the counts: the index has its six lines of heading and then one
    row for each result of the run, in the order of the results, which is
    the order of the candidate list. *)
Theorem index_lists_every_result p env files polls r st' :
  script p env (start files polls) = (r, st') ->
  loop_done p env files r ->
  fs st' !! indexPath_of (resolved_output p env)
  = Some (File (join_lines (index_lines env (results st')) +:+ CRLF))
  /\ drop 6 (index_lines env (results st')) = map index_row (results st')
  /\ map Source (results st') = map FullName (mediaFiles p env).
Proof.
  intros H Hdone.
  destruct (every_file_gets_its_result _ _ _ _ _ _ H) as [Hrec Hlen].
  specialize (Hlen Hdone). rewrite Hlen, take_ge in Hrec by lia.
  apply run_done in H; [|exact Hdone]. cbv zeta in H.
  destruct H as (d0 & d1 & st2 & _ & _ & _ & _ & _ & Hfs & _ & Hres & _).
  rewrite Hfs, <- Hres. unfold indexed.
  split; [apply lookup_insert_eq|]. split; [reflexivity|].
  clear -Hrec. induction Hrec as [|file res fl rs Hr _ IH]; [reflexivity|].
  cbn [map]. apply recorded_status in Hr as [-> _]. f_equal. exact IH.
Qed.

Lemma index_lists_every_result_witness :
  fs (snd (script (sample_params false "" "") six_env (start six_fs [])))
    !! indexPath_of (resolved_output (sample_params false "" "") six_env)
  = Some (File (join_lines
                  (index_lines six_env
                     (results (snd (script (sample_params false "" "") six_env
                                      (start six_fs [])))))
                +:+ CRLF))
  /\ drop 6 (index_lines six_env
               (results (snd (script (sample_params false "" "") six_env
                                (start six_fs [])))))
     = map index_row
         (results (snd (script (sample_params false "" "") six_env
                          (start six_fs []))))
  /\ map Source
       (results (snd (script (sample_params false "" "") six_env
                        (start six_fs []))))
     = map FullName (mediaFiles (sample_params false "" "") six_env).
Proof.
  refine (index_lists_every_result (sample_params false "" "") six_env six_fs []
            _ _ _ _).
  - apply surjective_pairing.
  - repeat split; [vm_compute; lia | vm_compute; discriminate].
Defined.

Example sample_index :
  content_at
    (fs (snd (script (sample_params false "" "") (sample_env sample_files 0)
                (start sample_fs []))))
    "C:\out\INDEX.md"
  = join_lines
      [ "# Transcript Index"; ""; "Generated: 2026-01-01T00:00:00.0000000Z"; "";
        "| Status | Source | Transcript Folder |"; "|---|---|---|";
        "| ok | $(@{Status=ok; Source=C:\in\2024-02-01_Service.mp4; Output=C:\out\2024-02-01\2024-02-01-service}.Source) | $(@{Status=ok; Source=C:\in\2024-02-01_Service.mp4; Output=C:\out\2024-02-01\2024-02-01-service}.Output) |";
        "| ok | $(@{Status=ok; Source=C:\in\2024-02-08_Service.mp4; Output=C:\out\2024-02-08\2024-02-08-service}.Source) | $(@{Status=ok; Source=C:\in\2024-02-08_Service.mp4; Output=C:\out\2024-02-08\2024-02-08-service}.Output) |";
        "" ].
Proof. vm_compute. reflexivity. Qed.

(** X15: when the scan finds no media file, a run that has passed its
    checks exits at once with code 0: it records nothing, writes no index,
    runs no engine and does not look at the pause marker, even when a pause
    flag is given and the marker is set; its only progress line is that of
    the empty run. *)
Theorem empty_run_exits_at_once p env files polls :
  dependencies_present p env files = true ->
  BeforeDate_accepted (BeforeDate p) = true ->
  mediaFiles p env = [] ->
  exists st',
    script p env (start files polls) = (Exit 0, st')
    /\ fs st' = prepared p (mkdir (OutputFolder p) files)
    /\ marker st' = polls
    /\ results st' = []
    /\ calm (log st') = true
    /\ progress_lines (log st') = [Host (progress_line 0 0 "empty" "")].
Proof.
  intros Hd Hb He. rewrite script_batch by assumption.
  destruct (batch p env (resolved_input p env) (resolved_output p env)
              {| fs := mkdir (OutputFolder p) files; marker := polls;
                 results := []; processed := 0; log := [] |}) as [r st'] eqn:E.
  apply run_cases in E. cbv zeta in E.
  destruct E as (d0 & H0 & P0 & _ & H).
  destruct H as [(_ & -> & ->) | [(H1 & _) | (H2 & _)]];
    [|rewrite He in *; cbn in *; lia ..].
  eexists. split; [reflexivity|]. cbn [fs marker results log].
  repeat split.
  - rewrite calm_app, H0. reflexivity.
  - rewrite progress_lines_app, P0. reflexivity.
Qed.

Lemma empty_run_exits_at_once_witness :
  exists st',
    script (sample_params false "" "C:\out\pause.flag") (sample_env [] 0)
      (start sample_fs [true; true])
    = (Exit 0, st')
    /\ fs st' = prepared (sample_params false "" "C:\out\pause.flag")
                  (mkdir (OutputFolder (sample_params false "" "C:\out\pause.flag"))
                     sample_fs)
    /\ marker st' = [true; true]
    /\ results st' = []
    /\ calm (log st') = true
    /\ progress_lines (log st') = [Host (progress_line 0 0 "empty" "")].
Proof.
  apply (empty_run_exits_at_once (sample_params false "" "C:\out\pause.flag")
           (sample_env [] 0) sample_fs [true; true]).
  - vm_compute. reflexivity.
  - reflexivity.
  - reflexivity.
Defined.

(** X16: a run that throws at one of its five checks, that is with an error
    other than that of [.Count], has done nothing but, at most, make the
    output folder: it has printed nothing, scanned nothing, run no engine
    and recorded nothing.  When the input folder is missing the file system
    is as it was; the checks of the two engines, of the model and of the
    cutoff date come after the output folder is made. *)
Theorem rejected_run_does_nothing p env files polls msg st' :
  script p env (start files polls) = (Throw msg, st') ->
  msg <> Count_message ->
  log st' = [] /\ results st' = [] /\ marker st' = polls
  /\ ((msg = "Input folder not found: " +:+ InputFolder p /\ fs st' = files)
      \/ (In msg (later_messages p)
          /\ fs st' = mkdir (OutputFolder p) files)).
Proof.
  intros H Hmsg. apply script_cases in H.
  destruct H as [[[= ->] ->] | [(msg' & [= ->] & Hin & ->) | (_ & _ & H)]].
  - repeat split. left. split; reflexivity.
  - repeat split. right. split; [exact Hin | reflexivity].
  - apply run_cases in H. cbv zeta in H. destruct H as (d0 & _ & _ & _ & H).
    destruct H as [(_ & Hr & _) | [(_ & Hr & _) | (_ & d1 & r2 & st2 & _ & _ & _ & H)]];
      [discriminate Hr | congruence |].
    destruct H as [(_ & Hr & _) | [(_ & _ & Hr & _) | (_ & _ & Hr & _)]];
      [discriminate Hr | discriminate Hr | congruence].
Qed.

Lemma rejected_run_does_nothing_witness :
  log (snd (script (sample_params false "" "") (sample_env sample_files 0)
              (start bare_fs []))) = []
  /\ results (snd (script (sample_params false "" "") (sample_env sample_files 0)
                     (start bare_fs []))) = []
  /\ marker (snd (script (sample_params false "" "") (sample_env sample_files 0)
                    (start bare_fs []))) = []
  /\ (("Model file not found: C:\models\ggml-small.en.bin"
       = "Input folder not found: " +:+ InputFolder (sample_params false "" "")
       /\ fs (snd (script (sample_params false "" "") (sample_env sample_files 0)
                     (start bare_fs []))) = bare_fs)
      \/ (In "Model file not found: C:\models\ggml-small.en.bin"
            (later_messages (sample_params false "" ""))
          /\ fs (snd (script (sample_params false "" "")
                        (sample_env sample_files 0) (start bare_fs [])))
             = mkdir (OutputFolder (sample_params false "" "")) bare_fs)).
Proof.
  apply (rejected_run_does_nothing (sample_params false "" "")
           (sample_env sample_files 0) bare_fs []).
  - apply pair_of_fst. vm_compute. reflexivity.
  - vm_compute. discriminate.
Defined.

(** ** A run without a pause flag *)

Section NoFlag.

Context (p : Params) (env : Env).
Context (Hflag : IsNullOrWhiteSpace (PauseFlagFile p) = true).

Lemma never_waits_app d d' : never_waits (d ++ d') = never_waits d && never_waits d'.
Proof. apply forallb_app. Qed.

Lemma calm_never_waits d : calm d = true -> never_waits d = true.
Proof.
  apply forallb_impl. intros e He.
  apply andb_prop in He as [He Hs]. apply andb_prop in He as [_ Hp].
  rewrite Hp, Hs. reflexivity.
Qed.

(** Without a pause flag a turn is not held, does not look at the marker
    and does not sleep. *)
Lemma turn_without_flag out total file f m rs n l r st' :
  file_step p env out total file f m rs n l r st' ->
  r <> Held /\ marker st' = m
  /\ exists delta, log st' = l ++ delta /\ never_waits delta = true.
Proof.
  intros Hstep.
  inversion Hstep; subst;
    repeat match goal with
           | G : gate (PauseFlagFile p) _ _ = _ |- _ =>
               rewrite (gate_without_flag _ _ _ Hflag) in G;
               first [discriminate G | injection G as <- <-]
           end;
    (split; [discriminate|]); (split; [reflexivity|]);
    cbn [log]; eexists; (split; [reflexivity|]); reflexivity.
Qed.

Lemma foreach_without_flag out total files :
  forall st r st',
    foreach files (process_file p env out total) st = (r, st') ->
    r = Ret tt /\ marker st' = marker st
    /\ exists delta, log st' = log st ++ delta /\ never_waits delta = true.
Proof.
  induction files as [|file files IH]; intros st r st' Hrun.
  - injection Hrun as <- <-. repeat split. exists []. rewrite app_nil_r.
    split; reflexivity.
  - cbn [foreach] in Hrun.
    destruct (process_file p env out total file st) as [r1 st1] eqn:E.
    apply process_file_follows in E.
    destruct (turn_without_flag _ _ _ _ _ _ _ _ _ _ E)
      as (Hheld & Hm & d1 & Hl1 & Hw1).
    destruct (file_step_outcome _ _ _ _ _ _ _ _ _ _ _ _ E) as [-> | Hgo];
      [congruence|].
    assert (Hrest : foreach files (process_file p env out total) st1 = (r, st'))
      by (destruct Hgo as [-> | ->]; exact Hrun).
    destruct (IH _ _ _ Hrest) as (-> & Hm2 & d2 & Hl2 & Hw2).
    split; [reflexivity|]. split; [congruence|].
    exists (d1 ++ d2). split; [rewrite Hl2, Hl1, app_assoc; reflexivity|].
    rewrite never_waits_app, Hw1, Hw2. reflexivity.
Qed.

End NoFlag.

(** X17: without a pause flag a run that has passed its checks is never
    held: it ends, by an exit or by the error of [.Count], it has not looked
    at the pause marker, and it has not slept. *)
Theorem run_without_flag_is_not_held p env files polls :
  IsNullOrWhiteSpace (PauseFlagFile p) = true ->
  dependencies_present p env files = true ->
  BeforeDate_accepted (BeforeDate p) = true ->
  exists r st',
    script p env (start files polls) = (r, st')
    /\ ((exists c, r = Exit c) \/ r = Throw Count_message)
    /\ marker st' = polls
    /\ never_waits (log st') = true.
Proof.
  intros Hflag Hd Hb. rewrite script_batch by assumption.
  destruct (batch p env (resolved_input p env) (resolved_output p env)
              {| fs := mkdir (OutputFolder p) files; marker := polls;
                 results := []; processed := 0; log := [] |}) as [r st'] eqn:E.
  exists r, st'. split; [reflexivity|].
  apply run_cases in E. cbv zeta in E. destruct E as (d0 & H0 & _ & _ & H).
  apply calm_never_waits in H0.
  destruct H as [(_ & -> & ->) | [(_ & -> & ->) | (_ & d1 & r2 & st2 & H1 & _ & F & H)]].
  - split; [left; eexists; reflexivity|]. split; [reflexivity|].
    cbn [log]. rewrite never_waits_app, H0. reflexivity.
  - split; [right; reflexivity|]. split; [reflexivity | exact H0].
  - apply calm_never_waits in H1.
    apply (foreach_without_flag p env Hflag) in F.
    destruct F as (-> & Hm & delta & Hl & Hw). cbn [marker log] in *.
    destruct H as [(Hr & _) | [(_ & _ & -> & ->) | (_ & _ & -> & ->)]];
      [discriminate Hr | |]; cbn [marker log].
    + split; [left; eexists; reflexivity|]. split; [exact Hm|].
      rewrite Hl, !never_waits_app, H0, H1, Hw. reflexivity.
    + split; [right; reflexivity|]. split; [exact Hm|].
      rewrite Hl, !never_waits_app, H0, H1, Hw. reflexivity.
Qed.

Lemma run_without_flag_is_not_held_witness :
  exists r st',
    script (sample_params false "" "") (sample_env sample_files 0)
      (start sample_fs [true; true])
    = (r, st')
    /\ ((exists c, r = Exit c) \/ r = Throw Count_message)
    /\ marker st' = [true; true]
    /\ never_waits (log st') = true.
Proof.
  apply (run_without_flag_is_not_held (sample_params false "" "")
           (sample_env sample_files 0) sample_fs [true; true]).
  - reflexivity.
  - vm_compute. reflexivity.
  - reflexivity.
Defined.

(** ** What a run leaves alone *)



(** ** A run of one file *)

(** X30: when the scan finds exactly one media file, a run that has passed
    its checks ends at the test of line 235, with the error of a reference
    to [.Count] on a single [FileInfo]: it has scanned the folder, and it
    has not entered its loop; it has recorded nothing, run no engine, looked
    at no marker and printed no progress line, and the process ends with
    code 1. *)
Theorem single_media_file_stops_the_run p env files polls :
  dependencies_present p env files = true ->
  BeforeDate_accepted (BeforeDate p) = true ->
  length (mediaFiles p env) = 1 ->
  exists st',
    script p env (start files polls) = (Throw Count_message, st')
    /\ process_code (fst (script p env (start files polls))) = Some 1%Z
    /\ fs st' = prepared p (mkdir (OutputFolder p) files)
    /\ marker st' = polls
    /\ results st' = []
    /\ calm (log st') = true
    /\ In (Scan (resolved_input p env) (negb (NoRecursive p))) (log st')
    /\ progress_lines (log st') = [].
Proof.
  intros Hd Hb H1. rewrite script_batch by assumption.
  destruct (batch p env (resolved_input p env) (resolved_output p env)
              {| fs := mkdir (OutputFolder p) files; marker := polls;
                 results := []; processed := 0; log := [] |}) as [r st'] eqn:E.
  apply run_cases in E. cbv zeta in E.
  destruct E as (d0 & H0 & P0 & Hscan & H).
  destruct H as [(He & _) | [(_ & -> & ->) | (H2 & _)]];
    [rewrite He in H1; discriminate H1 | | lia].
  eexists. split; [reflexivity|]. cbn [fst fs marker results log process_code].
  repeat split; assumption.
Qed.

Lemma single_media_file_stops_the_run_witness :
  exists st',
    script (sample_params false "" "C:\out\pause.flag") (sample_env [sample_file] 0)
      (start sample_fs [true])
    = (Throw Count_message, st')
    /\ process_code
         (fst (script (sample_params false "" "C:\out\pause.flag")
                 (sample_env [sample_file] 0) (start sample_fs [true])))
       = Some 1%Z
    /\ fs st' = prepared (sample_params false "" "C:\out\pause.flag")
                  (mkdir (OutputFolder (sample_params false "" "C:\out\pause.flag"))
                     sample_fs)
    /\ marker st' = [true]
    /\ results st' = []
    /\ calm (log st') = true
    /\ In (Scan (resolved_input (sample_params false "" "C:\out\pause.flag")
                   (sample_env [sample_file] 0))
             (negb (NoRecursive (sample_params false "" "C:\out\pause.flag"))))
         (log st')
    /\ progress_lines (log st') = [].
Proof.
  apply (single_media_file_stops_the_run
           (sample_params false "" "C:\out\pause.flag")
           (sample_env [sample_file] 0) sample_fs [true]).
  - vm_compute. reflexivity.
  - reflexivity.
  - reflexivity.
Defined.

(** ** The progress lines of a run *)

(** X31: the progress lines of a run whose loop is done are the line of the
    start, then one line for each file of the candidate list, in the order
    of the list, and then the line of the end when the run exits, and
    nothing when it ends at the counts.  The line of a file carries the path
    of the file as its source and one of the five status tokens, and it has
    the format
    [[progress] done=<int> total=<int> status=<token> source=<path>]. *)
Theorem loop_prints_one_line_per_file p env files polls r st' :
  script p env (start files polls) = (r, st') ->
  loop_done p env files r ->
  Forall (fun f => IsNullOrWhiteSpace (FullName f) = false) (mediaFiles p env) ->
  exists tokens,
    progress_lines (log st')
    = Host (progress_line 0 (Z.of_nat (length (mediaFiles p env))) "start" "")
      :: file_lines 0 (Z.of_nat (length (mediaFiles p env))) (mediaFiles p env)
           tokens
      ++ (if counted (results st')
          then [Host (progress_line (Z.of_nat (length (mediaFiles p env)))
                        (Z.of_nat (length (mediaFiles p env))) "complete" "")]
          else [])
    /\ Forall2 (line_of_file (Z.of_nat (length (mediaFiles p env))))
         (mediaFiles p env)
         (file_lines 0 (Z.of_nat (length (mediaFiles p env)))
            (mediaFiles p env) tokens)
    /\ r = (if counted (results st') then Exit 1 else Throw Count_message).
Proof.
  intros H Hdone Hnames. apply run_done in H; [|exact Hdone]. cbv zeta in H.
  destruct H as (d0 & d1 & st2 & _ & P0 & _ & P1 & F & _ & _ & Hres & _ & Hr & Hl).
  apply foreach_lines in F.
  destruct F as (d2 & tokens & Hl2 & Hlen & Htok & Hp2 & Hn2 & _).
  cbn [log processed] in Hl2, Hp2, Hn2. rewrite Z.add_0_l in Hn2.
  exists tokens. rewrite Hres, Hl, Hl2, !progress_lines_app, P0, P1, Hp2, Hr.
  split; [|split; [apply file_lines_format; assumption | reflexivity]].
  cbn [app]. do 2 f_equal.
  destruct (counted (results st2)); [rewrite Hn2|]; reflexivity.
Qed.

Lemma loop_prints_one_line_per_file_witness :
  exists tokens,
    progress_lines
      (log (snd (script (sample_params false "" "") six_env (start six_fs []))))
    = Host (progress_line 0
              (Z.of_nat (length (mediaFiles (sample_params false "" "") six_env)))
              "start" "")
      :: file_lines 0
           (Z.of_nat (length (mediaFiles (sample_params false "" "") six_env)))
           (mediaFiles (sample_params false "" "") six_env) tokens
      ++ (if counted (results (snd (script (sample_params false "" "") six_env
                                      (start six_fs []))))
          then [Host (progress_line
                        (Z.of_nat (length (mediaFiles (sample_params false "" "")
                                             six_env)))
                        (Z.of_nat (length (mediaFiles (sample_params false "" "")
                                             six_env))) "complete" "")]
          else [])
    /\ Forall2 (line_of_file
                  (Z.of_nat (length (mediaFiles (sample_params false "" "")
                                       six_env))))
         (mediaFiles (sample_params false "" "") six_env)
         (file_lines 0
            (Z.of_nat (length (mediaFiles (sample_params false "" "") six_env)))
            (mediaFiles (sample_params false "" "") six_env) tokens)
    /\ fst (script (sample_params false "" "") six_env (start six_fs []))
       = (if counted (results (snd (script (sample_params false "" "") six_env
                                      (start six_fs []))))
          then Exit 1 else Throw Count_message).
Proof.
  refine (loop_prints_one_line_per_file (sample_params false "" "") six_env
            six_fs [] _ _ _ _ _).
  - apply surjective_pairing.
  - repeat split; [vm_compute; lia | vm_compute; discriminate].
  - vm_compute. repeat constructor.
Defined.

Example six_progress_lines :
  progress_lines
    (log (snd (script (sample_params false "" "") six_env (start six_fs []))))
  = [ Host "[progress] done=0 total=6 status=start";
      Host "[progress] done=1 total=6 status=ok source=C:\in\2024-03-03_Evening.mp4";
      Host "[progress] done=2 total=6 status=ok source=C:\in\2024-03-03_Morning.mp4";
      Host "[progress] done=3 total=6 status=error-ffmpeg source=C:\in\2024-03-10_Broken.mp4";
      Host "[progress] done=4 total=6 status=error-ffmpeg source=C:\in\2024-03-17_Broken.mp4";
      Host "[progress] done=5 total=6 status=skipped source=C:\in\2024-03-24_Done.mp3";
      Host "[progress] done=6 total=6 status=skipped source=C:\in\2024-03-31_Done.mp3";
      Host "[progress] done=6 total=6 status=complete" ].
Proof. vm_compute. reflexivity. Qed.

(** ** The date bucket and the cutoff *)

Lemma of_string_to_string (l : chars) : of_string (to_string l) = l.
Proof. apply list_ascii_of_string_of_list_ascii. Qed.

Lemma all_dates_spec ys ms ds :
  all_dates ys ms ds = true ->
  forall y m d, In y ys -> In m ms -> In d ds ->
    bucket_form (ToString_yyyy_MM_dd {| Year := y; Month := m; Day := d |}) = true.
Proof.
  unfold all_dates. intros C y m d Hy Hm Hd.
  rewrite forallb_forall in C. specialize (C y Hy).
  rewrite forallb_forall in C. specialize (C m Hm).
  rewrite forallb_forall in C. exact (C d Hd).
Qed.

Lemma century_checked : all_dates (seq 2000 100) (seq 1 12) (seq 1 31) = true.
Proof. vm_compute. reflexivity. Qed.

Lemma ToString_form t :
  this_century t = true -> bucket_form (ToString_yyyy_MM_dd t) = true.
Proof.
  unfold this_century. destruct t as [y m d]. cbn [Year Month Day]. intros H.
  repeat (apply andb_prop in H as [H ?]).
  repeat match goal with
         | E : (_ <=? _)%nat = true |- _ => apply Nat.leb_le in E
         end.
  apply (all_dates_spec _ _ _ century_checked); apply in_seq; lia.
Qed.

Lemma Regex_Match_here here s g :
  Regex_Match here s = Some g -> exists k, here (drop k s) = Some g.
Proof.
  induction s as [|c s IH]; cbn [Regex_Match].
  - destruct (here []) eqn:E; [|discriminate]. intros [= <-]. exists 0. exact E.
  - destruct (here (c :: s)) eqn:E.
    + intros [= <-]. exists 0. exact E.
    + intros H. destruct (IH H) as [k Hk]. exists (S k). exact Hk.
Qed.

Lemma dashed_form s g :
  dashed_here s = Some g -> bucket_form (format_groups g) = true.
Proof.
  destruct s as [|y1 [|y2 [|y3 [|y4 [|a [|m1 [|m2 [|b [|d1 [|d2 s]]]]]]]]]];
    try discriminate.
  cbn [dashed_here].
  destruct (_ && Char.is_digit d2) eqn:E; [|discriminate]. intros [= <-].
  repeat (apply andb_prop in E as [E ?]).
  unfold bucket_form. cbn [format_groups app IsMatch_cutoff at_end length].
  repeat match goal with
         | H : _ = true |- _ => rewrite H; clear H
         end.
  reflexivity.
Qed.

Lemma compact_form s g :
  compact_here s = Some g -> bucket_form (format_groups g) = true.
Proof.
  destruct s as [|y1 [|y2 [|y3 [|y4 [|m1 [|m2 [|d1 [|d2 s]]]]]]]];
    try discriminate.
  cbn [compact_here].
  destruct (_ && Char.is_digit d2) eqn:E; [|discriminate]. intros [= <-].
  repeat (apply andb_prop in E as [E ?]).
  unfold bucket_form. cbn [format_groups app IsMatch_cutoff at_end length].
  repeat match goal with
         | H : _ = true |- _ => rewrite H; clear H
         end.
  reflexivity.
Qed.

(** X19: the date bucket has the form [20YY-MM-DD] of the cutoff date, with
    nothing after it, whenever it is taken from the name of the file, and
    also when it is the day of a last write in the years 2000 to 2099. *)
Theorem bucket_has_the_form_of_a_cutoff (File : FileInfo) :
  Regex_Match dashed_here (of_string (BaseName File)) <> None
  \/ Regex_Match compact_here (of_string (BaseName File)) <> None
  \/ this_century (LastWriteTime File) = true ->
  bucket_form (of_string (Get_DateBucket File)) = true.
Proof.
  unfold Get_DateBucket, date_bucket_chars. rewrite of_string_to_string.
  intros H.
  destruct (Regex_Match dashed_here _) as [g|] eqn:E1.
  { apply Regex_Match_here in E1 as [k Hk]. exact (dashed_form _ _ Hk). }
  destruct (Regex_Match compact_here _) as [g|] eqn:E2.
  { apply Regex_Match_here in E2 as [k Hk]. exact (compact_form _ _ Hk). }
  destruct H as [H | [H | H]]; [congruence | congruence |].
  apply ToString_form, H.
Qed.

Lemma bucket_has_the_form_of_a_cutoff_witness :
  bucket_form (of_string (Get_DateBucket (file_named "Service" ".mp4" july4))) = true.
Proof.
  apply (bucket_has_the_form_of_a_cutoff (file_named "Service" ".mp4" july4)).
  right. right. reflexivity.
Defined.

Lemma ascii_compare_code a b :
  Ascii.compare a b = Nat.compare (Char.code a) (Char.code b).
Proof.
  unfold Ascii.compare, Char.code, nat_of_ascii. apply N2Nat.inj_compare.
Qed.

Lemma digit_split c :
  Char.is_digit c = true -> exists a, Char.code c = a + 48 /\ a <= 9.
Proof.
  unfold Char.is_digit, Char.between. intros [H1 H2]%andb_prop.
  apply Nat.leb_le in H1, H2. exists (Char.code c - 48). lia.
Qed.

Lemma string_cons_of_chars s c l :
  of_string s = c :: l -> exists s', s = String c s' /\ of_string s' = l.
Proof.
  destruct s as [|c' s']; [discriminate|]. cbn. intros [= -> <-].
  exists s'. split; reflexivity.
Qed.

Ltac date_step a b :=
  destruct (Nat.compare_spec (a + 48) (b + 48)); cbv iota;
  [| symmetry; apply Nat.ltb_lt; lia | symmetry; apply Nat.ltb_ge; lia].

(** On two texts of the form [20YY-MM-DD], the second with nothing after
    it, the ordinal order is the order of the dates. *)
Lemma String_ltb_dates (c b : string) :
  IsMatch_cutoff (of_string c) = true ->
  bucket_form (of_string b) = true ->
  String.ltb c b = (date_number (of_string c) <? date_number (of_string b))%nat.
Proof.
  unfold bucket_form. intros Hc [Hb Hlen]%andb_prop. apply Nat.eqb_eq in Hlen.
  destruct (of_string c)
    as [|y1 [|y2 [|y3 [|y4 [|p1 [|m1 [|m2 [|q1 [|d1 [|d2 rest]]]]]]]]]] eqn:Ec;
    try discriminate Hc.
  destruct (of_string b)
    as [|z1 [|z2 [|z3 [|z4 [|p2 [|n1 [|n2 [|q2 [|e1 [|e2 [|x rest2]]]]]]]]]]] eqn:Eb;
    try discriminate Hb; try discriminate Hlen.
  cbn [IsMatch_cutoff] in Hc, Hb.
  repeat (apply andb_prop in Hc as [Hc ?]). repeat (apply andb_prop in Hb as [Hb ?]).
  repeat match goal with
         | H : is_char _ _ = true |- _ => apply is_char_eq in H; subst
         | H : Char.is_hyphen _ = true |- _ => apply is_hyphen_eq in H; subst
         end.
  repeat match goal with
         | E : of_string ?s = _ :: _ |- _ =>
             apply string_cons_of_chars in E as (? & -> & E)
         end.
  repeat match goal with
         | E : of_string ?s = [] |- _ => destruct s; [clear E | discriminate E]
         | E : of_string ?s = ?l |- _ => is_var l; subst l
         end.
  cbn [date_number fold_left]. unfold digit_value.
  unfold String.ltb. cbn [String.compare].
  rewrite !ascii_compare_code. change (Char.code hyphen) with 45.
  change (Char.code "2") with 50. change (Char.code "0") with 48.
  rewrite !Nat.compare_refl. change (50 - 48) with 2. change (48 - 48) with 0.
  destruct (digit_split y3) as (a3 & -> & ?); [assumption|].
  destruct (digit_split y4) as (a4 & -> & ?); [assumption|].
  destruct (digit_split m1) as (a5 & -> & ?); [assumption|].
  destruct (digit_split m2) as (a6 & -> & ?); [assumption|].
  destruct (digit_split d1) as (a7 & -> & ?); [assumption|].
  destruct (digit_split d2) as (a8 & -> & ?); [assumption|].
  destruct (digit_split z3) as (b3 & -> & ?); [assumption|].
  destruct (digit_split z4) as (b4 & -> & ?); [assumption|].
  destruct (digit_split n1) as (b5 & -> & ?); [assumption|].
  destruct (digit_split n2) as (b6 & -> & ?); [assumption|].
  destruct (digit_split e1) as (b7 & -> & ?); [assumption|].
  destruct (digit_split e2) as (b8 & -> & ?); [assumption|].
  rewrite !Nat.add_sub.
  date_step a3 b3. date_step a4 b4. date_step a5 b5. date_step a6 b6.
  date_step a7 b7. date_step a8 b8.
  match goal with
  | H : at_end (of_string ?r) = true |- _ =>
      assert (Hrest : match String.compare r "" with Lt => true | _ => false end
                      = false) by (destruct r; reflexivity);
      rewrite Hrest
  end.
  symmetry. apply Nat.ltb_ge. lia.
Qed.

Lemma IsMatch_cutoff_nonblank s :
  IsMatch_cutoff s = true -> Text.IsNullOrWhiteSpace s = false.
Proof.
  destruct s as [|c s]; [discriminate|]. intros H.
  assert (Hc : c = "2"%char).
  { destruct s as [|y2 [|y3 [|y4 [|a [|m1 [|m2 [|b [|d1 [|d2 s]]]]]]]]];
      try discriminate H.
    cbn [IsMatch_cutoff] in H. repeat (apply andb_prop in H as [H ?]).
    apply is_char_eq, H. }
  subst c. reflexivity.
Qed.

(** X20: the cutoff filter compares dates.  For a cutoff that has passed the
    validation and a date bucket of the form [20YY-MM-DD], the comparison of
    the two texts by [-gt] is the comparison of the two dates: the file is
    excluded exactly when its day is after the day of the cutoff, and a file
    of the very day of the cutoff is kept. *)
Theorem cutoff_filter_is_chronological p file :
  IsMatch_cutoff (of_string (BeforeDate p)) = true ->
  bucket_form (of_string (Get_DateBucket file)) = true ->
  cutoff_excludes p file
  = (date_number (of_string (BeforeDate p))
     <? date_number (of_string (Get_DateBucket file)))%nat.
Proof.
  intros Hc Hb. unfold cutoff_excludes, IsNullOrWhiteSpace, String_gt.
  rewrite (IsMatch_cutoff_nonblank _ Hc). cbn [negb andb].
  apply String_ltb_dates; assumption.
Qed.

Lemma cutoff_filter_is_chronological_witness :
  cutoff_excludes (sample_params false "2024-02-01" "") sample_file
  = (date_number (of_string (BeforeDate (sample_params false "2024-02-01" "")))
     <? date_number (of_string (Get_DateBucket sample_file)))%nat.
Proof.
  apply (cutoff_filter_is_chronological (sample_params false "2024-02-01" "")
           sample_file); reflexivity.
Defined.

Example cutoff_day_is_kept :
  cutoff_excludes (sample_params false "2024-02-01" "") sample_file = false
  /\ cutoff_excludes (sample_params false "2024-01-31" "") sample_file = true.
Proof. split; reflexivity. Qed.

(** ** The candidate list *)

(** Whatever the order of the culture is, sorting permutes. *)
Lemma insert_by_name_perm le f l : Permutation (insert_by_name le f l) (f :: l).
Proof.
  induction l as [|g l IH]; cbn [insert_by_name]; [reflexivity|].
  destruct (le _ _); [reflexivity|].
  rewrite IH. apply perm_swap.
Qed.

Lemma Sort_FullName_perm le l : Permutation (Sort_FullName le l) l.
Proof.
  unfold Sort_FullName. induction l as [|f l IH]; cbn [foldr]; [reflexivity|].
  rewrite insert_by_name_perm, IH. reflexivity.
Qed.

(** X21: the candidate list holds media files of the listing: each of its
    files is a file of the listing whose extension, in lower case, is one of
    the thirteen media extensions.  With a limit above zero it has at most
    that many files; with a limit of zero or below, it has all the media
    files of the listing, each as many times as the listing has it. *)
Theorem candidates_are_the_media_files p env (allFiles : list FileInfo) :
  (forall f, In f (candidates p env allFiles) ->
             In f allFiles /\ In (lower (Extension f)) mediaExts)
  /\ length (candidates p env allFiles)
     = (if (Limit p >? 0)%Z
        then Nat.min (Z.to_nat (Limit p)) (length (List.filter is_media allFiles))
        else length (List.filter is_media allFiles))
  /\ ((Limit p <= 0)%Z ->
      Permutation (candidates p env allFiles) (List.filter is_media allFiles)).
Proof.
  unfold candidates.
  pose proof (Sort_FullName_perm (culture_le env) (List.filter is_media allFiles))
    as Hperm.
  split; [|split].
  - intros f Hin.
    assert (Hs : In f (Sort_FullName (culture_le env)
                         (List.filter is_media allFiles))).
    { destruct (Limit p >? 0)%Z; [|exact Hin].
      rewrite <- (take_drop (Z.to_nat (Limit p))
                    (Sort_FullName (culture_le env)
                       (List.filter is_media allFiles))).
      apply in_or_app. left. exact Hin. }
    apply (Permutation_in _ Hperm), List.filter_In in Hs as [Hall Hm].
    split; [exact Hall|]. unfold is_media in Hm.
    apply existsb_exists in Hm as (e & He & Heq).
    apply String.eqb_eq in Heq. subst e. exact He.
  - destruct (Limit p >? 0)%Z.
    + rewrite length_take, (Permutation_length Hperm). reflexivity.
    + apply Permutation_length, Hperm.
  - intros Hl. destruct (Limit p >? 0)%Z eqn:E; [|exact Hperm].
    apply Z.gtb_lt in E. lia.
Qed.

(** ** Get-Slug: what it keeps *)

Section SlugChars.

Lemma lower_idempotent c :
  Char.ToLowerInvariant (Char.ToLowerInvariant c) = Char.ToLowerInvariant c.
Proof. destruct c as [[] [] [] [] [] [] [] []]; vm_compute; reflexivity. Qed.

Lemma lower_space c :
  Char.IsWhiteSpace (Char.ToLowerInvariant c) = Char.IsWhiteSpace c.
Proof. destruct c as [[] [] [] [] [] [] [] []]; vm_compute; reflexivity. Qed.

Lemma ToLowerInvariant_idempotent s :
  Text.ToLowerInvariant (Text.ToLowerInvariant s) = Text.ToLowerInvariant s.
Proof.
  unfold Text.ToLowerInvariant. induction s as [|c s IH]; [reflexivity|].
  cbn [map]. rewrite lower_idempotent, IH. reflexivity.
Qed.

Lemma ToLowerInvariant_blank s :
  Text.IsNullOrWhiteSpace (Text.ToLowerInvariant s) = Text.IsNullOrWhiteSpace s.
Proof.
  unfold Text.ToLowerInvariant, Text.IsNullOrWhiteSpace.
  induction s as [|c s IH]; [reflexivity|].
  cbn [map forallb]. rewrite lower_space, IH. reflexivity.
Qed.

End SlugChars.

(** X23: the slug does not depend on the case of the letters: a name and
    the same name in lower case have the same slug. *)
Theorem Get_Slug_ignores_case (Text : string) :
  Get_Slug (lower Text) = Get_Slug Text.
Proof.
  unfold Get_Slug, lower. rewrite of_string_to_string. f_equal.
  unfold slug_chars.
  rewrite ToLowerInvariant_blank, ToLowerInvariant_idempotent. reflexivity.
Qed.

Example slug_of_capitals :
  Get_Slug "SUNDAY Service" = Get_Slug "sunday service"
  /\ Get_Slug "Sunday_Service" = Get_Slug "sunday service".
Proof. split; reflexivity. Qed.

Section Kept.

Context (P C : ascii -> bool).
Context (HPC : forall c, C c = true -> P c = false).

Lemma filter_Replace_runs r b s :
  P r = false ->
  List.filter P (Text.Replace_runs C r b s) = List.filter P s.
Proof.
  intros Hr. revert b. induction s as [|c s IH]; intros b; [reflexivity|].
  cbn [Text.Replace_runs List.filter]. destruct (C c) eqn:Ec.
  - rewrite (HPC _ Ec). destruct b; [apply IH|].
    cbn [List.filter]. rewrite Hr. apply IH.
  - cbn [List.filter]. rewrite IH. reflexivity.
Qed.

Lemma filter_TrimStart s : List.filter P (Text.TrimStart C s) = List.filter P s.
Proof.
  induction s as [|c s IH]; [reflexivity|].
  cbn [Text.TrimStart]. destruct (C c) eqn:Ec; [|reflexivity].
  cbn [List.filter]. rewrite (HPC _ Ec). exact IH.
Qed.

Lemma filter_TrimEnd s : List.filter P (Text.TrimEnd C s) = List.filter P s.
Proof.
  induction s as [|c s IH]; [reflexivity|].
  cbn [Text.TrimEnd]. destruct (Text.TrimEnd C s) as [|d t] eqn:E.
  - cbn [List.filter] in IH |- *. rewrite <- IH.
    destruct (C c) eqn:Ec; [rewrite (HPC _ Ec)|]; reflexivity.
  - cbn [List.filter] in IH |- *. rewrite IH. reflexivity.
Qed.

Lemma filter_TrimSet s : List.filter P (Text.TrimSet C s) = List.filter P s.
Proof. unfold Text.TrimSet. rewrite filter_TrimEnd. apply filter_TrimStart. Qed.

Lemma length_Replace_runs r b s : length (Text.Replace_runs C r b s) <= length s.
Proof.
  revert b. induction s as [|c s IH]; intros b; [reflexivity|].
  pose proof (IH true). pose proof (IH false).
  cbn [Text.Replace_runs]. destruct (C c), b; cbn [length]; lia.
Qed.

Lemma length_TrimSet s : length (Text.TrimSet C s) <= length s.
Proof.
  unfold Text.TrimSet.
  destruct (TrimStart_suffix C s) as [k Hk].
  destruct (TrimEnd_prefix C (Text.TrimStart C s)) as [j Hj].
  rewrite Hj, Hk, length_take, length_drop. lia.
Qed.

End Kept.

Lemma filter_take_prefix {A} (P : A -> bool) n (s : list A) :
  exists k, List.filter P (take n s) = take k (List.filter P s).
Proof.
  revert s. induction n as [|n IH]; intros s.
  - exists 0. rewrite !take_0. reflexivity.
  - destruct s as [|c s]; [exists 0; reflexivity|].
    destruct (IH s) as [k Hk]. cbn [take List.filter].
    destruct (P c); [exists (S k); cbn [take]; rewrite Hk | exists k]; auto.
Qed.

Lemma hyphen_not_az09 c : Char.is_hyphen c = true -> Char.is_az09 c = false.
Proof.
  intros H. destruct (Char.is_az09 c) eqn:E; [|reflexivity].
  apply az09_not_hyphen in E. congruence.
Qed.

Lemma filter_blank s :
  Text.IsNullOrWhiteSpace s = true ->
  List.filter Char.is_az09 (Text.ToLowerInvariant s) = [].
Proof.
  unfold Text.IsNullOrWhiteSpace, Text.ToLowerInvariant.
  induction s as [|c s IH]; [reflexivity|].
  cbn [forallb map List.filter]. intros [Hc H]%andb_prop.
  rewrite <- lower_space in Hc.
  destruct (Char.is_az09 (Char.ToLowerInvariant c)) eqn:E; [|exact (IH H)].
  apply az09_not_space in E. congruence.
Qed.

(** The letters and digits of the slug. *)
Lemma slug_chars_kept Text :
  List.filter Char.is_az09 (Text.ToLowerInvariant Text) <> [] ->
  (exists k,
     List.filter Char.is_az09 (slug_chars Text)
     = take k (List.filter Char.is_az09 (Text.ToLowerInvariant Text)))
  /\ (length Text <= 96 ->
      List.filter Char.is_az09 (slug_chars Text)
      = List.filter Char.is_az09 (Text.ToLowerInvariant Text)).
Proof.
  intros Hkept. unfold slug_chars.
  destruct (Text.IsNullOrWhiteSpace Text) eqn:Eb.
  { apply filter_blank in Eb. contradiction. }
  set (s0 := Text.ToLowerInvariant Text) in *.
  set (s1 := Text.Replace_runs (fun c => negb (Char.is_az09 c)) hyphen false s0).
  set (s2 := Text.Replace_runs Char.is_hyphen hyphen false s1).
  set (s3 := Text.TrimSet Char.is_hyphen s2).
  assert (H1 : List.filter Char.is_az09 s1 = List.filter Char.is_az09 s0).
  { apply filter_Replace_runs; [|reflexivity].
    intros c Hc. apply negb_true_iff in Hc. exact Hc. }
  assert (H2 : List.filter Char.is_az09 s2 = List.filter Char.is_az09 s0).
  { unfold s2. rewrite filter_Replace_runs;
      [exact H1 | apply hyphen_not_az09 | reflexivity]. }
  assert (H3 : List.filter Char.is_az09 s3 = List.filter Char.is_az09 s0).
  { unfold s3. rewrite filter_TrimSet; [exact H2 | apply hyphen_not_az09]. }
  assert (Ha1 : forallb slug_char s1 = true) by apply Replace_nonalnum_alphabet.
  assert (Hi1 : no_adjacent Char.is_hyphen false s1 = true).
  { apply Replace_runs_isolated. intros c Hc.
    rewrite (hyphen_not_az09 _ Hc). reflexivity. }
  assert (E2 : s2 = s1).
  { apply (Replace_runs_id Char.is_hyphen false s1);
      [apply Forall_forall; reflexivity | exact Hi1]. }
  destruct (TrimSet_shape _ Ha1 Hi1) as (Ha & _).
  rewrite <- E2 in Ha. fold s3 in Ha.
  assert (Hne : s3 <> []).
  { intros E. rewrite E in H3. cbn in H3. symmetry in H3. contradiction. }
  rewrite (slug_nonblank s3 Hne Ha).
  assert (Hlen : length s3 <= length Text).
  { unfold s3, s2, s1, s0.
    etransitivity; [apply length_TrimSet|].
    etransitivity; [apply length_Replace_runs|].
    etransitivity; [apply length_Replace_runs|].
    unfold Text.ToLowerInvariant. rewrite length_map. reflexivity. }
  destruct (96 <? length s3)%nat eqn:El.
  - apply Nat.ltb_lt in El. split; [|intros; lia].
    rewrite filter_TrimSet by apply hyphen_not_az09.
    destruct (filter_take_prefix Char.is_az09 96 s3) as [k Hk].
    exists k. unfold Text.Substring0. rewrite Hk, H3. reflexivity.
  - split; [|intros _; exact H3].
    exists (length (List.filter Char.is_az09 s0)).
    rewrite H3, take_ge by lia. reflexivity.
Qed.

(** X24: the slug keeps the letters and the digits of the name.  When the
    name, in lower case, has a letter [a-z] or a digit, the letters and
    digits of its slug are those of the name in lower case, in their order,
    up to the point where the slug is cut; a name of at most 96 characters
    keeps them all. *)
Theorem Get_Slug_keeps_letters_and_digits (Text : string) :
  List.filter Char.is_az09 (of_string (lower Text)) <> [] ->
  (exists k,
     List.filter Char.is_az09 (of_string (Get_Slug Text))
     = take k (List.filter Char.is_az09 (of_string (lower Text))))
  /\ (String.length Text <= 96 ->
      List.filter Char.is_az09 (of_string (Get_Slug Text))
      = List.filter Char.is_az09 (of_string (lower Text))).
Proof.
  unfold Get_Slug, lower. rewrite !of_string_to_string. intros H.
  destruct (slug_chars_kept _ H) as [Hk Hall]. split; [exact Hk|].
  intros Hlen. apply Hall.
  clear -Hlen. revert Hlen. generalize 96.
  induction Text as [|c t IH]; intros n; cbn; [lia|].
  destruct n; [lia|]. intros Hn. apply le_n_S, IH. lia.
Qed.

Lemma Get_Slug_keeps_letters_and_digits_witness :
  (exists k,
     List.filter Char.is_az09 (of_string (Get_Slug "Sunday A.M. (1st Service)"))
     = take k (List.filter Char.is_az09
                 (of_string (lower "Sunday A.M. (1st Service)"))))
  /\ (String.length "Sunday A.M. (1st Service)" <= 96 ->
      List.filter Char.is_az09 (of_string (Get_Slug "Sunday A.M. (1st Service)"))
      = List.filter Char.is_az09 (of_string (lower "Sunday A.M. (1st Service)"))).
Proof.
  apply (Get_Slug_keeps_letters_and_digits "Sunday A.M. (1st Service)").
  vm_compute. discriminate.
Defined.

(** ** The flattened text *)

Lemma Replace_runs_blank b s :
  Text.IsNullOrWhiteSpace (Text.Replace_runs Char.IsWhiteSpace space b s)
  = Text.IsNullOrWhiteSpace s.
Proof.
  unfold Text.IsNullOrWhiteSpace. revert b.
  induction s as [|c s IH]; intros b; [reflexivity|].
  cbn [Text.Replace_runs forallb]. destruct (Char.IsWhiteSpace c) eqn:Ec.
  - destruct b; cbn [forallb andb]; [apply IH|].
    change (Char.IsWhiteSpace space) with true. apply IH.
  - cbn [forallb]. rewrite Ec. reflexivity.
Qed.

Lemma flatten_blank s :
  Text.IsNullOrWhiteSpace s = true -> flatten s = [].
Proof.
  intros H. unfold flatten.
  destruct (Replace_runs_all Char.IsWhiteSpace space s H) as [_ ->].
  destruct s; reflexivity.
Qed.

Lemma flatten_nonblank s :
  Text.IsNullOrWhiteSpace s = false -> trimmed (flatten s).
Proof.
  intros H. unfold flatten. apply Trim_nonblank.
  rewrite Replace_runs_blank. exact H.
Qed.

Lemma Replace_runs_fixed C r b s :
  forallb (fun c => negb (C c) || is_char r c) s = true ->
  no_adjacent C b s = true ->
  Text.Replace_runs C r b s = s.
Proof.
  revert b. induction s as [|c s IH]; intros b; [reflexivity|].
  cbn [forallb no_adjacent Text.Replace_runs].
  intros [Hc Hs]%andb_prop. destruct (C c) eqn:Ec.
  - cbn [negb orb] in Hc. apply is_char_eq in Hc. subst c.
    intros [Hb Ha]%andb_prop. apply negb_true_iff in Hb. subst b.
    rewrite (IH true Hs Ha). reflexivity.
  - intros Ha. rewrite (IH false Hs Ha). reflexivity.
Qed.

Lemma flatten_flat s : single_spaced s -> flatten s = s.
Proof.
  intros (Hsp & Hadj & Hs & He). unfold flatten.
  rewrite Replace_runs_fixed by assumption.
  destruct s as [|c s]; [reflexivity|].
  apply Trim_trimmed. repeat split; [discriminate | assumption..].
Qed.

(** ** The paragraphs of the clean document *)

Lemma join_space_app l l' :
  l <> [] -> l' <> [] ->
  join_space (l ++ l') = join_space l ++ space :: join_space l'.
Proof.
  intros Hl Hl'. induction l as [|x l IH]; [congruence|].
  destruct l as [|y l].
  - destruct l' as [|z l']; [congruence | reflexivity].
  - change (join_space ((x :: y :: l) ++ l'))
      with (x ++ space :: join_space ((y :: l) ++ l')).
    rewrite IH by discriminate.
    change (join_space (x :: y :: l)) with (x ++ space :: join_space (y :: l)).
    rewrite <- app_assoc. reflexivity.
Qed.

Lemma join_space_concat groups :
  Forall (fun g => g <> []) groups ->
  join_space (map join_space groups) = join_space (concat groups).
Proof.
  induction 1 as [|g groups Hg Hall IH]; [reflexivity|].
  cbn [map concat]. destruct groups as [|g' groups].
  - cbn [map concat]. rewrite app_nil_r. reflexivity.
  - rewrite join_space_app.
    + rewrite <- IH. reflexivity.
    + exact Hg.
    + inversion Hall as [|? ? Hg' _]; subst. cbn [concat].
      destruct g'; [congruence | discriminate].
Qed.

Lemma one_line_join l :
  one_line (join_space l) = true -> Forall (fun s => one_line s = true) l.
Proof.
  unfold one_line. induction l as [|x l IH]; [constructor|].
  destruct l as [|y l].
  - intros H. constructor; [exact H | constructor].
  - change (join_space (x :: y :: l)) with (x ++ space :: join_space (y :: l)).
    rewrite forallb_app. cbn [forallb].
    intros [Hx [_ Hl]%andb_prop]%andb_prop.
    constructor; [exact Hx | exact (IH Hl)].
Qed.

Lemma kept_sentences_trimmed l : Forall trimmed (kept_sentences l).
Proof.
  unfold kept_sentences. induction l as [|s l IH]; [constructor|].
  cbn [List.filter]. destruct (Text.IsNullOrWhiteSpace s) eqn:E; cbn [negb map];
    [exact IH|].
  constructor; [apply Trim_nonblank, E | exact IH].
Qed.

Lemma Forall_concat {A} (P : A -> Prop) (ls : list (list A)) :
  Forall P (concat ls) -> Forall (Forall P) ls.
Proof.
  induction ls as [|l ls IH]; [constructor|].
  cbn [concat]. intros [Hl Hls]%Forall_app. constructor; [exact Hl | exact (IH Hls)].
Qed.

(** The paragraphs are the groups of the kept sentences of the flattened
    text. *)
Lemma clean_paragraphs_groups RawText :
  exists groups,
    clean_paragraphs RawText = map join_space groups
    /\ Forall (fun g => g <> []) groups
    /\ Forall (Forall trimmed) groups
    /\ join_space (concat groups) = flatten (of_string RawText).
Proof.
  unfold clean_paragraphs.
  destruct (pack_groups (Split_sentences (flatten (of_string RawText))) [])
    as (groups & Hp & Hc & Hne & _).
  - constructor.
  - cbn [join_space length]. unfold paragraph_threshold. lia.
  - exists groups. cbn [app join_space] in Hc, Hp.
    split; [exact Hp|]. split; [exact Hne|]. split.
    + apply Forall_concat. rewrite Hc. apply kept_sentences_trimmed.
    + rewrite Hc. apply Split_sentences_joins, flatten_single_spaced.
Qed.

(** X25: the paragraphs of the clean document, put together with single
    spaces, are the flattened transcript: the reflow changes white space
    only.  Every paragraph is one line, with no white space at either end
    and none but the space inside, and there is no paragraph at all exactly
    when the transcript is blank. *)
Theorem paragraphs_are_the_flattened_transcript (RawText : string) :
  join_space (clean_paragraphs RawText) = flatten (of_string RawText)
  /\ Forall (fun para => trimmed para /\ one_line para = true)
       (clean_paragraphs RawText)
  /\ (clean_paragraphs RawText = []
      <-> Text.IsNullOrWhiteSpace (of_string RawText) = true).
Proof.
  destruct (clean_paragraphs_groups RawText) as (groups & Hp & Hne & Ht & Hj).
  assert (Hjoin : join_space (clean_paragraphs RawText)
                  = flatten (of_string RawText))
    by (rewrite Hp, join_space_concat by exact Hne; exact Hj).
  assert (Htrim : Forall trimmed (clean_paragraphs RawText)).
  { rewrite Hp. clear -Hne Ht.
    induction Hne as [|g groups Hg _ IH]; [constructor|].
    inversion Ht; subst. cbn [map].
    constructor; [apply join_space_trimmed; assumption | apply IH; assumption]. }
  split; [exact Hjoin|]. split; [|split].
  - destruct (flatten_single_spaced (of_string RawText)) as (Hsp & _).
    rewrite <- Hjoin in Hsp. apply one_line_join in Hsp.
    clear -Htrim Hsp. induction Htrim as [|para l Hx _ IH]; [constructor|].
    inversion Hsp; subst. constructor; [split; assumption | apply IH; assumption].
  - intros E. rewrite E in Hjoin. cbn [join_space] in Hjoin.
    destruct (Text.IsNullOrWhiteSpace (of_string RawText)) eqn:Eb; [reflexivity|].
    apply flatten_nonblank in Eb as (Hn & _). congruence.
  - intros Eb. apply flatten_blank in Eb. rewrite Eb in Hjoin.
    destruct Htrim as [|para l (Hn & _) _]; [reflexivity|].
    exfalso. destruct l as [|y l]; cbn [join_space] in Hjoin; [congruence|].
    destruct para; [congruence | discriminate Hjoin].
Qed.

(** X26: cleaning is stable: the flattened transcript is a fixed point of
    the flattening, so a transcript and its flattened text have the same
    paragraphs. *)
Theorem cleaning_is_stable (RawText : string) :
  flatten (flatten (of_string RawText)) = flatten (of_string RawText)
  /\ clean_paragraphs (to_string (flatten (of_string RawText)))
     = clean_paragraphs RawText.
Proof.
  assert (H : flatten (flatten (of_string RawText)) = flatten (of_string RawText))
    by apply flatten_flat, flatten_single_spaced.
  split; [exact H|].
  unfold clean_paragraphs. rewrite of_string_to_string, H. reflexivity.
Qed.

(** ** The overview of the summary *)

Lemma of_string_append (a b : string) :
  of_string (a +:+ b) = of_string a ++ of_string b.
Proof.
  unfold of_string. induction a as [|x a IH]; [reflexivity|].
  rewrite append_cons. cbn [list_ascii_of_string app]. rewrite IH. reflexivity.
Qed.

Lemma append_empty_r (a : string) : a +:+ "" = a.
Proof.
  induction a as [|x a IH]; [reflexivity|]. rewrite append_cons, IH. reflexivity.
Qed.

Lemma nonblank_app s t :
  Text.IsNullOrWhiteSpace s = false -> Text.IsNullOrWhiteSpace (s ++ t) = false.
Proof.
  unfold Text.IsNullOrWhiteSpace. intros H. rewrite forallb_app, H. reflexivity.
Qed.

(** X27: the overview of the summary, [$overview] of
    [Build-SummaryMarkdown].  For a blank transcript the overview is the
    fallback line.  Otherwise it is made of the first characters, 520 at
    most, of the flattened transcript, with no white space at either end,
    followed by an ellipsis exactly when the flattened transcript has more
    than 520 characters. *)
Theorem summary_overview_cases (RawText : string) :
  (Text.IsNullOrWhiteSpace (of_string RawText) = true ->
   summary_overview RawText = "(No transcript text extracted)")
  /\ (Text.IsNullOrWhiteSpace (of_string RawText) = false ->
      exists k,
        k <= 520
        /\ trimmed (take k (flatten (of_string RawText)))
        /\ summary_overview RawText
           = to_string (take k (flatten (of_string RawText)))
             +:+ (if (520 <? length (flatten (of_string RawText)))%nat
                  then ellipsis else "")).
Proof.
  unfold summary_overview. split.
  - intros Hb. rewrite (flatten_blank _ Hb). reflexivity.
  - intros Hb. pose proof (flatten_nonblank _ Hb) as Ht.
    set (flat := flatten (of_string RawText)) in *.
    destruct (520 <? length flat)%nat eqn:El.
    + apply Nat.ltb_lt in El. destruct Ht as (Hne & Hs & He).
      unfold Text.Substring0, Text.Trim, Text.TrimSet.
      pose proof (starts_with_take Char.IsWhiteSpace 520 flat Hs) as Hs'.
      rewrite TrimStart_id by exact Hs'.
      destruct (TrimEnd_prefix Char.IsWhiteSpace (take 520 flat)) as [j Hj].
      assert (Hcut : take 520 flat <> []).
      { destruct flat; [cbn in El; lia | discriminate]. }
      assert (Hpre : trimmed (Text.TrimEnd Char.IsWhiteSpace (take 520 flat))).
      { repeat split.
        - apply TrimEnd_nonempty; assumption.
        - apply TrimEnd_head, Hs'.
        - apply TrimEnd_last. }
      rewrite of_string_append, of_string_to_string.
      rewrite (nonblank_app _ _ (trimmed_nonblank _ Hpre)).
      exists (Nat.min j 520). split; [lia|].
      rewrite <- take_take, <- Hj. split; [exact Hpre | reflexivity].
    + apply Nat.ltb_ge in El. rewrite of_string_to_string.
      rewrite (trimmed_nonblank _ Ht).
      exists (length flat). split; [exact El|].
      rewrite take_ge by lia. split; [exact Ht|].
      rewrite append_empty_r. reflexivity.
Qed.

Lemma summary_overview_cases_witness :
  exists k,
    k <= 520
    /\ trimmed (take k (flatten (of_string "  Grace and peace.  Amen. ")))
    /\ summary_overview "  Grace and peace.  Amen. "
       = to_string (take k (flatten (of_string "  Grace and peace.  Amen. ")))
         +:+ (if (520 <? length (flatten (of_string "  Grace and peace.  Amen. ")))%nat
              then ellipsis else "").
Proof.
  apply (proj2 (summary_overview_cases "  Grace and peace.  Amen. ")).
  reflexivity.
Defined.

Example sample_overviews :
  summary_overview "  Grace and peace.  Amen. " = "Grace and peace. Amen."
  /\ summary_overview "   " = "(No transcript text extracted)"
  /\ String.length (summary_overview (sermon [300; 300]))
     = 520 + String.length ellipsis.
Proof. vm_compute. repeat split. Qed.

(** ** The title of the documents *)

(** X28: the title of the documents is the base name of the file with its
    hyphens and underscores turned into spaces and the white space at its
    ends removed.  A base name made of hyphens, underscores and white space
    only, and no other, gives the name of the file, with its extension, as
    the title.  Any other base name gives a title that has no hyphen and no
    underscore, no white space at either end, and that is not longer than
    the base name. *)
Theorem title_of_shape (file : FileInfo) :
  (forallb (fun c => Char.is_date_sep c || Char.IsWhiteSpace c)
     (of_string (BaseName file)) = true ->
   title_of file = Name file)
  /\ (forallb (fun c => Char.is_date_sep c || Char.IsWhiteSpace c)
        (of_string (BaseName file)) = false ->
      title_of file
      = to_string
          (Text.Trim (map (fun c => if Char.is_date_sep c then space else c)
                        (of_string (BaseName file))))
      /\ trimmed (of_string (title_of file))
      /\ forallb (fun c => negb (Char.is_date_sep c)) (of_string (title_of file))
         = true
      /\ length (of_string (title_of file)) <= length (of_string (BaseName file))).
Proof.
  unfold title_of.
  set (m := map (fun c => if Char.is_date_sep c then space else c)
              (of_string (BaseName file))).
  assert (Hm : Text.IsNullOrWhiteSpace m
               = forallb (fun c => Char.is_date_sep c || Char.IsWhiteSpace c)
                   (of_string (BaseName file))).
  { subst m. unfold Text.IsNullOrWhiteSpace.
    induction (of_string (BaseName file)) as [|c s IH]; [reflexivity|].
    cbn [map forallb]. rewrite IH. f_equal.
    destruct (Char.is_date_sep c); reflexivity. }
  assert (Hblank : Text.IsNullOrWhiteSpace m = true ->
                   Text.IsNullOrWhiteSpace (Text.Trim m) = true).
  { intros Em.
    assert (Ht : Text.Trim m = []).
    { unfold Text.Trim, Text.TrimSet.
      assert (E : Text.TrimStart Char.IsWhiteSpace m = []).
      { clear -Em. induction m as [|c m IH]; [reflexivity|].
        cbn in Em |- *. apply andb_prop in Em as [-> Em]. exact (IH Em). }
      rewrite E. reflexivity. }
    rewrite Ht. reflexivity. }
  rewrite <- Hm. split.
  - intros Em. rewrite (Hblank Em). reflexivity.
  - intros Em. pose proof (Trim_nonblank _ Em) as Ht.
    rewrite (trimmed_nonblank _ Ht), of_string_to_string.
    split; [reflexivity|]. split; [exact Ht|].
    unfold Text.Trim, Text.TrimSet.
    destruct (TrimStart_suffix Char.IsWhiteSpace m) as [k Hk].
    destruct (TrimEnd_prefix Char.IsWhiteSpace (Text.TrimStart Char.IsWhiteSpace m))
      as [j Hj].
    rewrite Hj, Hk. split.
    + apply forallb_take, forallb_drop. subst m. clear.
      induction (of_string (BaseName file)) as [|c s IH]; [reflexivity|].
      cbn [map forallb]. rewrite IH, andb_true_r.
      destruct (Char.is_date_sep c) eqn:E; [reflexivity | rewrite E; reflexivity].
    + rewrite length_take, length_drop. subst m. rewrite length_map. lia.
Qed.

Lemma title_of_shape_witness :
  title_of (file_named "__--__" ".mp4" july4)
  = Name (file_named "__--__" ".mp4" july4).
Proof.
  apply (proj1 (title_of_shape (file_named "__--__" ".mp4" july4))).
  reflexivity.
Defined.

Example sample_title :
  title_of sample_file = "2024 02 01 Service"
  /\ title_of (file_named "__--__" ".mp4" july4) = "__--__.mp4".
Proof. split; reflexivity. Qed.

(** ** A run that is held *)

(** X29: a run that is held at the pause gate has lost nothing and has
    recorded nothing early: the files before the one at which it waits have
    their results, in order, that file and the files after it have none,
    the counter of processed files is the number of these results, and the
    index is not written yet.  Such a run has two candidate files or more. *)
Theorem held_run_keeps_its_results p env files polls st' :
  script p env (start files polls) = (Held, st') ->
  exists n,
    n < length (mediaFiles p env)
    /\ 2 <= length (mediaFiles p env)
    /\ Forall2 (recorded p env (resolved_output p env))
         (take n (mediaFiles p env)) (results st')
    /\ processed st' = Z.of_nat n
    /\ (indexPath_of (resolved_output p env) <> OutputFolder p ->
        indexPath_of (resolved_output p env)
        <> Split_Path_Parent (PauseFlagFile p) ->
        (forall file, In file (mediaFiles p env) ->
                      indexPath_of (resolved_output p env)
                      ∉ turn_paths (resolved_output p env) file) ->
        fs st' !! indexPath_of (resolved_output p env)
        = files !! indexPath_of (resolved_output p env)).
Proof.
  intros H. pose proof (run_records _ _ _ _ _ _ H) as (Hrec & Hn & Hlt).
  specialize (Hlt eq_refl).
  exists (length (results st')). split; [exact Hlt|].
  split.
  { apply script_cases in H.
    destruct H as [[Hr _] | [(msg & Hr & _) | (_ & _ & H)]];
      [discriminate Hr | discriminate Hr |].
    apply run_cases in H. cbv zeta in H. destruct H as (d0 & _ & _ & _ & H).
    destruct H as [(_ & Hr & _) | [(_ & Hr & _) | (H2 & _)]];
      [discriminate Hr | discriminate Hr | exact H2]. }
  split; [exact Hrec|]. split; [exact Hn|].
  intros Hout Hpause Hturns. apply script_cases in H.
  destruct H as [[Hr _] | [(msg & Hr & _) | (_ & _ & H)]];
    [discriminate Hr | discriminate Hr |].
  apply run_cases in H. cbv zeta in H. destruct H as (d0 & _ & _ & _ & H).
  destruct H as [(_ & Hr & _) | [(_ & Hr & _) | (_ & d1 & r2 & st2 & _ & _ & F & H)]];
    [discriminate Hr | discriminate Hr |].
  destruct H as [(_ & _ & ->) | [(_ & _ & Hr & _) | (_ & _ & Hr & _)]];
    [|discriminate Hr ..].
  revert F.
  apply (foreach_invariant p env
           (fun st => fs st !! indexPath_of (resolved_output p env)
                      = files !! indexPath_of (resolved_output p env))).
  - intros file st r1 st1 Hin HI Hrun.
    rewrite (turn_frame _ _ _ _ _ _ _ _ _ Hrun (Hturns file Hin)). exact HI.
  - cbn [fs]. rewrite prepared_lookup by exact Hpause.
    apply mkdir_lookup_ne, Hout.
Qed.

Lemma held_run_keeps_its_results_witness :
  exists n,
    n < length (mediaFiles (sample_params false "" "C:\out\pause.flag")
                  (sample_env sample_files 0))
    /\ 2 <= length (mediaFiles (sample_params false "" "C:\out\pause.flag")
                      (sample_env sample_files 0))
    /\ Forall2 (recorded (sample_params false "" "C:\out\pause.flag")
                  (sample_env sample_files 0)
                  (resolved_output (sample_params false "" "C:\out\pause.flag")
                     (sample_env sample_files 0)))
         (take n (mediaFiles (sample_params false "" "C:\out\pause.flag")
                    (sample_env sample_files 0)))
         (results (snd (script (sample_params false "" "C:\out\pause.flag")
                          (sample_env sample_files 0)
                          (start sample_fs [false; false; false; true; true]))))
    /\ processed (snd (script (sample_params false "" "C:\out\pause.flag")
                         (sample_env sample_files 0)
                         (start sample_fs [false; false; false; true; true])))
       = Z.of_nat n
    /\ (indexPath_of (resolved_output (sample_params false "" "C:\out\pause.flag")
                        (sample_env sample_files 0))
        <> OutputFolder (sample_params false "" "C:\out\pause.flag") ->
        indexPath_of (resolved_output (sample_params false "" "C:\out\pause.flag")
                        (sample_env sample_files 0))
        <> Split_Path_Parent
             (PauseFlagFile (sample_params false "" "C:\out\pause.flag")) ->
        (forall file,
           In file (mediaFiles (sample_params false "" "C:\out\pause.flag")
                      (sample_env sample_files 0)) ->
           indexPath_of (resolved_output (sample_params false "" "C:\out\pause.flag")
                           (sample_env sample_files 0))
           ∉ turn_paths (resolved_output (sample_params false "" "C:\out\pause.flag")
                           (sample_env sample_files 0))
               file) ->
        fs (snd (script (sample_params false "" "C:\out\pause.flag")
                   (sample_env sample_files 0)
                   (start sample_fs [false; false; false; true; true])))
          !! indexPath_of (resolved_output (sample_params false "" "C:\out\pause.flag")
                             (sample_env sample_files 0))
        = sample_fs
            !! indexPath_of (resolved_output (sample_params false "" "C:\out\pause.flag")
                               (sample_env sample_files 0))).
Proof.
  apply (held_run_keeps_its_results (sample_params false "" "C:\out\pause.flag")
           (sample_env sample_files 0) sample_fs [false; false; false; true; true]).
  apply pair_of_fst. vm_compute. reflexivity.
Defined.

(** The first recording is transcribed, and the run waits before the
    second. *)
Example held_run :
  let run := script (sample_params false "" "C:\out\pause.flag")
               (sample_env sample_files 0)
               (start sample_fs [false; false; false; true; true]) in
  fst run = Held
  /\ results (snd run)
     = [result "ok" sample_file "C:\out\2024-02-01\2024-02-01-service" ""]
  /\ processed (snd run) = 1%Z.
Proof. vm_compute. repeat split. Qed.
